(** * alea: the toy Monte Carlo [Runner] (alea/runner.py)

    A shallow embedding of the [Runner] class: construction and validation
    ([__init__], the [generate_values] and [common_hypothesis] setters,
    [_update_poi], [_get_parameter_list], [_get_hypotheses]), the toy-data
    generator ([data_generator]) and the simulate-and-fit loop.

    The statistical model, the toy-data store and the Python/numpy runtime
    are collaborators of the runner: they are taken as an interface
    ([External]) acting on an opaque external state.  Python exceptions are
    results [Raise e]; the external state survives an exception, as it does
    in Python. *)

From stdpp Require Import base gmap strings list sorting pretty.
From Stdlib Require Import ZArith QArith.

Local Open Scope Z_scope.

(** ** Python values *)

(** Python floats are kept abstract: the runner itself only writes the
    literal [0.0] and [np.nan], and divides with [/]. *)
Class PyFloat := {
  float : Type;
  float_zero : float;   (* 0.0 *)
  float_nan : float;    (* np.nan *)
}.

Inductive pyval `{PyFloat} :=
| PyFloatV (x : float)
| PyInt (n : Z)
| PyBool (b : bool)
| PyStr (s : string)
| PyNone.

Abbreviation dict := (gmap string pyval).

(** [isinstance(v, (float, int))]: [bool] is a subclass of [int]. *)
Definition isinstance_float_int `{PyFloat} (v : pyval) : bool :=
  match v with
  | PyFloatV _ | PyInt _ | PyBool _ => true
  | PyStr _ | PyNone => false
  end.

(** [all([isinstance(v, (float, int)) for v in value.values()])] *)
Definition all_float_int `{PyFloat} (value : dict) : bool :=
  forallb isinstance_float_int (map_to_list value).*2.

(** ** Strings *)

(** [s.endswith(suffix)] *)
Fixpoint endswith (s suffix : string) : bool :=
  if String.eqb s suffix then true
  else match s with
       | EmptyString => false
       | String _ s' => endswith s' suffix
       end.

(** [s.replace(old, new)] for a non-empty [old]: occurrences are replaced
    from the left and do not overlap; [skip] counts the characters of the
    occurrence under the cursor that are still to be dropped. *)
Fixpoint replace_from (skip : nat) (old new s : string) : string :=
  match s with
  | EmptyString => EmptyString
  | String c s' =>
      match skip with
      | S k => replace_from k old new s'
      | O =>
          if String.prefix old s
          then new +:+ replace_from (pred (String.length old)) old new s'
          else String c (replace_from O old new s')
      end
  end.

Definition str_replace (s old new : string) : string := replace_from O old new s.

(** [sorted(names)] on strings: code point order. *)
Definition str_le (a b : string) : Prop := String.leb a b = true.

#[global] Instance str_le_dec : RelDecision str_le.
Proof. intros a b. unfold str_le. apply _. Defined.

Definition sorted (names : list string) : list string := merge_sort str_le names.

(** ** Exceptions *)

(** One constructor per [raise] of the runner, with the values the message
    is formatted from. *)
Inductive message `{PyFloat} :=
| GenerateValuesNotFloat (value : dict)
| CommonHypothesisNotFloat (value : dict)
| PoiAlongWithExpectation (poi : string)
| PoiShouldEndWith (poi : string)
| HypothesesEmpty
| FreeNeededForConfidenceInterval
| FreeNotFirst
| PoiNotInGenerateValues (poi : string)
| HypothesisNotFloat (array : dict)
| UnknownToydataMode (mode : string)
| OnlyToydataMode (mode : string)
| StoredToydataLess (stored : nat) (n_mc : Z)
| HypothesisNotFittable (hypothesis_values : dict) (fittable : list string)
| DictUpdateSequence (s : string)     (* dict.update on a non-empty str *)
| NegativeDimensions.                 (* np.zeros of a negative length *)

Inductive exn `{PyFloat} :=
| ValueError (m : message)
| KeyError (key : string)
| IndexError
| ZeroDivisionError
| UnboundLocalError (name : string)
| ExternalError (what : string).      (* raised inside a collaborator *)

Inductive result `{PyFloat} (A : Type) :=
| Ok (a : A)
| Raise (e : exn).
Arguments Ok {_ _} a.
Arguments Raise {_ _} e.

#[global] Instance result_ret `{PyFloat} : MRet result := fun _ a => Ok a.
#[global] Instance result_bind `{PyFloat} : MBind result :=
  fun _ _ f m => match m with Ok a => f a | Raise e => Raise e end.

(** ** Result tables *)

(** A structured numpy array whose fields are all [float]: the field names
    of its dtype and one tuple per row. *)
Record ndarray `{PyFloat} := {
  dtype_names : list string;
  rows : list (list float);
}.

(** Metadata written next to the results; the four keys set by
    [write_output] are kept apart from the user's own. *)
Record output_metadata `{PyFloat} := {
  md_user : dict;
  md_date : string;
  md_poi : string;
  md_common_hypothesis : dict;
  md_generate_values : dict;
}.

(** ** Collaborators *)

(** The statistical model ([self.model]), the toy-data files
    ([toydata_from_file], [numpy_to_toyfile]) and the numeric runtime.
    [St] is everything outside the runner: the model instance with its
    current data, the random generator, the files. *)
Class External `{PyFloat} := {
  St : Type;
  Data : Type;                (* one toy dataset *)
  Names : Type;               (* toydata_names *)
  Config : Type;              (* model configuration arguments *)
  (* lines 95-128: look the model class up and instantiate it *)
  build_model : string → dict → Config → St → result unit * St;
  get_parameter_list : St → list string;
  fittable : St → list string;          (* self.model.parameters.fittable *)
  get_expectation_values : dict → St → result dict * St;
  generate_data : dict → St → result Data * St;
  store_data : string → list Data → option Names → St → result unit * St;
  toydata_from_file : string → St → result (list Data * Names) * St;
  set_data : option Data → St → result unit * St;   (* self.model.data = data *)
  fit : dict → St → result (dict * pyval) * St;
  confidence_interval : string → dict → dict → St → result (pyval * pyval) * St;
  data_truthy : Data → result bool;     (* bool(data) *)
  truediv : pyval → pyval → result pyval;           (* a / b *)
  numpy_float : pyval → result float;   (* store into a float field *)
  strftime_now : St → string;           (* datetime.now().strftime(...) *)
  numpy_to_toyfile :
    string → list (ndarray * string) → output_metadata → list dict →
    St → result unit * St;
}.

(** ** The world and the runner's monad *)

Section Runner.
Context `{Ext : External}.

(** Calls made to the collaborators, in order. *)
Inductive event :=
| EvBuildModel (name : string) (nominal_values : dict) (cfg : Config)
| EvExpectationValues (kwargs : dict)
| EvReadToydata (file : string)
| EvWarnStoredToydataLarger (stored : nat) (n_mc : Z)
| EvGenerateData (kwargs : dict)
| EvStoreData (file : string) (toydata : list Data) (names : option Names)
| EvSetData (data : option Data)
| EvFit (kwargs : dict)
| EvConfidenceInterval (poi_name : string) (best_fit_args ci_args : dict)
| EvWriteOutput (file : string).

Record world := World {
  ext : St;
  log : list event;
}.

Definition M (A : Type) : Type := world → result A * world.

#[global] Instance M_ret : MRet M := fun _ a w => (Ok a, w).
#[global] Instance M_bind : MBind M := fun _ _ f m w =>
  match m w with
  | (Ok a, w') => f a w'
  | (Raise e, w') => (Raise e, w')
  end.

Definition raise {A} (e : exn) : M A := fun w => (Raise e, w).

Definition liftR {A} (x : result A) : M A := fun w => (x, w).

(** Call a collaborator and record the call. *)
Definition call {A} (ev : event) (op : St → result A * St) : M A := fun w =>
  let '(x, s) := op (ext w) in (x, World s (log w ++ [ev])).

(** Read an attribute of the model. *)
Definition read {A} (f : St → A) : M A := fun w => (Ok (f (ext w)), w).

(** [warnings.warn] *)
Definition warn (ev : event) : M unit := fun w => (Ok tt, World (ext w) (log w ++ [ev])).

(** The events that touch toy data. *)
Definition toydata_event (ev : event) : bool :=
  match ev with
  | EvReadToydata _ | EvGenerateData _ | EvStoreData _ _ _ | EvSetData _ => true
  | _ => false
  end.

(** [m] only adds events satisfying [P] to the log. *)
Definition emits {A} (P : event → Prop) (m : M A) : Prop :=
  ∀ w x w', m w = (x, w') → ∃ evs, log w' = log w ++ evs ∧ Forall P evs.

(** ** Construction and validation *)

Inductive hypothesis :=
| HypStr (s : string)
| HypDict (d : dict).

Record RunnerArgs := {
  arg_statistical_model : string;
  arg_poi : string;
  arg_hypotheses : list hypothesis;
  arg_n_mc : Z;
  arg_common_hypothesis : option dict;
  arg_generate_values : option dict;
  arg_nominal_values : option dict;
  arg_model_config : Config;
  arg_compute_confidence_interval : bool;
  arg_toydata_mode : string;
  arg_toydata_file : string;
  arg_only_toydata : bool;
  arg_output_file : string;
  arg_metadata : option dict;
}.

Record Runner := {
  poi : string;
  hypotheses : list hypothesis;
  common_hypothesis : dict;
  generate_values : dict;
  nominal_values : dict;
  _compute_confidence_interval : bool;
  _n_mc : Z;
  _toydata_file : string;
  _toydata_mode : string;
  _output_file : string;
  only_toydata : bool;
  _metadata : dict;
  _result_names : list string;
  _result_dtype : list string;
  _hypotheses_values : list dict;
}.

(** [Runner._update_poi]; the updated [generate_values] is returned. *)
Definition _update_poi (poi : string) (generate_values nominal_values : dict) : M dict :=
  match generate_values !! "poi_expectation" with
  | None => mret generate_values
  | Some poi_expectation =>
      if decide (is_Some (generate_values !! poi)) then
        raise (ValueError (PoiAlongWithExpectation poi))
      else if negb (endswith poi "_rate_multiplier") then
        raise (ValueError (PoiShouldEndWith poi))
      else
        let generate_values_copy := delete "poi_expectation" generate_values in
        let kwargs := nominal_values ∪ generate_values_copy in
        expectation_values ← call (EvExpectationValues kwargs) (get_expectation_values kwargs);
        let component := str_replace poi "_rate_multiplier" "" in
        match expectation_values !! component with
        | None => raise (KeyError component)
        | Some nominal_expectation =>
            ratio ← liftR (truediv poi_expectation nominal_expectation);
            mret (<[poi := ratio]> (delete "poi_expectation" generate_values))
        end
  end.

(** The [generate_values] setter. *)
Definition set_generate_values (poi : string) (nominal_values value : dict) : M dict :=
  if negb (all_float_int value) then raise (ValueError (GenerateValuesNotFloat value))
  else _update_poi poi value nominal_values.

(** The [common_hypothesis] setter. *)
Definition set_common_hypothesis (value : dict) : M dict :=
  if negb (all_float_int value) then raise (ValueError (CommonHypothesisNotFloat value))
  else mret value.

(** [Runner._get_parameter_list]: [(result_names, result_dtype)]. *)
Definition _get_parameter_list : M (list string * list string) :=
  names ← read get_parameter_list;
  let parameter_list := sorted names in
  let result_names := parameter_list ++ ["ll"; "dl"; "ul"] in
  let result_dtype := parameter_list ++ ["ll"; "dl"; "ul"] in
  mret (result_names, result_dtype).

(** [h == s] for an element of the hypothesis list and a string. *)
Definition hyp_eq (s : string) (h : hypothesis) : bool :=
  match h with
  | HypStr t => String.eqb t s
  | HypDict _ => false
  end.

(** [l.index(x)], [None] for the [ValueError] of an absent element. *)
Fixpoint list_index {A} (p : A → bool) (l : list A) : option nat :=
  match l with
  | [] => None
  | x :: l' => if p x then Some O else S <$> list_index p l'
  end.

(** [array.update(other)] *)
Definition dict_update (array : dict) (other : hypothesis) : result dict :=
  match other with
  | HypDict d => Ok (d ∪ array)
  | HypStr EmptyString => Ok array
  | HypStr s => Raise (ValueError (DictUpdateSequence s))
  end.

(** The body of the loop of [Runner._get_hypotheses]. *)
Definition resolve_hypothesis (poi : string) (generate_values common_hypothesis : dict)
    (hypothesis : hypothesis) : result dict :=
  hypothesis ←
    (if hyp_eq "null" hypothesis then
       Ok (HypDict {[ poi := PyFloatV float_zero ]})
     else if hyp_eq "true" hypothesis then
       match generate_values !! poi with
       | None => Raise (ValueError (PoiNotInGenerateValues poi))
       | Some v => Ok (HypDict {[ poi := v ]})
       end
     else if hyp_eq "free" hypothesis then
       Ok (HypDict ∅)
     else Ok hypothesis);
  array ← dict_update common_hypothesis hypothesis;
  if negb (all_float_int array) then Raise (ValueError (HypothesisNotFloat array))
  else Ok array.

(** [Runner._get_hypotheses] *)
Definition _get_hypotheses (poi : string) (hypotheses : list hypothesis)
    (common_hypothesis generate_values : dict) (compute_confidence_interval : bool)
    : result (list dict) :=
  if decide (length hypotheses = O) then Raise (ValueError HypothesesEmpty)
  else if negb (existsb (hyp_eq "free") hypotheses) && compute_confidence_interval then
    Raise (ValueError FreeNeededForConfidenceInterval)
  else if existsb (hyp_eq "free") hypotheses
          && negb (bool_decide (list_index (hyp_eq "free") hypotheses = Some O)) then
    Raise (ValueError FreeNotFirst)
  else mapM (resolve_hypothesis poi generate_values common_hypothesis) hypotheses.

(** [Runner.__init__] *)
Definition init (args : RunnerArgs) : M Runner :=
  let nominal_values := default ∅ (arg_nominal_values args) in
  call (EvBuildModel (arg_statistical_model args) nominal_values (arg_model_config args))
       (build_model (arg_statistical_model args) nominal_values (arg_model_config args));;
  let poi := arg_poi args in
  let hypotheses := arg_hypotheses args in
  common_hypothesis ← set_common_hypothesis (default ∅ (arg_common_hypothesis args));
  generate_values ←
    set_generate_values poi nominal_values (default ∅ (arg_generate_values args));
  '(result_names, result_dtype) ← _get_parameter_list;
  hypotheses_values ←
    liftR (_get_hypotheses poi hypotheses common_hypothesis generate_values
             (arg_compute_confidence_interval args));
  mret {|
    poi := poi;
    hypotheses := hypotheses;
    common_hypothesis := common_hypothesis;
    generate_values := generate_values;
    nominal_values := nominal_values;
    _compute_confidence_interval := arg_compute_confidence_interval args;
    _n_mc := arg_n_mc args;
    _toydata_file := arg_toydata_file args;
    _toydata_mode := arg_toydata_mode args;
    _output_file := arg_output_file args;
    only_toydata := arg_only_toydata args;
    _metadata := default ∅ (arg_metadata args);
    _result_names := result_names;
    _result_dtype := result_dtype;
    _hypotheses_values := hypotheses_values;
  |}.

(** The same constructor arguments with other values of [toydata_mode]
    and [only_toydata]. *)
Definition with_toydata_options (args : RunnerArgs) (toydata_mode : string)
    (only_toydata : bool) : RunnerArgs := {|
  arg_statistical_model := arg_statistical_model args;
  arg_poi := arg_poi args;
  arg_hypotheses := arg_hypotheses args;
  arg_n_mc := arg_n_mc args;
  arg_common_hypothesis := arg_common_hypothesis args;
  arg_generate_values := arg_generate_values args;
  arg_nominal_values := arg_nominal_values args;
  arg_model_config := arg_model_config args;
  arg_compute_confidence_interval := arg_compute_confidence_interval args;
  arg_toydata_mode := toydata_mode;
  arg_toydata_file := arg_toydata_file args;
  arg_only_toydata := only_toydata;
  arg_output_file := arg_output_file args;
  arg_metadata := arg_metadata args;
|}.

(** ** The toy-data generator *)

(** [Runner.data_generator] is a Python generator.  It is split at its
    [yield]: what runs before the loop, what produces the datum of one
    iteration, and what runs once the loop is exhausted.  The local list
    [toydata] is threaded through. *)

Definition toydata_modes : list string :=
  ["read"; "generate"; "generate_and_write"; "no_toydata"].

(** Lines 321-349: mode checks and the size check of stored toy data. *)
Definition data_generator_start (r : Runner) : M (list Data * option Names) :=
  if negb (bool_decide (_toydata_mode r ∈ toydata_modes)) then
    raise (ValueError (UnknownToydataMode (_toydata_mode r)))
  else if only_toydata r && negb (String.eqb (_toydata_mode r) "generate_and_write") then
    raise (ValueError (OnlyToydataMode (_toydata_mode r)))
  else if String.eqb (_toydata_mode r) "read" then
    '(toydata, toydata_names) ←
      call (EvReadToydata (_toydata_file r)) (toydata_from_file (_toydata_file r));
    (if Z.of_nat (length toydata) <? _n_mc r then
       raise (ValueError (StoredToydataLess (length toydata) (_n_mc r)))
     else if Z.of_nat (length toydata) >? _n_mc r then
       warn (EvWarnStoredToydataLarger (length toydata) (_n_mc r))
     else mret tt);;
    mret (toydata, Some toydata_names)
  else mret ([], None).

(** Lines 352-361: the datum yielded at iteration [i_mc]. *)
Definition data_generator_next (r : Runner) (i_mc : nat) (toydata : list Data)
    : M (option Data * list Data) :=
  if String.eqb (_toydata_mode r) "generate"
     || String.eqb (_toydata_mode r) "generate_and_write" then
    data ← call (EvGenerateData (generate_values r)) (generate_data (generate_values r));
    if String.eqb (_toydata_mode r) "generate_and_write"
    then mret (Some data, toydata ++ [data])
    else mret (Some data, toydata)
  else if String.eqb (_toydata_mode r) "read" then
    match toydata !! i_mc with
    | Some data => mret (Some data, toydata)
    | None => raise IndexError
    end
  else if String.eqb (_toydata_mode r) "no_toydata" then
    mret (None, toydata)
  else raise (UnboundLocalError "data").

(** Lines 362-364: after the last iteration. *)
Definition data_generator_finish (r : Runner) (toydata : list Data)
    (toydata_names : option Names) : M unit :=
  if String.eqb (_toydata_mode r) "generate_and_write" then
    call (EvStoreData (_toydata_file r) toydata toydata_names)
         (store_data (_toydata_file r) toydata toydata_names)
  else mret tt.

(** [for i_mc, data in enumerate(self.data_generator()): body], from
    iteration [i_mc] on with [n] iterations left; [acc] is what the body
    updates. *)
Fixpoint for_data {A} (r : Runner) (body : nat → option Data → A → M A)
    (i_mc n : nat) (toydata : list Data) (acc : A) : M (list Data * A) :=
  match n with
  | O => mret (toydata, acc)
  | S n' =>
      '(data, toydata) ← data_generator_next r i_mc toydata;
      acc ← body i_mc data acc;
      for_data r body (S i_mc) n' toydata acc
  end.

Definition for_data_generator {A} (r : Runner) (body : nat → option Data → A → M A)
    (acc : A) : M A :=
  '(toydata, toydata_names) ← data_generator_start r;
  '(toydata, acc) ← for_data r body O (Z.to_nat (_n_mc r)) toydata acc;
  data_generator_finish r toydata toydata_names;;
  mret acc.

(** [all(self.data_generator())]: stops at the first falsy datum and leaves
    the generator suspended there. *)
Fixpoint all_data (r : Runner) (i_mc n : nat) (toydata : list Data)
    (toydata_names : option Names) : M unit :=
  match n with
  | O => data_generator_finish r toydata toydata_names
  | S n' =>
      '(data, toydata) ← data_generator_next r i_mc toydata;
      truthy ← liftR (match data with
                      | Some d => data_truthy d
                      | None => Ok false
                      end);
      if (truthy : bool) then all_data r (S i_mc) n' toydata toydata_names
      else mret tt
  end.

(** The plain loop over a list of stored records, numbered from [i_mc]. *)
Fixpoint for_each {A} (body : nat → option Data → A → M A)
    (i_mc : nat) (records : list Data) (acc : A) : M A :=
  match records with
  | [] => mret acc
  | data :: records =>
      acc ← body i_mc (Some data) acc;
      for_each body (S i_mc) records acc
  end.

(** [Runner.simulate] *)
Definition simulate (r : Runner) : M unit :=
  '(toydata, toydata_names) ← data_generator_start r;
  all_data r O (Z.to_nat (_n_mc r)) toydata toydata_names.

(** ** Simulate and fit *)

(** [np.zeros(n, dtype=dtype)] *)
Definition np_zeros (n : Z) (dtype : list string) : result ndarray :=
  if n <? 0 then Raise (ValueError NegativeDimensions)
  else Ok {| dtype_names := dtype;
             rows := replicate (Z.to_nat n) (replicate (length dtype) float_zero) |}.

(** [result_array[i_mc] = row] *)
Definition setitem (result_array : ndarray) (i_mc : nat) (row : list float)
    : result ndarray :=
  if decide (i_mc < length (rows result_array))%nat then
    Ok {| dtype_names := dtype_names result_array;
          rows := <[i_mc := row]> (rows result_array) |}
  else Raise IndexError.

(** [tuple(fit_result[pn] for pn in self._result_names)], then its
    conversion to the float fields of the row. *)
Definition result_row (result_names : list string) (fit_result : dict)
    : result (list float) :=
  values ← mapM (fun pn => match fit_result !! pn with
                           | Some v => Ok v
                           | None => Raise (KeyError pn)
                           end) result_names;
  mapM numpy_float values.

(** Lines 393-400: the bound pair of one hypothesis. *)
Definition bounds (r : Runner) (hypothesis_values : dict) : M (pyval * pyval) :=
  if _compute_confidence_interval r
     && negb (bool_decide (is_Some (hypothesis_values !! poi r))) then
    match _hypotheses_values r with
    | best_fit_args :: _ =>
        call (EvConfidenceInterval (poi r) best_fit_args hypothesis_values)
             (confidence_interval (poi r) best_fit_args hypothesis_values)
    | [] => raise IndexError
    end
  else mret (PyFloatV float_nan, PyFloatV float_nan).

(** Lines 384-404: the body of the loop over the hypotheses. *)
Definition fit_hypothesis (r : Runner) (hypothesis_values : dict) : M dict :=
  fittable_names ← read fittable;
  if negb (bool_decide (dom hypothesis_values ∖ list_to_set fittable_names
                        = (∅ : gset string))) then
    raise (ValueError (HypothesisNotFittable hypothesis_values fittable_names))
  else
    '(fit_result, max_llh) ← call (EvFit hypothesis_values) (fit hypothesis_values);
    let fit_result := <["ll" := max_llh]> fit_result in
    '(dl, ul) ← bounds r hypothesis_values;
    let fit_result := <["dl" := dl]> fit_result in
    let fit_result := <["ul" := ul]> fit_result in
    mret fit_result.

(** Lines 406-407: write the records of iteration [i_mc]. *)
Definition assign_results (r : Runner) (i_mc : nat) (fit_results : list dict)
    (results : list ndarray) : result (list ndarray) :=
  mapM (fun '(fit_result, result_array) =>
          row ← result_row (_result_names r) fit_result;
          setitem result_array i_mc row)
       (zip fit_results results).

(** Lines 381-407: one Monte Carlo iteration. *)
Definition iteration (r : Runner) (i_mc : nat) (data : option Data)
    (results : list ndarray) : M (list ndarray) :=
  call (EvSetData data) (set_data data);;
  fit_results ← mapM (fit_hypothesis r) (_hypotheses_values r);
  liftR (assign_results r i_mc fit_results results).

(** [Runner.simulate_and_fit] *)
Definition simulate_and_fit (r : Runner) : M (list ndarray) :=
  results ← liftR (mapM (fun _ : dict => np_zeros (_n_mc r) (_result_dtype r))
                        (_hypotheses_values r));
  for_data_generator r (iteration r) results.

(** The rows of one iteration, one per hypothesis in list order: what
    [iteration] computes before it writes into the tables. *)
Definition iteration_records (r : Runner) (data : option Data) : M (list (list float)) :=
  call (EvSetData data) (set_data data);;
  fit_results ← mapM (fit_hypothesis r) (_hypotheses_values r);
  liftR (mapM (result_row (_result_names r)) fit_results).

(** The records of a whole run, collected by iteration instead of being
    written into tables: element [i] holds the rows of repetition [i]. *)
Definition fit_records (r : Runner) : M (list (list (list float))) :=
  for_data_generator r
    (fun _ data records =>
       rows_i ← iteration_records r data;
       mret (records ++ [rows_i]))
    [].

(** The loop invariant of [simulate_and_fit] after [i_mc] iterations:
    there is one table per hypothesis, each with the dtype of the runner
    and [n_mc] rows of one field per column, and row [i] of table [j], for
    the iterations done, is the row of hypothesis [j] in [records !! i]. *)
Definition tables_hold (r : Runner) (i_mc : nat) (results : list ndarray)
    (records : list (list (list float))) : Prop :=
  length records = i_mc ∧
  length results = length (_hypotheses_values r) ∧
  ∀ j t, results !! j = Some t →
    dtype_names t = _result_dtype r ∧
    length (rows t) = Z.to_nat (_n_mc r) ∧
    Forall (λ row, length row = length (_result_names r)) (rows t) ∧
    ∀ i, (i < i_mc)%nat → rows t !! i = records !! i ≫= (.!! j).

(** ** Output *)

(** [for i, ea in enumerate(self.hypotheses)]: a symbolic hypothesis gives
    its name to table [i] (lines 285-287); [result_names[i] = ea] raises
    [IndexError] when there is no table [i]. *)
Fixpoint rename_symbolic (i : nat) (hyps : list hypothesis) (result_names : list string)
    : result (list string) :=
  match hyps with
  | [] => Ok result_names
  | ea :: hyps' =>
      result_names ←
        match ea with
        | HypStr s =>
            if bool_decide (s ∈ ["free"; "null"; "true"]) then
              if decide (i < length result_names)%nat
              then Ok (<[i := s]> result_names)
              else Raise IndexError
            else Ok result_names
        | HypDict _ => Ok result_names
        end;
      rename_symbolic (S i) hyps' result_names
  end.

(** The names under which the tables are stored (lines 284-287). *)
Definition output_names (r : Runner) : result (list string) :=
  let result_names := (fun i : nat => pretty i) <$> seq 0 (length (_hypotheses_values r)) in
  rename_symbolic 0 (hypotheses r) result_names.

(** [Runner.write_output] *)
Definition write_output (r : Runner) (results : list ndarray) : M unit :=
  result_names ← liftR (output_names r);
  date ← read strftime_now;
  let metadata := {|
    md_user := delete "generate_values" (delete "common_hypothesis"
                 (delete "poi" (delete "date" (_metadata r))));
    md_date := date;
    md_poi := poi r;
    md_common_hypothesis := common_hypothesis r;
    md_generate_values := generate_values r;
  |} in
  call (EvWriteOutput (_output_file r))
       (numpy_to_toyfile (_output_file r) (zip results result_names) metadata
          (_hypotheses_values r)).

(** [Runner.run] *)
Definition run (r : Runner) : M unit :=
  if only_toydata r then simulate r
  else
    results ← simulate_and_fit r;
    write_output r results.

End Runner.

(** ** A concrete setting

    Rational-valued floats and a deterministic stand-in for
    [alea.examples.gaussian_model.GaussianModel] (parameters [mu] and
    [sigma], "sigma is fixed in this example"), used to evaluate the
    runner on concrete inputs. *)
Module Example.

(** [None] stands for NaN. *)
#[export] Instance qfloat : PyFloat := {|
  float := option Q;
  float_zero := Some 0%Q;
  float_nan := None;
|}.

Definition qf (q : Q) : pyval := PyFloatV (Some q).

Definition to_float (v : pyval) : result float :=
  match v with
  | PyFloatV x => Ok x
  | PyInt n => Ok (Some (inject_Z n))
  | PyBool b => Ok (Some (if b then 1%Q else 0%Q))
  | PyStr _ | PyNone => Raise (ExternalError "could not convert to float")
  end.

Definition q_truediv (a b : pyval) : result pyval :=
  x ← to_float a;
  y ← to_float b;
  match x, y with
  | Some p, Some q =>
      if Qeq_bool q 0 then Raise ZeroDivisionError
      else Ok (PyFloatV (Some (Qred (p / q))))
  | _, _ => Ok (PyFloatV None)
  end.

Record state := {
  st_data : option Z;                   (* the model's current data *)
  st_draws : Z;                         (* datasets generated so far *)
  st_files : gmap string (list Z);      (* stored toy data *)
  st_outputs : list string;             (* output files written *)
}.

Definition ex_fit (kwargs : dict) (s : state) : result (dict * pyval) * state :=
  let hat_mu := PyInt (default 0 (st_data s)) in
  let fit_result : dict :=
    {[ "mu" := default hat_mu (kwargs !! "mu");
       "sigma" := default (PyInt 1) (kwargs !! "sigma") ]} in
  (Ok (fit_result, PyInt (- 1)), s).

#[export] Instance gaussian : External := {|
  St := state;
  Data := Z;
  Names := unit;
  Config := unit;
  build_model _ _ _ s := (Ok tt, s);
  get_parameter_list _ := ["sigma"; "mu"];
  fittable _ := ["mu"];
  get_expectation_values _ s := (Ok {[ "signal" := PyFloatV (Some 4%Q) ]}, s);
  generate_data _ s :=
    (Ok (10 + st_draws s),
     {| st_data := st_data s; st_draws := st_draws s + 1;
        st_files := st_files s; st_outputs := st_outputs s |});
  store_data file toydata _ s :=
    (Ok tt,
     {| st_data := st_data s; st_draws := st_draws s;
        st_files := <[file := toydata]> (st_files s); st_outputs := st_outputs s |});
  toydata_from_file file s :=
    (match st_files s !! file with
     | Some toydata => Ok (toydata, tt)
     | None => Raise (ExternalError "no such toy-data file")
     end, s);
  set_data data s :=
    (Ok tt,
     {| st_data := data; st_draws := st_draws s;
        st_files := st_files s; st_outputs := st_outputs s |});
  fit := ex_fit;
  confidence_interval _ _ _ s := (Ok (PyInt (- 2), PyInt 2), s);
  data_truthy _ := Ok true;
  truediv := q_truediv;
  numpy_float := to_float;
  strftime_now _ := "20240101_00:00:00";
  numpy_to_toyfile file _ _ _ s :=
    (Ok tt,
     {| st_data := st_data s; st_draws := st_draws s;
        st_files := st_files s; st_outputs := st_outputs s ++ [file] |});
|}.

Definition s0 : state :=
  {| st_data := None; st_draws := 0;
     st_files := {[ "stored.h5" := [7; 8; 9; 10; 11] ]}; st_outputs := [] |}.

Definition w0 : world := World s0 [].

(** The defaults of [Runner.__init__], with hypotheses [free] and [null]. *)
Definition args0 : RunnerArgs := {|
  arg_statistical_model := "alea.examples.gaussian_model.GaussianModel";
  arg_poi := "mu";
  arg_hypotheses := [HypStr "free"; HypStr "null"];
  arg_n_mc := 3;
  arg_common_hypothesis := None;
  arg_generate_values := None;
  arg_nominal_values := None;
  arg_model_config := tt;
  arg_compute_confidence_interval := false;
  arg_toydata_mode := "generate_and_write";
  arg_toydata_file := "test_toydata_file.h5";
  arg_only_toydata := false;
  arg_output_file := "test_output_file.h5";
  arg_metadata := None;
|}.

Definition args_with (hyps : list hypothesis) (mode : string) (only cci : bool)
    (gv : option dict) : RunnerArgs := {|
  arg_statistical_model := "alea.examples.gaussian_model.GaussianModel";
  arg_poi := "mu";
  arg_hypotheses := hyps;
  arg_n_mc := 3;
  arg_common_hypothesis := None;
  arg_generate_values := gv;
  arg_nominal_values := None;
  arg_model_config := tt;
  arg_compute_confidence_interval := cci;
  arg_toydata_mode := mode;
  arg_toydata_file := "stored.h5";
  arg_only_toydata := only;
  arg_output_file := "test_output_file.h5";
  arg_metadata := None;
|}.

(** The runner that [args_with [free; null] mode only cci gv] constructs
    when [gv] needs no resolution. *)
Definition runner_with (mode : string) (only cci : bool) (gv : dict) : Runner := {|
  poi := "mu";
  hypotheses := [HypStr "free"; HypStr "null"];
  common_hypothesis := ∅;
  generate_values := gv;
  nominal_values := ∅;
  _compute_confidence_interval := cci;
  _n_mc := 3;
  _toydata_file := "stored.h5";
  _toydata_mode := mode;
  _output_file := "test_output_file.h5";
  only_toydata := only;
  _metadata := ∅;
  _result_names := ["mu"; "sigma"; "ll"; "dl"; "ul"];
  _result_dtype := ["mu"; "sigma"; "ll"; "dl"; "ul"];
  _hypotheses_values := [∅; {[ "mu" := PyFloatV (Some 0%Q) ]}];
|}.

(** The world once the model is built. *)
Definition w_built : world :=
  World s0 [EvBuildModel "alea.examples.gaussian_model.GaussianModel" ∅ tt].

End Example.

(** * Loops and logs used to describe whole runs *)

Section RunnerLoops.
Context `{Ext : External}.

(** [for i in range(i_mc, i_mc + n): acc = step(i, acc)] *)
Fixpoint for_range {A} (step : nat → A → M A) (i_mc n : nat) (acc : A) : M A :=
  match n with
  | O => mret acc
  | S n' =>
      acc ← step i_mc acc;
      for_range step (S i_mc) n' acc
  end.

(** Whether a computation returned rather than raised. *)
Definition returns {A} (x : result A * world) : bool :=
  match x with
  | (Ok _, _) => true
  | (Raise _, _) => false
  end.

(** The datasets assigned to [self.model.data], in order. *)
Definition set_data_payloads (evs : list event) : list (option Data) :=
  omap (fun ev => match ev with EvSetData data => Some data | _ => None end) evs.

Definition is_store (ev : event) : bool :=
  match ev with EvStoreData _ _ _ => true | _ => false end.

Definition is_write_output (ev : event) : bool :=
  match ev with EvWriteOutput _ => true | _ => false end.

Definition is_set_data (ev : event) : bool :=
  match ev with EvSetData _ => true | _ => false end.

Definition is_fit (ev : event) : bool :=
  match ev with EvFit _ => true | _ => false end.

(** Events of the fits of one iteration. *)
Definition fit_event (ev : event) : bool :=
  match ev with EvFit _ | EvConfidenceInterval _ _ _ => true | _ => false end.

End RunnerLoops.

Section RunnerLogs.
Context `{Ext : External}.

(** The hypotheses the model was fitted with, in order. *)
Definition fit_payloads (evs : list event) : list dict :=
  omap (fun ev => match ev with EvFit kwargs => Some kwargs | _ => None end) evs.

End RunnerLogs.

(** * The submitter's argument handling (alea/submitter.py)

    The static methods of [Submitter] that turn one entry of the
    computation grid into the arguments of a [Runner]. *)

(** A value of [runner_args]: a scalar, a dict or a list. *)
#[local] Unset Elimination Schemes.
Inductive argval `{PyFloat} :=
| AVal (v : pyval)
| ADict (d : gmap string argval)
| AList (l : list argval).
#[local] Set Elimination Schemes.

Abbreviation args := (gmap string argval).

Inductive submit_message :=
| NotDivisibleByNBatch
| GenerateValuesNotFittable
| GenerateValuesNotAllFloat
| NominalValuesNotAllFloat
| ArgumentsNotSupported
| UnknownAnnotationType
| UnknownBoolValue (value : string)
| UnknownFormatCode.                  (* "{:d}".format of a float or a str *)

Inductive submit_exn :=
| SValueError (m : submit_message)
| SKeyError (key : string)
| STypeError
| SAttributeError
| SZeroDivisionError
| SRuntimeError (what : string).      (* raised by the runtime or a library *)

Inductive sresult (A : Type) :=
| SOk (a : A)
| SRaise (e : submit_exn).
Arguments SOk {_} a.
Arguments SRaise {_} e.

(** Whether a call returned rather than raised. *)
Definition is_SOk {A} (x : sresult A) : bool :=
  match x with
  | SOk _ => true
  | SRaise _ => false
  end.

#[global] Instance sresult_ret : MRet sresult := fun _ a => SOk a.
#[global] Instance sresult_bind : MBind sresult :=
  fun _ _ f m => match m with SOk a => f a | SRaise e => SRaise e end.

(** The types [can_assign_to_typing] is asked about. *)
Inductive pytype := TStr | TInt | TFloat | TBool | TDict | TList.

(** What the submitter takes from the Python runtime and from
    [alea.utils]. *)
Class SubmitRuntime `{PyFloat} := {
  Annotation : Type;
  can_assign_to_typing : pytype → Annotation → bool;
  other_mod : argval → argval → sresult argval;       (* a % b, not both int *)
  other_floordiv : argval → argval → sresult argval;  (* a // b, not both int *)
  other_ne_zero : argval → sresult bool;              (* a != 0, a not an int *)
  format_4f : argval → sresult string;                (* "{:.4f}".format(a) *)
  py_str : argval → string;                           (* str(a), a not a bool *)
  json_dumps : argval → sresult string;
  json_loads : string → sresult argval;
  parse_int : string → sresult argval;                (* int(s) *)
  parse_float : string → sresult argval;              (* float(s) *)
  path_join : string → string → string;               (* os.path.join(a, b) *)
  add_i_batch : argval → sresult argval;              (* alea.utils.add_i_batch *)
}.

Section Submitter.
Context `{SR : SubmitRuntime}.

(** An [int] operand; [bool] is a subclass of [int]. *)
Definition as_int (a : argval) : option Z :=
  match a with
  | AVal (PyInt n) => Some n
  | AVal (PyBool b) => Some (if b then 1 else 0)
  | _ => None
  end.

Definition py_mod (a b : argval) : sresult argval :=
  match as_int a, as_int b with
  | Some x, Some y =>
      if y =? 0 then SRaise SZeroDivisionError else SOk (AVal (PyInt (x mod y)))
  | _, _ => other_mod a b
  end.

Definition py_floordiv (a b : argval) : sresult argval :=
  match as_int a, as_int b with
  | Some x, Some y =>
      if y =? 0 then SRaise SZeroDivisionError else SOk (AVal (PyInt (x / y)))
  | _, _ => other_floordiv a b
  end.

Definition py_ne_zero (a : argval) : sresult bool :=
  match as_int a with
  | Some x => SOk (negb (x =? 0))
  | None => other_ne_zero a
  end.

(** [Submitter.update_n_batch]: the updated [runner_args], and whether the
    warning about a missing [n_mc] was logged. *)
Definition update_n_batch (runner_args : args) : sresult (bool * args) :=
  match runner_args !! "n_mc" with
  | None => SOk (true, runner_args)
  | Some n_mc =>
      match runner_args !! "n_batch" with
      | None => SOk (false, runner_args)
      | Some n_batch =>
          remainder ← py_mod n_mc n_batch;
          not_divisible ← py_ne_zero remainder;
          if (not_divisible : bool) then SRaise (SValueError NotDivisibleByNBatch)
          else
            quotient ← py_floordiv n_mc n_batch;
            SOk (false, <["n_mc" := quotient]> runner_args)
      end
  end.

(** [runner_args[key]] *)
Definition getitem (runner_args : args) (key : string) : sresult argval :=
  match runner_args !! key with
  | Some v => SOk v
  | None => SRaise (SKeyError key)
  end.

(** [if a is None: a = {}] *)
Definition none_to_empty (a : argval) : argval :=
  match a with
  | AVal PyNone => ADict ∅
  | _ => a
  end.

(** [target[k] = v] for every item of [items]; a target that is not a dict
    does not support the assignment. *)
Definition setitems (target : argval) (items : args) : sresult argval :=
  if decide (size items = O) then SOk target
  else match target with
       | ADict d => SOk (ADict (items ∪ d))
       | _ => SRaise STypeError
       end.

(** [runner_args[key].keys()] and [.values()]: the entry has to be a dict. *)
Definition getdict (runner_args : args) (key : string) : sresult args :=
  v ← getitem runner_args key;
  match v with
  | ADict d => SOk d
  | _ => SRaise SAttributeError
  end.

(** [isinstance(v, (float, int))] *)
Definition is_float_int (a : argval) : bool :=
  match a with
  | AVal v => isinstance_float_int v
  | _ => false
  end.

Definition all_is_float_int (d : args) : bool :=
  forallb is_float_int (map_to_list d).*2.

(** [Submitter.update_runner_args].  The loop over the items of
    [runner_args] sorts them by two membership tests; the entries it moves
    are those of the two filters below, and they are popped afterwards. *)
Definition update_runner_args (runner_args : args)
    (parameters_fittable parameters_not_fittable : list string) : sresult args :=
  generate_values ← getitem runner_args "generate_values";
  let runner_args := <["generate_values" := none_to_empty generate_values]> runner_args in
  nominal_values ← getitem runner_args "nominal_values";
  let runner_args := <["nominal_values" := none_to_empty nominal_values]> runner_args in
  let to_generate : args :=
    filter (fun kv => fst kv ∈ parameters_fittable) runner_args in
  let to_nominal : args :=
    filter (fun kv => (fst kv ∉ parameters_fittable) ∧ (fst kv ∈ parameters_not_fittable))
           runner_args in
  generate_values ← setitems (none_to_empty generate_values) to_generate;
  nominal_values ← setitems (none_to_empty nominal_values) to_nominal;
  let runner_args :=
    <["nominal_values" := nominal_values]>
      (<["generate_values" := generate_values]> runner_args) in
  let runner_args : args :=
    filter (fun kv => (fst kv ∉ parameters_fittable) ∧ (fst kv ∉ parameters_not_fittable))
           runner_args in
  generate_values ← getdict runner_args "generate_values";
  if negb (bool_decide (dom generate_values ⊆ (list_to_set parameters_fittable : gset string)))
  then SRaise (SValueError GenerateValuesNotFittable)
  else if negb (all_is_float_int generate_values)
  then SRaise (SValueError GenerateValuesNotAllFloat)
  else
    nominal_values ← getdict runner_args "nominal_values";
    if negb (all_is_float_int nominal_values)
    then SRaise (SValueError NominalValuesNotAllFloat)
    else SOk runner_args.

(** The parameters of [Runner.__init__] after [self], as
    [inspect.signature] lists them (runner.py, lines 74-92). *)
Definition runner_init_parameters : list string :=
  ["statistical_model"; "poi"; "hypotheses"; "n_mc"; "common_hypothesis";
   "generate_values"; "nominal_values"; "statistical_model_config";
   "parameter_definition"; "statistical_model_args"; "likelihood_config";
   "compute_confidence_interval"; "confidence_level"; "confidence_interval_kind";
   "toydata_mode"; "toydata_file"; "only_toydata"; "output_file"; "metadata"].

(** [Submitter.check_redunant_arguments] *)
Definition check_redunant_arguments (runner_args : args)
    (allowed_special_args : list string) : sresult unit :=
  let allowed := runner_init_parameters ++ ["n_batch"] ++ allowed_special_args in
  if bool_decide (dom runner_args ⊆ (list_to_set allowed : gset string)) then SOk tt
  else SRaise (SValueError ArgumentsNotSupported).

(** ["{:d}".format(value)] *)
Definition format_d (value : argval) : sresult string :=
  match as_int value with
  | Some n => SOk (pretty n)
  | None =>
      match value with
      | AVal (PyFloatV _) | AVal (PyStr _) => SRaise (SValueError UnknownFormatCode)
      | _ => SRaise STypeError
      end
  end.

(** [Submitter.arg_to_str] *)
Definition arg_to_str (value : argval) (annotation : Annotation) : sresult argval :=
  match value with
  | AVal PyNone => SOk (AVal (PyStr "None"))
  | _ =>
      if can_assign_to_typing TStr annotation then SOk value
      else if can_assign_to_typing TInt annotation then
        (s ← format_d value; SOk (AVal (PyStr s)))
      else if can_assign_to_typing TFloat annotation then
        (s ← format_4f value; SOk (AVal (PyStr s)))
      else if can_assign_to_typing TBool annotation then
        SOk (AVal (PyStr match value with
                         | AVal (PyBool true) => "True"
                         | AVal (PyBool false) => "False"
                         | _ => py_str value
                         end))
      else if can_assign_to_typing TDict annotation
              || can_assign_to_typing TList annotation then
        (s ← json_dumps value; SOk (AVal (PyStr (str_replace s " " ""))))
      else SRaise (SValueError UnknownAnnotationType)
  end.

(** [Submitter.str_to_arg] *)
Definition str_to_arg (value : string) (annotation : Annotation) : sresult argval :=
  if String.eqb value "None" then SOk (AVal PyNone)
  else if can_assign_to_typing TStr annotation then SOk (AVal (PyStr value))
  else if can_assign_to_typing TInt annotation then parse_int value
  else if can_assign_to_typing TFloat annotation then parse_float value
  else if can_assign_to_typing TBool annotation then
    if String.eqb value "True" then SOk (AVal (PyBool true))
    else if String.eqb value "False" then SOk (AVal (PyBool false))
    else SRaise (SValueError (UnknownBoolValue value))
  else if can_assign_to_typing TDict annotation
          || can_assign_to_typing TList annotation then json_loads value
  else SRaise (SValueError UnknownAnnotationType).

(** [value is None] *)
Definition is_none (value : argval) : bool :=
  match value with
  | AVal PyNone => true
  | _ => false
  end.

(** [os.path.join(outputfolder, value)]: only a [str] can be joined. *)
Definition os_path_join (outputfolder : string) (value : argval) : sresult argval :=
  match value with
  | AVal (PyStr s) => SOk (AVal (PyStr (path_join outputfolder s)))
  | _ => SRaise STypeError
  end.

(** The body of the loop of [Submitter.update_output_toydata] for one [f]. *)
Definition update_file_name (outputfolder f : string) (runner_args : args) :
    sresult args :=
  match runner_args !! f with
  | Some value =>
      if is_none value then SOk runner_args
      else match runner_args !! "n_batch" with
           | Some _ =>
               name ← add_i_batch value;
               path ← os_path_join outputfolder name;
               SOk (<[f := path]> runner_args)
           | None =>
               path ← os_path_join outputfolder value;
               SOk (<[f := path]> runner_args)
           end
  | None => SOk runner_args
  end.

(** [Submitter.update_output_toydata] *)
Definition update_output_toydata (runner_args : args) (outputfolder : string) :
    sresult args :=
  runner_args ← update_file_name outputfolder "output_filename" runner_args;
  update_file_name outputfolder "toydata_filename" runner_args.

(** [Submitter.update_limit_threshold] *)
Definition update_limit_threshold (runner_args : args) (outputfolder : string) :
    sresult args :=
  match runner_args !! "limit_threshold" with
  | Some value =>
      path ← os_path_join outputfolder value;
      SOk (<["limit_threshold" := path]> runner_args)
  | None => SOk runner_args
  end.

(** [runner_args["statistical_model_args"][key] = value]: the entry has to
    be there, and only a dict takes a string key. *)
Definition set_statistical_model_arg (key : string) (value : argval)
    (runner_args : args) : sresult args :=
  target ← getitem runner_args "statistical_model_args";
  match target with
  | ADict d => SOk (<["statistical_model_args" := ADict (<[key := value]> d)]> runner_args)
  | _ => SRaise STypeError
  end.

(** [Submitter.update_statistical_model_args] *)
Definition update_statistical_model_args (runner_args : args)
    (template_path : option string) : sresult args :=
  statistical_model_args ← getitem runner_args "statistical_model_args";
  let runner_args :=
    if is_none statistical_model_args
    then <["statistical_model_args" := ADict ∅]> runner_args
    else runner_args in
  runner_args ←
    match template_path with
    | Some path =>
        set_statistical_model_arg "template_path" (AVal (PyStr path)) runner_args
    | None => SOk runner_args
    end;
  match runner_args !! "limit_threshold" with
  | Some limit_threshold =>
      set_statistical_model_arg "limit_threshold" limit_threshold
        (delete "limit_threshold" runner_args)
  | None => SOk runner_args
  end.

End Submitter.

(** ** More concrete settings *)
Module Example2.
Import Example.

(** A runner like [runner_with], with any Monte Carlo count. *)
Definition runner_mc (mode : string) (n_mc : Z) : Runner := {|
  poi := "mu";
  hypotheses := [HypStr "free"; HypStr "null"];
  common_hypothesis := ∅;
  generate_values := ∅;
  nominal_values := ∅;
  _compute_confidence_interval := false;
  _n_mc := n_mc;
  _toydata_file := "stored.h5";
  _toydata_mode := mode;
  _output_file := "test_output_file.h5";
  only_toydata := false;
  _metadata := ∅;
  _result_names := ["mu"; "sigma"; "ll"; "dl"; "ul"];
  _result_dtype := ["mu"; "sigma"; "ll"; "dl"; "ul"];
  _hypotheses_values := [∅; {[ "mu" := PyFloatV (Some 0%Q) ]}];
|}.

(** The Gaussian stand-in with a model whose first dataset is falsy. *)
Definition falsy_model : External := {|
  St := state;
  Data := Z;
  Names := unit;
  Config := unit;
  build_model := @build_model _ gaussian;
  get_parameter_list := @get_parameter_list _ gaussian;
  fittable := @fittable _ gaussian;
  get_expectation_values := @get_expectation_values _ gaussian;
  generate_data := @generate_data _ gaussian;
  store_data := @store_data _ gaussian;
  toydata_from_file := @toydata_from_file _ gaussian;
  set_data := @set_data _ gaussian;
  fit := @fit _ gaussian;
  confidence_interval := @confidence_interval _ gaussian;
  data_truthy d := Ok (negb (d =? 10));
  truediv := @truediv _ gaussian;
  numpy_float := @numpy_float _ gaussian;
  strftime_now := @strftime_now _ gaussian;
  numpy_to_toyfile := @numpy_to_toyfile _ gaussian;
|}.

(** Annotations that are one of the plain types. *)
#[export] Instance pytype_eq_dec : EqDecision pytype.
Proof. solve_decision. Defined.

(** [posixpath.join] of two strings. *)
Definition posix_join (a b : string) : string :=
  if String.prefix "/" b then b
  else if String.eqb a "" || endswith a "/" then String.append a b
  else String.append a (String.append "/" b).

#[export] Instance plain_runtime : SubmitRuntime := {|
  Annotation := pytype;
  can_assign_to_typing t annotation := bool_decide (t = annotation);
  other_mod _ _ := SRaise STypeError;
  other_floordiv _ _ := SRaise STypeError;
  other_ne_zero _ := SRaise STypeError;
  format_4f _ := SRaise (SRuntimeError "float formatting");
  py_str _ := "";
  json_dumps _ := SRaise (SRuntimeError "json");
  json_loads _ := SRaise (SRuntimeError "json");
  parse_int _ := SRaise (SRuntimeError "int");
  parse_float _ := SRaise (SRuntimeError "float");
  path_join := posix_join;
  add_i_batch _ := SRaise (SRuntimeError "add_i_batch");
|}.

(** One entry of a computation grid: two model parameters next to the
    arguments of the runner. *)
Definition grid_args : args :=
  {[ "generate_values" := AVal PyNone; "nominal_values" := AVal PyNone;
     "mu" := AVal (PyInt 1); "sigma" := AVal (PyInt 2);
     "n_mc" := AVal (PyInt 10); "n_batch" := AVal (PyInt 5) ]}.

Definition grid_args_updated : args :=
  {[ "generate_values" := ADict {[ "mu" := AVal (PyInt 1) ]};
     "nominal_values" := ADict {[ "sigma" := AVal (PyInt 2) ]};
     "n_mc" := AVal (PyInt 10); "n_batch" := AVal (PyInt 5) ]}.

(** An entry with a file of limit thresholds and an output file. *)
Definition threshold_args : args :=
  {[ "statistical_model_args" := AVal PyNone;
     "limit_threshold" := AVal (PyStr "thresholds.json");
     "output_filename" := AVal (PyStr "out.h5");
     "toydata_filename" := AVal PyNone ]}.

End Example2.

(** * Properties *)

Section Properties.
Context `{Ext : External}.

Implicit Types (value array d : dict) (w : world) (r : Runner).

(** ** The two monads *)

Lemma M_bind_Ok {A B} (m : M A) (k : A → M B) w a w' :
  m w = (Ok a, w') → (m ≫= k) w = k a w'.
Proof. intros Hm. unfold mbind, M_bind. by rewrite Hm. Qed.

Lemma M_bind_Raise {A B} (m : M A) (k : A → M B) w e w' :
  m w = (Raise e, w') → (m ≫= k) w = (Raise e, w').
Proof. intros Hm. unfold mbind, M_bind. by rewrite Hm. Qed.

Lemma M_bind_Ok_inv {A B} (m : M A) (k : A → M B) w b w' :
  (m ≫= k) w = (Ok b, w') → ∃ a w1, m w = (Ok a, w1) ∧ k a w1 = (Ok b, w').
Proof.
  unfold mbind, M_bind. destruct (m w) as [[a|e] w1]; intros Hk.
  - by exists a, w1.
  - discriminate.
Qed.

Lemma result_bind_Ok_inv {A B} (x : result A) (k : A → result B) b :
  x ≫= k = Ok b → ∃ a, x = Ok a ∧ k a = Ok b.
Proof. destruct x as [a|e]; [by exists a | discriminate]. Qed.

Lemma liftR_Ok_inv {A} (x : result A) w a w' :
  liftR x w = (Ok a, w') → x = Ok a ∧ w' = w.
Proof. unfold liftR. by intros [= -> ->]. Qed.

Lemma mapM_cons `{MBind M', MRet M'} {A B} (f : A → M' B) x l :
  mapM f (x :: l) = y ← f x; k ← mapM f l; mret (y :: k).
Proof. done. Qed.

(** [mapM] in the result monad: success is pointwise success. *)
Lemma mapM_result_Ok {A B} (f : A → result B) (l : list A) (k : list B) :
  mapM f l = Ok k ↔ Forall2 (λ x y, f x = Ok y) l k.
Proof.
  split.
  - revert k. induction l as [|x l IH]; intros k; simpl.
    + intros [= <-]. constructor.
    + intros Hk. apply result_bind_Ok_inv in Hk as (y & Hy & Hk).
      apply result_bind_Ok_inv in Hk as (k' & Hk' & [= <-]).
      constructor; auto.
  - induction 1 as [|x y l k Hxy _ IH]; simpl; [done|].
    unfold mbind, result_bind at 1. rewrite Hxy. simpl.
    unfold mbind, result_bind at 1. by rewrite IH.
Qed.

(** ** Numeric validation *)

Lemma all_float_int_spec value :
  all_float_int value = true ↔
  ∀ k v, value !! k = Some v → isinstance_float_int v = true.
Proof.
  unfold all_float_int. rewrite forallb_forall. split.
  - intros Hall k v Hkv. apply Hall, list_elem_of_In, list_elem_of_fmap.
    exists (k, v). split; [done|]. by apply elem_of_map_to_list.
  - intros Hall v Hin.
    apply list_elem_of_In, list_elem_of_fmap in Hin as ([k v'] & -> & Hin).
    apply elem_of_map_to_list in Hin. eauto.
Qed.

Lemma all_float_int_empty : all_float_int ∅ = true.
Proof. apply all_float_int_spec. intros k v. by rewrite lookup_empty. Qed.

Lemma all_float_int_union d1 d2 :
  all_float_int d1 = true → all_float_int d2 = true → all_float_int (d1 ∪ d2) = true.
Proof.
  rewrite !all_float_int_spec. intros H1 H2 k v Hkv.
  apply lookup_union_Some_raw in Hkv as [?|[_ ?]]; eauto.
Qed.

Lemma all_float_int_singleton k v :
  isinstance_float_int v = true → all_float_int {[ k := v ]} = true.
Proof.
  intros Hv. apply all_float_int_spec. intros k' v' Hkv.
  apply lookup_singleton_Some in Hkv as [_ <-]. done.
Qed.

(** ** Generate values *)

Lemma _update_poi_absent poi0 value nominal w :
  value !! "poi_expectation" = None → _update_poi poi0 value nominal w = (Ok value, w).
Proof. intros Hpe. unfold _update_poi. by rewrite Hpe. Qed.

Lemma init_generate_values args w r w' :
  init args w = (Ok r, w') →
  ∃ w1 w2, set_generate_values (arg_poi args) (default ∅ (arg_nominal_values args))
             (default ∅ (arg_generate_values args)) w1 = (Ok (generate_values r), w2).
Proof.
  unfold init. intros Hinit.
  apply M_bind_Ok_inv in Hinit as (_ & w1 & _ & Hinit).
  apply M_bind_Ok_inv in Hinit as (common & w2 & _ & Hinit).
  apply M_bind_Ok_inv in Hinit as (gv & w3 & Hgv & Hinit).
  apply M_bind_Ok_inv in Hinit as ([names dtype] & w4 & _ & Hinit).
  apply M_bind_Ok_inv in Hinit as (hv & w5 & _ & Hinit).
  injection Hinit as <- <-. simpl. eauto.
Qed.

(** C9: for every mapping whose values are all numeric and that has no key
    [poi_expectation], the [generate_values] setter stores the mapping
    unchanged, and so does every successful construction given it. *)
Theorem generate_values_identity (poi0 : string) (nominal value : dict) :
  (∀ k v, value !! k = Some v → isinstance_float_int v = true) →
  value !! "poi_expectation" = None →
  (∀ w, set_generate_values poi0 nominal value w = (Ok value, w)) ∧
  (∀ args w r w',
     arg_generate_values args = Some value →
     init args w = (Ok r, w') → generate_values r = value).
Proof.
  intros Hnum Hpe.
  assert (Hset : ∀ p n w, set_generate_values p n value w = (Ok value, w)).
  { intros p n w. unfold set_generate_values.
    apply all_float_int_spec in Hnum. rewrite Hnum. simpl.
    by apply _update_poi_absent. }
  split; [by auto|].
  intros args w r w' Hargs Hinit.
  apply init_generate_values in Hinit as (w1 & w2 & Hgv).
  rewrite Hargs in Hgv. simpl in Hgv. rewrite Hset in Hgv. congruence.
Qed.

(** C10: the numeric validation accepts booleans.  A mapping whose values
    are floats, ints or booleans passes the check of both setters and of
    hypothesis resolution, so none of the three "should be a dict of float"
    errors is raised for it. *)
Theorem booleans_pass_validation (value : dict) :
  (∀ k v, value !! k = Some v →
          (∃ x, v = PyFloatV x) ∨ (∃ n, v = PyInt n) ∨ (∃ b, v = PyBool b)) →
  all_float_int value = true ∧
  (∀ w, set_common_hypothesis value w = (Ok value, w)) ∧
  (∀ poi0 nominal w,
     set_generate_values poi0 nominal value w = _update_poi poi0 value nominal w) ∧
  (∀ poi0 gv common,
     all_float_int common = true →
     resolve_hypothesis poi0 gv common (HypDict value) = Ok (value ∪ common)).
Proof.
  intros Hval.
  assert (Hnum : all_float_int value = true).
  { apply all_float_int_spec. intros k v Hkv.
    destruct (Hval k v Hkv) as [[x ->]|[[n ->]|[b ->]]]; done. }
  split; [done|]. split; [|split].
  - intros w. unfold set_common_hypothesis. by rewrite Hnum.
  - intros poi0 nominal w. unfold set_generate_values. by rewrite Hnum.
  - intros poi0 gv common Hcommon. unfold resolve_hypothesis. simpl.
    by rewrite all_float_int_union.
Qed.

(** C3: [poi_expectation] resolution by the [generate_values] setter.  With
    expectation [E] under the key and nominal expectation [N] for the
    component named by the poi without its suffix, the poi is set to [E / N]
    and the key is gone; an explicit poi value next to the key fails, and so
    does a poi without the suffix [_rate_multiplier]. *)
Theorem poi_expectation_resolution (poi0 : string) (nominal value : dict) (E : pyval) w :
  all_float_int value = true →
  value !! "poi_expectation" = Some E →
  (∀ expectation_values s1 N ratio,
     value !! poi0 = None →
     endswith poi0 "_rate_multiplier" = true →
     get_expectation_values (nominal ∪ delete "poi_expectation" value) (ext w)
       = (Ok expectation_values, s1) →
     expectation_values !! str_replace poi0 "_rate_multiplier" "" = Some N →
     truediv E N = Ok ratio →
     ∃ resolved w',
       set_generate_values poi0 nominal value w = (Ok resolved, w') ∧
       resolved !! poi0 = Some ratio ∧
       resolved !! "poi_expectation" = None ∧
       (∀ k, k ≠ poi0 → k ≠ "poi_expectation" → resolved !! k = value !! k)) ∧
  (is_Some (value !! poi0) →
     set_generate_values poi0 nominal value w
       = (Raise (ValueError (PoiAlongWithExpectation poi0)), w)) ∧
  (endswith poi0 "_rate_multiplier" = false →
     ∃ m, set_generate_values poi0 nominal value w = (Raise (ValueError m), w) ∧
          (value !! poi0 = None → m = PoiShouldEndWith poi0)).
Proof.
  intros Hnum HE. unfold set_generate_values, _update_poi. rewrite Hnum, HE. simpl.
  split; [|split].
  - intros ev s1 N ratio Hpoi Hsuffix Hev HN Hdiv.
    rewrite Hpoi, Hsuffix. simpl.
    destruct (decide (is_Some (@None pyval))) as [[? [=]]|_].
    exists (<[poi0 := ratio]> (delete "poi_expectation" value)).
    exists (World s1 (log w ++
              [EvExpectationValues (nominal ∪ delete "poi_expectation" value)])).
    assert (Hne : poi0 ≠ "poi_expectation").
    { intros ->. vm_compute in Hsuffix. discriminate. }
    split; [|split; [|split]].
    + unfold mbind, M_bind, call. rewrite Hev, HN.
      unfold mbind, M_bind, liftR. by rewrite Hdiv.
    + apply lookup_insert_eq.
    + rewrite lookup_insert_ne by done. apply lookup_delete_eq.
    + intros k Hk1 Hk2. rewrite lookup_insert_ne by done.
      by rewrite lookup_delete_ne.
  - intros Hsome. by rewrite decide_True.
  - intros Hsuffix. destruct (decide (is_Some (value !! poi0))) as [Hsome|Hnone].
    + eexists. split; [done|]. intros Hpoi. rewrite Hpoi in Hsome.
      by destruct Hsome.
    + rewrite Hsuffix. simpl. eexists. split; done.
Qed.

(** ** What a computation adds to the log *)

Lemma emits_ret {A} P (a : A) : emits P (mret a).
Proof. intros w x w' [= <- <-]. exists []. by rewrite app_nil_r. Qed.

Lemma emits_raise {A} P e : emits P (@raise _ _ A e).
Proof. intros w x w' [= <- <-]. exists []. by rewrite app_nil_r. Qed.

Lemma emits_liftR {A} P (x : result A) : emits P (liftR x).
Proof. intros w y w' [= <- <-]. exists []. by rewrite app_nil_r. Qed.

Lemma emits_read {A} P (f : St → A) : emits P (read f).
Proof. intros w y w' [= <- <-]. exists []. by rewrite app_nil_r. Qed.

Lemma emits_call {A} (P : event → Prop) ev (op : St → result A * St) :
  P ev → emits P (call ev op).
Proof.
  intros Hev w y w'. unfold call. destruct (op (ext w)) as [x s].
  intros [= <- <-]. exists [ev]. simpl. split; [done|]. by constructor.
Qed.

Lemma emits_warn (P : event → Prop) ev : P ev → emits P (warn ev).
Proof.
  intros Hev w y w' [= <- <-]. exists [ev]. simpl. split; [done|]. by constructor.
Qed.

Lemma emits_bind {A B} P (m : M A) (k : A → M B) :
  emits P m → (∀ a, emits P (k a)) → emits P (m ≫= k).
Proof.
  intros Hm Hk w y w'. unfold mbind, M_bind.
  destruct (m w) as [[a|e] w1] eqn:Hmw.
  - intros Hkw. destruct (Hm _ _ _ Hmw) as (evs1 & E1 & H1).
    destruct (Hk _ _ _ _ Hkw) as (evs2 & E2 & H2).
    exists (evs1 ++ evs2). rewrite E2, E1, (assoc_L (++)). split; [done|].
    by apply Forall_app.
  - intros [= <- <-]. eauto.
Qed.

Ltac emits_step :=
  first
    [ apply emits_ret | apply emits_raise | apply emits_liftR | apply emits_read
    | apply emits_call; done | apply emits_warn; done
    | apply emits_bind; [|intros ?] ].

Lemma emits__update_poi poi0 value nominal :
  emits (λ ev, toydata_event ev = false) (_update_poi poi0 value nominal).
Proof.
  unfold _update_poi. repeat (case_match; try emits_step); repeat emits_step.
Qed.

Lemma emits_init args : emits (λ ev, toydata_event ev = false) (init args).
Proof.
  unfold init, set_common_hypothesis, set_generate_values, _get_parameter_list.
  repeat first [emits_step | apply emits__update_poi | case_match].
Qed.

(** ** Hypotheses *)

Lemma init_hypotheses args w r w' :
  init args w = (Ok r, w') →
  _get_hypotheses (arg_poi args) (arg_hypotheses args) (common_hypothesis r)
    (generate_values r) (arg_compute_confidence_interval args)
  = Ok (_hypotheses_values r).
Proof.
  unfold init. intros Hinit.
  apply M_bind_Ok_inv in Hinit as (_ & w1 & _ & Hinit).
  apply M_bind_Ok_inv in Hinit as (common & w2 & _ & Hinit).
  apply M_bind_Ok_inv in Hinit as (gv & w3 & _ & Hinit).
  apply M_bind_Ok_inv in Hinit as ([names dtype] & w4 & _ & Hinit).
  apply M_bind_Ok_inv in Hinit as (hv & w5 & Hhv & Hinit).
  apply liftR_Ok_inv in Hhv as [Hhv _].
  injection Hinit as <- <-. simpl. done.
Qed.

Lemma _get_hypotheses_rejects poi0 hyps common gv cci :
  hyps = [] ∨ (cci = true ∧ existsb (hyp_eq "free") hyps = false) →
  _get_hypotheses poi0 hyps common gv cci
  = Raise (ValueError (if decide (hyps = []) then HypothesesEmpty
                       else FreeNeededForConfidenceInterval)).
Proof.
  unfold _get_hypotheses. intros [->|[-> Hfree]]; [done|].
  destruct hyps as [|h hyps]; [done|]. simpl in *. by rewrite Hfree.
Qed.

(** C7: construction fails when the hypothesis list is empty, and when
    confidence intervals are requested without the [free] hypothesis; no
    toy data is touched on the way, and when the other arguments are valid
    the error is the one that names the violated rule. *)
Theorem construction_rejects_hypotheses (args : RunnerArgs) w :
  arg_hypotheses args = [] ∨
  (arg_compute_confidence_interval args = true ∧
   existsb (hyp_eq "free") (arg_hypotheses args) = false) →
  (∃ e w' evs,
     init args w = (Raise e, w') ∧
     log w' = log w ++ evs ∧ Forall (λ ev, toydata_event ev = false) evs) ∧
  (∀ s1,
     build_model (arg_statistical_model args) (default ∅ (arg_nominal_values args))
       (arg_model_config args) (ext w) = (Ok tt, s1) →
     all_float_int (default ∅ (arg_common_hypothesis args)) = true →
     all_float_int (default ∅ (arg_generate_values args)) = true →
     default ∅ (arg_generate_values args) !! "poi_expectation" = None →
     init args w =
       (Raise (ValueError (if decide (arg_hypotheses args = []) then HypothesesEmpty
                           else FreeNeededForConfidenceInterval)),
        World s1 (log w ++ [EvBuildModel (arg_statistical_model args)
                              (default ∅ (arg_nominal_values args))
                              (arg_model_config args)]))).
Proof.
  intros Hbad. split.
  - destruct (init args w) as [[r|e] w'] eqn:Hinit.
    + apply init_hypotheses in Hinit.
      by rewrite _get_hypotheses_rejects in Hinit.
    + destruct (emits_init args _ _ _ Hinit) as (evs & Hlog & Hevs). eauto 6.
  - intros s1 Hbuild Hcommon Hgv Hpe. unfold init.
    erewrite M_bind_Ok; last by (unfold call; rewrite Hbuild).
    erewrite M_bind_Ok; last by (unfold set_common_hypothesis; rewrite Hcommon).
    erewrite M_bind_Ok;
      last by (unfold set_generate_values; rewrite Hgv; by apply _update_poi_absent).
    erewrite M_bind_Ok; last done. cbv beta iota.
    erewrite M_bind_Raise; [done|].
    unfold liftR. by rewrite _get_hypotheses_rejects.
Qed.

Lemma resolve_hypothesis_free poi0 gv common y :
  resolve_hypothesis poi0 gv common (HypStr "free") = Ok y → y = common.
Proof.
  unfold resolve_hypothesis. simpl. rewrite (left_id_L ∅ (∪)).
  destruct (all_float_int common); simpl; congruence.
Qed.

Lemma resolve_hypothesis_null poi0 gv common y :
  resolve_hypothesis poi0 gv common (HypStr "null") = Ok y →
  y = <[poi0 := PyFloatV float_zero]> common.
Proof.
  unfold resolve_hypothesis. simpl. rewrite <- insert_union_singleton_l.
  destruct (all_float_int _); simpl; congruence.
Qed.

Lemma resolve_hypothesis_true poi0 gv common y :
  resolve_hypothesis poi0 gv common (HypStr "true") = Ok y →
  ∃ v, gv !! poi0 = Some v ∧ y = <[poi0 := v]> common.
Proof.
  unfold resolve_hypothesis. simpl. destruct (gv !! poi0) as [v|]; [|done].
  simpl. rewrite <- insert_union_singleton_l.
  destruct (all_float_int _); simpl; [|done]. intros [= <-]. eauto.
Qed.

Lemma resolve_hypothesis_dict poi0 gv common d y :
  resolve_hypothesis poi0 gv common (HypDict d) = Ok y → y = d ∪ common.
Proof.
  unfold resolve_hypothesis. simpl.
  destruct (all_float_int _); simpl; congruence.
Qed.

Lemma _get_hypotheses_Ok poi0 hyps common gv cci hvs :
  _get_hypotheses poi0 hyps common gv cci = Ok hvs →
  Forall2 (λ h y, resolve_hypothesis poi0 gv common h = Ok y) hyps hvs.
Proof.
  unfold _get_hypotheses. repeat case_match; try done.
  by intros ?%mapM_result_Ok.
Qed.

Lemma hyp_eq_true s h : hyp_eq s h = true ↔ h = HypStr s.
Proof.
  destruct h as [t|d]; simpl; [|by split].
  rewrite String.eqb_eq. split; congruence.
Qed.

Lemma _get_hypotheses_free_not_first poi0 hyps common gv cci :
  existsb (hyp_eq "free") hyps = true →
  head hyps ≠ Some (HypStr "free") →
  _get_hypotheses poi0 hyps common gv cci = Raise (ValueError FreeNotFirst).
Proof.
  intros Hfree Hhead. unfold _get_hypotheses.
  destruct hyps as [|h hyps]; [done|]. simpl decide. cbv iota.
  rewrite Hfree. simpl negb. cbv iota. simpl andb.
  destruct (hyp_eq "free" h) eqn:Hh.
  - apply hyp_eq_true in Hh as ->. by destruct Hhead.
  - simpl.
    destruct (list_index (hyp_eq "free") hyps); simpl; try done;
      by rewrite bool_decide_false.
Qed.

Lemma list_index_head {A} (p : A → bool) (l : list A) x :
  head l = Some x → p x = true → list_index p l = Some O.
Proof. destruct l as [|y l]; [done|]. intros [= ->] Hp. simpl. by rewrite Hp. Qed.

(** A hypothesis of one of the known forms, over a numeric common
    hypothesis, is resolved. *)
Lemma resolve_hypothesis_Ok poi0 gv common h :
  all_float_int common = true →
  match h with
  | HypStr s => s = "free" ∨ s = "null" ∨
                (s = "true" ∧ ∃ v, gv !! poi0 = Some v ∧ isinstance_float_int v = true)
  | HypDict d => all_float_int d = true
  end →
  ∃ y, resolve_hypothesis poi0 gv common h = Ok y.
Proof.
  intros Hcommon Hh. unfold resolve_hypothesis.
  destruct h as [s|d].
  - destruct Hh as [->|[->|[-> (v & Hv & Hnum)]]]; simpl.
    + rewrite (left_id_L ∅ (∪)), Hcommon. simpl. eauto.
    + rewrite all_float_int_union; [simpl; eauto| |done].
      by apply all_float_int_singleton.
    + rewrite Hv. simpl.
      rewrite all_float_int_union; [simpl; eauto| |done].
      by apply all_float_int_singleton.
  - simpl. rewrite all_float_int_union by done. simpl. eauto.
Qed.

Lemma mapM_result_Forall {A B} (f : A → result B) (l : list A) :
  Forall (λ x, ∃ y, f x = Ok y) l → ∃ k, mapM f l = Ok k.
Proof.
  induction 1 as [|x l [y Hy] _ [k Hk]]; [by eexists|].
  exists (y :: k). rewrite mapM_cons, Hy. simpl. by rewrite Hk.
Qed.

(** C2: hypotheses are resolved one by one in list order: [free] to the
    common hypothesis alone, [null] to it with the poi at [0.0], [true] to
    it with the poi at its generate value (which must exist), a mapping to
    the common hypothesis overlaid by that mapping.  The resolution
    succeeds for every non-empty list of such hypotheses over numeric
    mappings that has [free] first if at all (and has it when confidence
    intervals are computed).  With an empty common hypothesis [free, null]
    gives [{}, {poi: 0.0}]; [free] anywhere but first is rejected, as in
    [null, free]. *)
Theorem hypothesis_resolution (poi0 : string) (common gv : dict) (cci : bool) :
  (∀ hyps,
     hyps ≠ [] →
     (cci = true → existsb (hyp_eq "free") hyps = true) →
     (existsb (hyp_eq "free") hyps = true → head hyps = Some (HypStr "free")) →
     all_float_int common = true →
     (∀ h, h ∈ hyps →
        match h with
        | HypStr s =>
            s = "free" ∨ s = "null" ∨
            (s = "true" ∧ ∃ v, gv !! poi0 = Some v ∧ isinstance_float_int v = true)
        | HypDict d => all_float_int d = true
        end) →
     ∃ hvs, _get_hypotheses poi0 hyps common gv cci = Ok hvs) ∧
  (∀ hyps hvs,
     _get_hypotheses poi0 hyps common gv cci = Ok hvs →
     length hvs = length hyps ∧
     ∀ i h, hyps !! i = Some h →
       match h with
       | HypStr s =>
           (s = "free" → hvs !! i = Some common) ∧
           (s = "null" → hvs !! i = Some (<[poi0 := PyFloatV float_zero]> common)) ∧
           (s = "true" →
              ∃ v, gv !! poi0 = Some v ∧ hvs !! i = Some (<[poi0 := v]> common))
       | HypDict d => hvs !! i = Some (d ∪ common)
       end) ∧
  (∀ hyps,
     HypStr "true" ∈ hyps → gv !! poi0 = None →
     ∃ e, _get_hypotheses poi0 hyps common gv cci = Raise e) ∧
  _get_hypotheses poi0 [HypStr "free"; HypStr "null"] ∅ gv cci
    = Ok [∅; {[ poi0 := PyFloatV float_zero ]}] ∧
  (∀ hyps,
     existsb (hyp_eq "free") hyps = true → head hyps ≠ Some (HypStr "free") →
     _get_hypotheses poi0 hyps common gv cci = Raise (ValueError FreeNotFirst)) ∧
  _get_hypotheses poi0 [HypStr "null"; HypStr "free"] common gv cci
    = Raise (ValueError FreeNotFirst).
Proof.
  assert (Hlookup : ∀ hyps hvs,
    _get_hypotheses poi0 hyps common gv cci = Ok hvs →
    length hvs = length hyps ∧
    ∀ i h, hyps !! i = Some h →
      ∃ y, hvs !! i = Some y ∧ resolve_hypothesis poi0 gv common h = Ok y).
  { intros hyps hvs Hok. apply _get_hypotheses_Ok in Hok. split.
    - symmetry. by eapply Forall2_length.
    - intros i h Hi. by eapply Forall2_lookup_l in Hok. }
  split; [|split; [|split; [|split; [|split]]]].
  - intros hyps Hne Hcci Hfirst Hcommon Hforms. unfold _get_hypotheses.
    rewrite decide_False by (by destruct hyps).
    destruct (existsb (hyp_eq "free") hyps) eqn:Hfree.
    + simpl. rewrite (list_index_head _ _ _ (Hfirst eq_refl) eq_refl).
      rewrite bool_decide_true by done. simpl.
      apply mapM_result_Forall, Forall_forall.
      intros h Hh. by apply resolve_hypothesis_Ok, Hforms.
    + destruct cci; [by specialize (Hcci eq_refl)|]. simpl.
      apply mapM_result_Forall, Forall_forall.
      intros h Hh. by apply resolve_hypothesis_Ok, Hforms.
  - intros hyps hvs Hok. destruct (Hlookup _ _ Hok) as [Hlen Hres].
    split; [done|]. intros i h Hi. destruct (Hres i h Hi) as (y & Hy & Hr).
    destruct h as [s|d].
    + repeat split.
      * intros ->. by apply resolve_hypothesis_free in Hr as ->.
      * intros ->. by apply resolve_hypothesis_null in Hr as ->.
      * intros ->. apply resolve_hypothesis_true in Hr as (v & Hv & ->). eauto.
    + by apply resolve_hypothesis_dict in Hr as ->.
  - intros hyps Hin Hnone.
    destruct (_get_hypotheses poi0 hyps common gv cci) as [hvs|e] eqn:Hok; [|eauto].
    apply list_elem_of_lookup in Hin as [i Hi].
    destruct (Hlookup _ _ Hok) as [_ Hres].
    destruct (Hres i _ Hi) as (y & _ & Hr).
    apply resolve_hypothesis_true in Hr as (v & Hv & _). congruence.
  - unfold _get_hypotheses. simpl. unfold resolve_hypothesis. simpl.
    rewrite (left_id_L ∅ (∪)), (right_id_L ∅ (∪)).
    rewrite all_float_int_empty. simpl.
    by rewrite all_float_int_singleton.
  - intros hyps. apply _get_hypotheses_free_not_first.
  - by apply _get_hypotheses_free_not_first.
Qed.

(** ** The toy-data generator *)

Lemma for_data_generator_start_Raise {A} r (body : nat → option Data → A → M A) acc w e w' :
  data_generator_start r w = (Raise e, w') →
  for_data_generator r body acc w = (Raise e, w').
Proof. intros Hstart. unfold for_data_generator. by erewrite M_bind_Raise. Qed.

Lemma mapM_np_zeros n dtype (l : list dict) :
  0 ≤ n →
  mapM (λ _ : dict, np_zeros n dtype) l
  = Ok (replicate (length l)
          {| dtype_names := dtype;
             rows := replicate (Z.to_nat n) (replicate (length dtype) float_zero) |}).
Proof.
  intros Hn. induction l as [|x l IH]; [done|].
  rewrite mapM_cons, IH. unfold np_zeros.
  destruct (Z.ltb_spec n 0) as [?|_]; [lia|]. done.
Qed.

Lemma mapM_np_zeros_cases n dtype (l : list dict) :
  (∃ results, mapM (λ _ : dict, np_zeros n dtype) l = Ok results) ∨
  mapM (λ _ : dict, np_zeros n dtype) l = Raise (ValueError NegativeDimensions).
Proof.
  destruct (Z.ltb_spec n 0) as [Hn|Hn].
  - destruct l as [|x l]; [left; by eexists|]. right.
    rewrite mapM_cons. unfold np_zeros.
    destruct (Z.ltb_spec n 0); [reflexivity|lia].
  - left. eexists. by apply mapM_np_zeros.
Qed.

Lemma toydata_modes_read : bool_decide ("read" ∈ toydata_modes) = true.
Proof. done. Qed.

(** [__init__] only stores [toydata_mode] and [only_toydata]: whatever
    their values, construction has the same outcome and the same effects. *)
Lemma init_ignores_toydata_options (args : RunnerArgs) toydata_mode only w :
  match init args w with
  | (Ok r, w1) =>
      ∃ r', init (with_toydata_options args toydata_mode only) w = (Ok r', w1) ∧
            only_toydata r' = only ∧ _toydata_mode r' = toydata_mode
  | (Raise e, w1) =>
      init (with_toydata_options args toydata_mode only) w = (Raise e, w1)
  end.
Proof.
  unfold init, with_toydata_options. cbn [arg_statistical_model arg_poi arg_hypotheses
    arg_n_mc arg_common_hypothesis arg_generate_values arg_nominal_values
    arg_model_config arg_compute_confidence_interval arg_toydata_mode
    arg_toydata_file arg_only_toydata arg_output_file arg_metadata].
  match goal with
  | |- context [(?m ≫= _) w] => destruct (m w) as [[u|e] w1] eqn:Hbuild
  end.
  2: { by rewrite !(M_bind_Raise _ _ _ _ _ Hbuild). }
  rewrite !(M_bind_Ok _ _ _ _ _ Hbuild).
  match goal with
  | |- context [(?m ≫= _) w1] => destruct (m w1) as [[common|e] w2] eqn:Hcommon
  end.
  2: { by rewrite !(M_bind_Raise _ _ _ _ _ Hcommon). }
  rewrite !(M_bind_Ok _ _ _ _ _ Hcommon).
  match goal with
  | |- context [(?m ≫= _) w2] => destruct (m w2) as [[gv|e] w3] eqn:Hgv
  end.
  2: { by rewrite !(M_bind_Raise _ _ _ _ _ Hgv). }
  rewrite !(M_bind_Ok _ _ _ _ _ Hgv).
  match goal with
  | |- context [(?m ≫= _) w3] => destruct (m w3) as [[[names dtype]|e] w4] eqn:Hnames
  end.
  2: { by rewrite !(M_bind_Raise _ _ _ _ _ Hnames). }
  rewrite !(M_bind_Ok _ _ _ _ _ Hnames). cbv beta iota.
  match goal with
  | |- context [(?m ≫= _) w4] => destruct (m w4) as [[hvs|e] w5] eqn:Hhvs
  end.
  2: { by rewrite !(M_bind_Raise _ _ _ _ _ Hhvs). }
  rewrite !(M_bind_Ok _ _ _ _ _ Hhvs).
  eexists. split; [reflexivity|]. done.
Qed.

(** C5 (as the code has it): construction does not look at the
    combination: with any values of [toydata_mode] and [only_toydata] it
    succeeds where it succeeds with others, storing the two, and fails
    where it fails with others, with the same effects.  The combination
    of [only_toydata] with a toy-data mode other than [generate_and_write]
    is rejected when the data generator starts, before the first iteration
    and before any collaborator is called; [simulate], [run] and every loop
    over the generator fail there with a [ValueError]. *)
Theorem only_toydata_rejected_by_generator :
  (∀ (args : RunnerArgs) toydata_mode only w,
     (∀ r w1, init args w = (Ok r, w1) →
        ∃ r', init (with_toydata_options args toydata_mode only) w = (Ok r', w1) ∧
              only_toydata r' = only ∧ _toydata_mode r' = toydata_mode) ∧
     (∀ e w1, init args w = (Raise e, w1) →
        init (with_toydata_options args toydata_mode only) w = (Raise e, w1))) ∧
  (∀ r w,
     only_toydata r = true →
     _toydata_mode r ≠ "generate_and_write" →
     (∃ m,
        (m = UnknownToydataMode (_toydata_mode r) ∨
         m = OnlyToydataMode (_toydata_mode r)) ∧
        data_generator_start r w = (Raise (ValueError m), w) ∧
        simulate r w = (Raise (ValueError m), w) ∧
        run r w = (Raise (ValueError m), w) ∧
        (∀ A (body : nat → option Data → A → M A) acc,
           for_data_generator r body acc w = (Raise (ValueError m), w))) ∧
     (∃ m, simulate_and_fit r w = (Raise (ValueError m), w))).
Proof.
  split.
  { intros args toydata_mode only w.
    pose proof (init_ignores_toydata_options args toydata_mode only w) as Hinit.
    split.
    - intros r w1 Hr. by rewrite Hr in Hinit.
    - intros e w1 He. by rewrite He in Hinit. }
  intros r w Honly Hmode.
  assert (Hstart : ∃ m,
    (m = UnknownToydataMode (_toydata_mode r) ∨ m = OnlyToydataMode (_toydata_mode r)) ∧
    data_generator_start r w = (Raise (ValueError m), w)).
  { unfold data_generator_start.
    destruct (bool_decide (_toydata_mode r ∈ toydata_modes)); simpl.
    - rewrite Honly. apply String.eqb_neq in Hmode. rewrite Hmode. simpl. eauto.
    - eauto. }
  destruct Hstart as (m & Hm & Hstart).
  assert (Hsim : simulate r w = (Raise (ValueError m), w)).
  { unfold simulate. by erewrite M_bind_Raise. }
  split.
  - exists m. split; [done|]. split; [done|]. split; [done|]. split.
    + unfold run. by rewrite Honly.
    + intros A body acc. by apply for_data_generator_start_Raise.
  - unfold simulate_and_fit.
    destruct (mapM_np_zeros_cases (_n_mc r) (_result_dtype r) (_hypotheses_values r))
      as [[results Hz]|Hz].
    + exists m. erewrite M_bind_Ok; last by (unfold liftR; rewrite Hz).
      by apply for_data_generator_start_Raise.
    + eexists. erewrite M_bind_Raise; [done|]. unfold liftR. by rewrite Hz.
Qed.

Lemma data_generator_next_read r i (td : list Data) data w :
  _toydata_mode r = "read" → td !! i = Some data →
  data_generator_next r i td w = (Ok (Some data, td), w).
Proof.
  intros Hmode Hd. unfold data_generator_next. rewrite Hmode. simpl.
  by rewrite Hd.
Qed.

(** In [read] mode the loop over the generator is the loop over the stored
    records from index [i] on. *)
Lemma for_data_read {A} r (body : nat → option Data → A → M A) n :
  _toydata_mode r = "read" →
  ∀ i td acc w,
    (i + n ≤ length td)%nat →
    for_data r body i n td acc w
    = (acc' ← for_each body i (take n (drop i td)) acc; mret (td, acc')) w.
Proof.
  intros Hmode. induction n as [|n IH]; intros i td acc w Hlen.
  - by rewrite take_0.
  - destruct (lookup_lt_is_Some_2 td i) as [x Hd]; [lia|].
    rewrite (drop_S _ _ _ Hd). simpl.
    erewrite M_bind_Ok; last by apply data_generator_next_read.
    cbv beta iota. unfold mbind, M_bind.
    destruct (body i (Some x) acc w) as [[acc1|e] w1]; [|done].
    rewrite IH by lia. done.
Qed.

(** C6: in [read] mode, with the stored collection loaded,
    - fewer records than [n_mc]: the generator fails right after the read,
      and so does [simulate_and_fit], before any fit;
    - more records than [n_mc]: a warning is recorded, iteration [i] is given
      record [i], and a loop over the generator is the loop over the first
      [n_mc] records in order. *)
Theorem read_mode_stored_toydata r w (toydata : list Data) (names : Names) s1 :
  _toydata_mode r = "read" →
  only_toydata r = false →
  toydata_from_file (_toydata_file r) (ext w) = (Ok (toydata, names), s1) →
  (Z.of_nat (length toydata) < _n_mc r →
     let w1 := World s1 (log w ++ [EvReadToydata (_toydata_file r)]) in
     let e := ValueError (StoredToydataLess (length toydata) (_n_mc r)) in
     data_generator_start r w = (Raise e, w1) ∧
     simulate_and_fit r w = (Raise e, w1)) ∧
  (Z.of_nat (length toydata) > _n_mc r →
     let w2 := World s1 (log w ++ [EvReadToydata (_toydata_file r)]
                            ++ [EvWarnStoredToydataLarger (length toydata) (_n_mc r)]) in
     data_generator_start r w = (Ok (toydata, Some names), w2) ∧
     (∀ i w', (i < Z.to_nat (_n_mc r))%nat →
        ∃ data, toydata !! i = Some data ∧
                data_generator_next r i toydata w' = (Ok (Some data, toydata), w')) ∧
     (∀ A (body : nat → option Data → A → M A) acc,
        for_data_generator r body acc w
        = for_each body O (take (Z.to_nat (_n_mc r)) toydata) acc w2)).
Proof.
  intros Hmode Honly Hread.
  assert (Hcall : call (EvReadToydata (_toydata_file r))
                    (toydata_from_file (_toydata_file r)) w
                  = (Ok (toydata, names),
                     World s1 (log w ++ [EvReadToydata (_toydata_file r)]))).
  { unfold call. by rewrite Hread. }
  split.
  - intros Hless w1 e.
    assert (Hstart : data_generator_start r w = (Raise e, w1)).
    { unfold data_generator_start. rewrite Hmode, Honly. simpl.
      erewrite M_bind_Ok; last done. cbv beta iota.
      destruct (Z.ltb_spec (Z.of_nat (length toydata)) (_n_mc r)); [done|lia]. }
    split; [done|]. unfold simulate_and_fit.
    erewrite M_bind_Ok; last by (unfold liftR; rewrite mapM_np_zeros by lia).
    by apply for_data_generator_start_Raise.
  - intros Hmore w2.
    assert (Hstart : data_generator_start r w = (Ok (toydata, Some names), w2)).
    { unfold data_generator_start. rewrite Hmode, Honly. simpl.
      erewrite M_bind_Ok; last done. cbv beta iota.
      destruct (Z.ltb_spec (Z.of_nat (length toydata)) (_n_mc r)); [lia|].
      destruct (Z.gtb_spec (Z.of_nat (length toydata)) (_n_mc r)); [|lia].
      unfold w2. by rewrite (assoc_L (++)). }
    split; [done|]. split.
    + intros i w' Hi. destruct (lookup_lt_is_Some_2 toydata i) as [x Hd]; [lia|].
      exists x. split; [done|]. by apply data_generator_next_read.
    + intros A body acc. unfold for_data_generator.
      erewrite M_bind_Ok; last done. cbv beta iota.
      unfold mbind at 1, M_bind at 1. rewrite for_data_read by (done || simpl; lia).
      rewrite drop_0. unfold mbind at 1, M_bind at 1.
      destruct (for_each _ _ _ _ _) as [[acc1|e1] w3]; [|done].
      unfold data_generator_finish. rewrite Hmode. done.
Qed.

(** ** One hypothesis of one iteration *)

Lemma not_fittable_spec (hv : dict) (names : list string) :
  dom hv ∖ list_to_set names = (∅ : gset string) ↔
  ∀ k, is_Some (hv !! k) → k ∈ names.
Proof.
  split.
  - intros Hempty k Hk. destruct (decide (k ∈ names)) as [|Hnot]; [done|].
    assert (Hin : k ∈ dom hv ∖ (list_to_set names : gset string)).
    { apply elem_of_difference. split; [by apply elem_of_dom|].
      by rewrite elem_of_list_to_set. }
    rewrite Hempty in Hin. by apply not_elem_of_empty in Hin.
  - intros Hsub. apply set_eq. intros k. split; [|by intros ?%not_elem_of_empty].
    intros [Hk Hnot]%elem_of_difference. apply elem_of_dom in Hk.
    destruct Hnot. rewrite elem_of_list_to_set. auto.
Qed.

Lemma fit_hypothesis_fittable r (hv : dict) w :
  (∀ k, is_Some (hv !! k) → k ∈ fittable (ext w)) →
  fit_hypothesis r hv w =
    ('(fit_result, max_llh) ← call (EvFit hv) (fit hv);
     '(dl, ul) ← bounds r hv;
     mret (<["ul" := ul]> (<["dl" := dl]> (<["ll" := max_llh]> fit_result)))) w.
Proof.
  intros Hsub. unfold fit_hypothesis.
  erewrite M_bind_Ok; last done. cbv beta.
  rewrite bool_decide_true by by apply not_fittable_spec. done.
Qed.

Lemma fit_hypothesis_not_fittable r (hv : dict) w :
  ¬ (∀ k, is_Some (hv !! k) → k ∈ fittable (ext w)) →
  fit_hypothesis r hv w
  = (Raise (ValueError (HypothesisNotFittable hv (fittable (ext w)))), w).
Proof.
  intros Hsub. unfold fit_hypothesis.
  erewrite M_bind_Ok; last done. cbv beta.
  rewrite bool_decide_false by by rewrite not_fittable_spec. done.
Qed.

Lemma mapM_M_Raise {A B} (f : A → M B) pre x post w ys w1 e w2 :
  mapM f pre w = (Ok ys, w1) → f x w1 = (Raise e, w2) →
  mapM f (pre ++ x :: post) w = (Raise e, w2).
Proof.
  revert w ys. induction pre as [|a pre IH]; intros w ys.
  - intros Hnil Hx. change ((Ok [], w) = (Ok ys, w1)) in Hnil.
    injection Hnil as <- <-. rewrite app_nil_l, mapM_cons.
    by erewrite M_bind_Raise.
  - rewrite <- app_comm_cons, !mapM_cons. intros Hpre Hx.
    apply M_bind_Ok_inv in Hpre as (y & w3 & Ha & Hpre).
    apply M_bind_Ok_inv in Hpre as (k & w4 & Hpre & [= <- <-]).
    erewrite M_bind_Ok; last done.
    erewrite M_bind_Raise; [done|]. eauto.
Qed.

(** C8: a hypothesis with a key outside the model's fittable parameters
    makes [fit_hypothesis] fail on the spot, with the hypothesis and the
    fittable names in the error and without calling the model; otherwise
    the model's fit is called with the hypothesis as its constraints.  The
    failure ends the iteration in which the hypothesis is reached. *)
Theorem hypothesis_must_be_fittable r (hv : dict) w :
  (¬ (∀ k, is_Some (hv !! k) → k ∈ fittable (ext w)) →
     fit_hypothesis r hv w
     = (Raise (ValueError (HypothesisNotFittable hv (fittable (ext w)))), w)) ∧
  ((∀ k, is_Some (hv !! k) → k ∈ fittable (ext w)) →
     fit_hypothesis r hv w =
       ('(fit_result, max_llh) ← call (EvFit hv) (fit hv);
        '(dl, ul) ← bounds r hv;
        mret (<["ul" := ul]> (<["dl" := dl]> (<["ll" := max_llh]> fit_result)))) w) ∧
  (∀ pre post i_mc data results w0 w1 fit_results,
     _hypotheses_values r = pre ++ hv :: post →
     call (EvSetData data) (set_data data) w0 = (Ok tt, w1) →
     mapM (fit_hypothesis r) pre w1 = (Ok fit_results, w) →
     ¬ (∀ k, is_Some (hv !! k) → k ∈ fittable (ext w)) →
     iteration r i_mc data results w0
     = (Raise (ValueError (HypothesisNotFittable hv (fittable (ext w)))), w)).
Proof.
  split; [apply fit_hypothesis_not_fittable|].
  split; [apply fit_hypothesis_fittable|].
  intros pre post i_mc data results w0 w1 frs Hhvs Hset Hpre Hsub.
  unfold iteration. erewrite M_bind_Ok; last done.
  erewrite M_bind_Raise; [done|]. rewrite Hhvs.
  eapply mapM_M_Raise; [done|]. by apply fit_hypothesis_not_fittable.
Qed.

(** C4: the bound pair of a hypothesis is the model's confidence interval,
    computed with the first hypothesis as best-fit reference and the
    current hypothesis as constraints, exactly when confidence intervals
    are enabled and the poi is not a key of the hypothesis; otherwise it is
    (NaN, NaN) and the model is not called.  The pair is what a fit record
    holds under [dl] and [ul]. *)
Theorem bounds_of_hypothesis r (hv : dict) w :
  (_compute_confidence_interval r = true → hv !! poi r = None →
     ∀ best_fit_args, head (_hypotheses_values r) = Some best_fit_args →
       bounds r hv w
       = call (EvConfidenceInterval (poi r) best_fit_args hv)
              (confidence_interval (poi r) best_fit_args hv) w) ∧
  (_compute_confidence_interval r = false ∨ is_Some (hv !! poi r) →
     bounds r hv w = (Ok (PyFloatV float_nan, PyFloatV float_nan), w)) ∧
  (∀ fit_result w',
     fit_hypothesis r hv w = (Ok fit_result, w') →
     ∃ fitted max_llh s1 dl ul,
       fit hv (ext w) = (Ok (fitted, max_llh), s1) ∧
       bounds r hv (World s1 (log w ++ [EvFit hv])) = (Ok (dl, ul), w') ∧
       fit_result !! "dl" = Some dl ∧ fit_result !! "ul" = Some ul).
Proof.
  split; [|split].
  - intros Hcci Hpoi best Hbest. unfold bounds. rewrite Hcci, Hpoi. simpl.
    destruct (_hypotheses_values r); simplify_eq/=. done.
  - intros Hcase. unfold bounds. destruct Hcase as [->|Hpoi]; [done|].
    rewrite bool_decide_true by done. by rewrite andb_false_r.
  - intros fit_result w' Hfit. unfold fit_hypothesis in Hfit.
    apply M_bind_Ok_inv in Hfit as (names & w1 & [= <- <-] & Hfit).
    destruct (negb _); [done|].
    apply M_bind_Ok_inv in Hfit as ([fitted max_llh] & w2 & Hcall & Hfit).
    apply M_bind_Ok_inv in Hfit as ([dl ul] & w3 & Hbounds & [= <- <-]).
    unfold call in Hcall. destruct (fit hv (ext w)) as [x s1] eqn:Hx.
    injection Hcall as -> <-.
    exists fitted, max_llh, s1, dl, ul. split; [done|]. split; [done|].
    split; [|by rewrite lookup_insert_eq].
    rewrite lookup_insert_ne by done. by rewrite lookup_insert_eq.
Qed.

(** ** The result tables *)

Lemma str_le_total : Total str_le.
Proof. intros a b. unfold str_le. apply String.leb_total. Qed.

Lemma sorted_Sorted names : Sorted str_le (sorted names).
Proof.
  unfold sorted. pose proof str_le_total. by apply Sorted_merge_sort.
Qed.

Lemma sorted_Permutation names : sorted names ≡ₚ names.
Proof. apply merge_sort_Permutation. Qed.

Lemma init_result_names args w r w' :
  init args w = (Ok r, w') →
  _result_names r = sorted (get_parameter_list (ext w')) ++ ["ll"; "dl"; "ul"] ∧
  _result_dtype r = _result_names r ∧
  _n_mc r = arg_n_mc args ∧
  _hypotheses_values r ≠ [] ∧
  length (_hypotheses_values r) = length (arg_hypotheses args).
Proof.
  unfold init. intros Hinit.
  apply M_bind_Ok_inv in Hinit as (_ & w1 & _ & Hinit).
  apply M_bind_Ok_inv in Hinit as (common & w2 & _ & Hinit).
  apply M_bind_Ok_inv in Hinit as (gv & w3 & _ & Hinit).
  apply M_bind_Ok_inv in Hinit as ([names dtype] & w4 & Hnames & Hinit).
  apply M_bind_Ok_inv in Hinit as (hv & w5 & Hhv & Hinit).
  apply liftR_Ok_inv in Hhv as [Hhv ->].
  injection Hinit as <- <-. simpl.
  unfold _get_parameter_list in Hnames.
  apply M_bind_Ok_inv in Hnames as (ns & w6 & [= <- <-] & [= <- <- <-]).
  assert (Hlen : length hv = length (arg_hypotheses args)).
  { apply _get_hypotheses_Ok in Hhv. symmetry. by eapply Forall2_length. }
  repeat split; [|done].
  intros ->. unfold _get_hypotheses in Hhv.
  destruct (arg_hypotheses args); [done|]. done.
Qed.

Lemma mapM_M_length {A B} (f : A → M B) l w ys w' :
  mapM f l w = (Ok ys, w') → length ys = length l.
Proof.
  revert w ys. induction l as [|x l IH]; intros w ys.
  - intros Hnil. change ((Ok [], w) = (Ok ys, w')) in Hnil. by injection Hnil as <- <-.
  - rewrite mapM_cons. intros Hl.
    apply M_bind_Ok_inv in Hl as (y & w1 & _ & Hl).
    apply M_bind_Ok_inv in Hl as (k & w2 & Hk & [= <- <-]).
    simpl. f_equal. eauto.
Qed.

Lemma result_row_length names fit_result row :
  result_row names fit_result = Ok row → length row = length names.
Proof.
  unfold result_row. intros Hrow.
  apply result_bind_Ok_inv in Hrow as (values & Hvalues & Hrow).
  apply mapM_result_Ok, Forall2_length in Hvalues.
  apply mapM_result_Ok, Forall2_length in Hrow. congruence.
Qed.

(** What [assign_results] writes: row [i_mc] of table [j] becomes the row of
    fit result [j]. *)
Lemma assign_results_Ok r i_mc fit_results results results' :
  length fit_results = length results →
  assign_results r i_mc fit_results results = Ok results' →
  ∃ rows_i,
    mapM (result_row (_result_names r)) fit_results = Ok rows_i ∧
    Forall3 (λ t row t',
               (i_mc < length (rows t))%nat ∧
               dtype_names t' = dtype_names t ∧
               rows t' = <[i_mc := row]> (rows t))
            results rows_i results'.
Proof.
  unfold assign_results. revert results results'.
  induction fit_results as [|fr frs IH]; intros [|t ts] results' Hlen; try done.
  - intros [= <-]. exists []. split; [done|]. constructor.
  - simpl zip. rewrite !mapM_cons. intros Hassign.
    apply result_bind_Ok_inv in Hassign as (t' & Ht' & Hassign).
    apply result_bind_Ok_inv in Hassign as (ts' & Hts' & [= <-]).
    apply result_bind_Ok_inv in Ht' as (row & Hrow & Hset).
    destruct (IH ts ts') as (rows_i & Hrows & Hall); [by simplify_eq/=|done|].
    exists (row :: rows_i). split.
    + rewrite Hrow. simpl. unfold mbind, result_bind at 1. by rewrite Hrows.
    + constructor; [|done]. unfold setitem in Hset.
      destruct (decide _); [|done]. by injection Hset as <-.
Qed.

(** Two loops over the generator whose bodies keep a relation between
    their accumulators stay related. *)
Lemma for_data_sim {A B} r (body1 : nat → option Data → A → M A)
    (body2 : nat → option Data → B → M B) (R : nat → A → B → Prop) :
  (∀ i data a b w a' w',
     R i a b → body1 i data a w = (Ok a', w') →
     ∃ b', body2 i data b w = (Ok b', w') ∧ R (S i) a' b') →
  ∀ n i td a b w td' a' w',
    R i a b → for_data r body1 i n td a w = (Ok (td', a'), w') →
    ∃ b', for_data r body2 i n td b w = (Ok (td', b'), w') ∧ R (i + n)%nat a' b'.
Proof.
  intros Hstep. induction n as [|n IH]; intros i td a b w td' a' w' HR Hloop.
  - injection Hloop as <- <- <-. exists b. rewrite Nat.add_0_r. done.
  - simpl in Hloop.
    apply M_bind_Ok_inv in Hloop as ([data td1] & w1 & Hnext & Hloop).
    apply M_bind_Ok_inv in Hloop as (a1 & w2 & Hbody & Hloop).
    destruct (Hstep _ _ _ _ _ _ _ HR Hbody) as (b1 & Hbody2 & HR1).
    destruct (IH _ _ _ _ _ _ _ _ HR1 Hloop) as (b' & Hloop2 & HR').
    exists b'. split; [|by rewrite Nat.add_succ_r].
    simpl. erewrite M_bind_Ok; last done. cbv beta iota.
    by erewrite M_bind_Ok.
Qed.

Lemma for_data_generator_sim {A B} r (body1 : nat → option Data → A → M A)
    (body2 : nat → option Data → B → M B) (R : nat → A → B → Prop) a b w a' w' :
  (∀ i data a b w a' w',
     R i a b → body1 i data a w = (Ok a', w') →
     ∃ b', body2 i data b w = (Ok b', w') ∧ R (S i) a' b') →
  R O a b →
  for_data_generator r body1 a w = (Ok a', w') →
  ∃ b', for_data_generator r body2 b w = (Ok b', w') ∧ R (Z.to_nat (_n_mc r)) a' b'.
Proof.
  intros Hstep HR Hgen. unfold for_data_generator in *.
  apply M_bind_Ok_inv in Hgen as ([td names] & w1 & Hstart & Hgen).
  apply M_bind_Ok_inv in Hgen as ([td' a1] & w2 & Hloop & Hgen).
  apply M_bind_Ok_inv in Hgen as ([] & w3 & Hfinish & [= <- <-]).
  destruct (for_data_sim r body1 body2 R Hstep _ _ _ _ _ _ _ _ _ HR Hloop)
    as (b' & Hloop2 & HR').
  exists b'. split; [|done].
  erewrite M_bind_Ok; last done. cbv beta iota.
  erewrite M_bind_Ok; last done. cbv beta iota.
  by erewrite M_bind_Ok.
Qed.

Lemma iteration_tables_hold r i_mc data results records w results' w' :
  tables_hold r i_mc results records →
  iteration r i_mc data results w = (Ok results', w') →
  ∃ records',
    (rows_i ← iteration_records r data; mret (records ++ [rows_i])) w
      = (Ok records', w') ∧
    tables_hold r (S i_mc) results' records'.
Proof.
  intros (Hrecords & Hresults & Htables) Hiter. unfold iteration in Hiter.
  apply M_bind_Ok_inv in Hiter as ([] & w1 & Hset & Hiter).
  apply M_bind_Ok_inv in Hiter as (frs & w2 & Hfits & Hassign).
  apply liftR_Ok_inv in Hassign as [Hassign ->].
  pose proof (mapM_M_length _ _ _ _ _ Hfits) as Hfrs.
  apply assign_results_Ok in Hassign as (rows_i & Hrows & Hall); [|congruence].
  exists (records ++ [rows_i]). split.
  { unfold iteration_records.
    erewrite M_bind_Ok; [done|].
    erewrite M_bind_Ok; last done.
    erewrite M_bind_Ok; last done.
    unfold liftR. by rewrite Hrows. }
  split; [rewrite length_app; simpl; lia|].
  split; [by rewrite <- (Forall3_length_lr _ _ _ _ Hall)|].
  intros j t' Ht'.
  destruct (Forall3_lookup_r _ _ _ _ _ _ Hall Ht')
    as (t & row & Ht & Hrow & Hi & Hdtype & Hrowst).
  destruct (Htables j t Ht) as (Hdt & Hlen & Hwidth & Hlookup).
  split; [congruence|]. rewrite Hrowst.
  split; [by rewrite length_insert|]. split.
  - apply Forall_insert; [done|].
    apply mapM_result_Ok in Hrows.
    destruct (Forall2_lookup_r _ _ _ _ _ Hrows Hrow) as (fr & _ & Hfr).
    by eapply result_row_length.
  - intros i Hi'. destruct (decide (i = i_mc)) as [->|Hne].
    + rewrite list_lookup_insert_eq by done.
      rewrite <- Hrecords, list_lookup_middle by done. done.
    + rewrite list_lookup_insert_ne by done.
      rewrite lookup_app_l by lia. apply Hlookup. lia.
Qed.

(** [simulate_and_fit] fills the tables with the records of [fit_records]. *)
Lemma simulate_and_fit_records r w results w' :
  _result_dtype r = _result_names r →
  simulate_and_fit r w = (Ok results, w') →
  (_hypotheses_values r ≠ [] → 0 ≤ _n_mc r) ∧
  ∃ records,
    fit_records r w = (Ok records, w') ∧
    tables_hold r (Z.to_nat (_n_mc r)) results records.
Proof.
  intros Hdt Hrun. unfold simulate_and_fit in Hrun.
  apply M_bind_Ok_inv in Hrun as (results0 & w1 & Hzeros & Hrun).
  apply liftR_Ok_inv in Hzeros as [Hzeros ->]. split.
  { destruct (_hypotheses_values r) as [|hv hvs]; [done|]. intros _.
    rewrite mapM_cons in Hzeros.
    apply result_bind_Ok_inv in Hzeros as (t & Ht & _).
    unfold np_zeros in Ht. destruct (Z.ltb_spec (_n_mc r) 0); [done|lia]. }
  unfold fit_records.
  eapply (for_data_generator_sim r (iteration r) _ (tables_hold r)); [| |done].
  - intros i data a b w0 a' w0' Hinv Hiter.
    by eapply iteration_tables_hold.
  - apply mapM_result_Ok in Hzeros.
    split; [done|]. split; [symmetry; by eapply Forall2_length|].
    intros j t Ht.
    destruct (Forall2_lookup_r _ _ _ _ _ Hzeros Ht) as (hv & _ & Hz).
    unfold np_zeros in Hz. destruct (_n_mc r <? 0); [done|].
    injection Hz as <-. simpl.
    split; [done|]. split; [by rewrite length_replicate|]. split; [|lia].
    apply Forall_replicate. rewrite length_replicate. by rewrite Hdt.
Qed.

(** C1 (as the code has it): a run of [simulate_and_fit] that returns,
    on a constructed runner, returns one table per hypothesis, in list
    order; each table has [n_mc] rows, row [i] being the record of
    repetition [i] for that hypothesis, and its columns are the sorted names
    of the model's parameter list followed by [ll], [dl], [ul]. *)
Theorem simulate_and_fit_tables (args : RunnerArgs) w0 r w1 w results w' :
  init args w0 = (Ok r, w1) →
  simulate_and_fit r w = (Ok results, w') →
  let parameter_list := sorted (get_parameter_list (ext w1)) in
  let columns := parameter_list ++ ["ll"; "dl"; "ul"] in
  Sorted str_le parameter_list ∧
  parameter_list ≡ₚ get_parameter_list (ext w1) ∧
  length results = length (arg_hypotheses args) ∧
  ∃ records,
    fit_records r w = (Ok records, w') ∧
    Z.of_nat (length records) = arg_n_mc args ∧
    ∀ j t, results !! j = Some t →
      dtype_names t = columns ∧
      Z.of_nat (length (rows t)) = arg_n_mc args ∧
      Forall (λ row, length row = length columns) (rows t) ∧
      ∀ i, rows t !! i = records !! i ≫= (.!! j).
Proof.
  intros Hinit Hrun parameter_list columns.
  destruct (init_result_names _ _ _ _ Hinit) as (Hnames & Hdtype & Hn & Hne & Hk).
  destruct (simulate_and_fit_records _ _ _ _ Hdtype Hrun)
    as (Hpos & records & Hrecords & Hlen & Hresults & Htables).
  specialize (Hpos Hne).
  split; [apply sorted_Sorted|]. split; [apply sorted_Permutation|].
  split; [by rewrite Hresults|].
  exists records. split; [done|]. split; [lia|].
  intros j t Ht. destruct (Htables j t Ht) as (Hdt & Hrows & Hwidth & Hlookup).
  unfold columns, parameter_list. rewrite <- Hnames.
  split; [congruence|]. split; [lia|]. split; [done|].
  intros i. destruct (decide (i < Z.to_nat (_n_mc r))%nat) as [Hi|Hi]; [auto|].
  rewrite !lookup_ge_None_2 by lia. done.
Qed.

End Properties.

(** * Further properties of the runner *)

Section RunnerProperties.
Context `{Ext : External}.

Implicit Types (value array : dict) (w : world) (r : Runner).

Lemma returns_Ok {A} (x : result A * world) :
  returns x = true → ∃ a w', x = (Ok a, w').
Proof. destruct x as [[a|e] w']; [eauto|done]. Qed.

Lemma M_bind_inv {A B} (m : M A) (k : A → M B) w x w' :
  (m ≫= k) w = (x, w') →
  (∃ a w1, m w = (Ok a, w1) ∧ k a w1 = (x, w')) ∨
  (∃ e, m w = (Raise e, w') ∧ x = Raise e).
Proof.
  unfold mbind, M_bind. destruct (m w) as [[a|e] w1]; intros Hk.
  - left. eauto.
  - right. injection Hk as <- <-. eauto.
Qed.

Lemma _update_poi_events poi0 value nominal w x w' :
  _update_poi poi0 value nominal w = (x, w') →
  log w' = log w ∨
  log w' = log w ++ [EvExpectationValues (nominal ∪ delete "poi_expectation" value)].
Proof.
  unfold _update_poi. destruct (value !! "poi_expectation") as [E|].
  2: { intros [= <- <-]. by left. }
  destruct (decide _). { intros [= <- <-]. by left. }
  destruct (negb _). { intros [= <- <-]. by left. }
  intros [(ev & w1 & Hcall & Hrest)|(e & Hcall & _)]%M_bind_inv.
  - unfold call in Hcall. destruct (get_expectation_values _ _) as [y s].
    injection Hcall as -> <-. right.
    destruct (ev !! _); [|by injection Hrest as <- <-].
    apply M_bind_inv in Hrest as [(ratio & w2 & [= _ <-] & [= <- <-])|(e & [= _ <-] & _)];
      done.
  - unfold call in Hcall. destruct (get_expectation_values _ _) as [y s].
    injection Hcall as -> <-. by right.
Qed.

(** Construction first builds the model (lines 95-128: the class is
    looked up, the model configuration file is read when one is given, the
    model is instantiated) and, at most once afterwards, asks it for its
    expectation values (for [poi_expectation]).  Apart from these it
    generates no data, fits nothing, computes no confidence interval and
    neither reads nor writes the toy-data file or the output file, whether
    it succeeds or fails. *)
Theorem init_events (args : RunnerArgs) w x w' :
  init args w = (x, w') →
  let nominal := default ∅ (arg_nominal_values args) in
  let built := EvBuildModel (arg_statistical_model args) nominal (arg_model_config args) in
  log w' = log w ++ [built] ∨
  log w' = log w ++ [built;
             EvExpectationValues
               (nominal ∪ delete "poi_expectation" (default ∅ (arg_generate_values args)))].
Proof.
  intros Hinit nominal built. unfold init in Hinit.
  apply M_bind_inv in Hinit as [(a & w1 & Hbuild & Hinit)|(e & Hbuild & _)].
  2: { unfold call in Hbuild. destruct (build_model _ _ _ _) as [y s].
       injection Hbuild as _ <-. by left. }
  assert (Hw1 : log w1 = log w ++ [built]).
  { unfold call in Hbuild. destruct (build_model _ _ _ _) as [y s].
    by injection Hbuild as _ <-. }
  apply M_bind_inv in Hinit as [(common & w2 & Hcommon & Hinit)|(e & Hcommon & _)].
  2: { unfold set_common_hypothesis in Hcommon.
       destruct (negb _); injection Hcommon as _ <-; by left. }
  assert (w2 = w1) as ->.
  { unfold set_common_hypothesis in Hcommon.
    by destruct (negb _); injection Hcommon as _ <-. }
  assert (Hgv : ∀ y w3,
    set_generate_values (arg_poi args) nominal (default ∅ (arg_generate_values args)) w1
      = (y, w3) →
    log w3 = log w ++ [built] ∨
    log w3 = log w ++ [built;
               EvExpectationValues
                 (nominal ∪ delete "poi_expectation" (default ∅ (arg_generate_values args)))]).
  { intros y w3. unfold set_generate_values. destruct (negb _).
    - intros [= _ <-]. by left.
    - intros Hupd. apply _update_poi_events in Hupd as [->| ->];
        rewrite Hw1; [by left|right].
      by rewrite <- (assoc_L (++)). }
  apply M_bind_inv in Hinit as [(gv & w3 & Hset & Hinit)|(e & Hset & _)]; [|eauto].
  apply M_bind_inv in Hinit as [([names dtype] & w4 & Hnames & Hinit)|(e & Hnames & _)].
  2: { unfold _get_parameter_list in Hnames.
       by apply M_bind_inv in Hnames as [(? & ? & [= _ <-] & [=])|(? & [=] & _)]. }
  assert (w4 = w3) as ->.
  { unfold _get_parameter_list in Hnames.
    by apply M_bind_inv in Hnames as [(? & ? & [= _ <-] & [= _ <-])|(? & [=] & _)]. }
  apply M_bind_inv in Hinit as [(hv & w5 & [= _ <-] & [= _ <-])|(e & [= _ <-] & _)];
    eauto.
Qed.

(** ** Toy-data modes *)

(** A toy-data mode outside the four known ones is rejected when the
    generator starts, whatever [only_toydata] is, before any collaborator
    is called. *)
Theorem unknown_toydata_mode r w :
  _toydata_mode r ∉ toydata_modes →
  let e := ValueError (UnknownToydataMode (_toydata_mode r)) in
  data_generator_start r w = (Raise e, w) ∧
  simulate r w = (Raise e, w) ∧
  (∀ A (body : nat → option Data → A → M A) acc,
     for_data_generator r body acc w = (Raise e, w)) ∧
  (only_toydata r = true → run r w = (Raise e, w)).
Proof.
  intros Hmode e.
  assert (Hstart : data_generator_start r w = (Raise e, w)).
  { unfold data_generator_start. by rewrite bool_decide_false. }
  assert (Hsim : simulate r w = (Raise e, w)).
  { unfold simulate. by erewrite M_bind_Raise. }
  split; [done|]. split; [done|]. split.
  - intros A body acc. unfold for_data_generator. by erewrite M_bind_Raise.
  - intros Honly. unfold run. by rewrite Honly.
Qed.

(** ** Bounds of the Monte Carlo count *)

(** A negative [n_mc] makes [simulate_and_fit] fail while it allocates the
    tables, before the generator is started. *)
Theorem negative_n_mc_rejected r w :
  _n_mc r < 0 →
  _hypotheses_values r ≠ [] →
  simulate_and_fit r w = (Raise (ValueError NegativeDimensions), w).
Proof.
  intros Hn Hhv. unfold simulate_and_fit.
  destruct (_hypotheses_values r) as [|hv hvs]; [done|].
  erewrite M_bind_Raise; [done|]. unfold liftR. rewrite mapM_cons.
  unfold np_zeros. destruct (Z.ltb_spec (_n_mc r) 0); [done|lia].
Qed.

(** With [n_mc = 0] and a mode that neither reads nor writes, the run
    returns one empty table per hypothesis and calls no collaborator. *)
Theorem zero_n_mc_empty_tables r w :
  _n_mc r = 0 →
  only_toydata r = false →
  _toydata_mode r = "generate" ∨ _toydata_mode r = "no_toydata" →
  simulate_and_fit r w
  = (Ok (replicate (length (_hypotheses_values r))
           {| dtype_names := _result_dtype r; rows := [] |}), w).
Proof.
  intros Hn Honly Hmode. unfold simulate_and_fit.
  erewrite M_bind_Ok; last by (unfold liftR; rewrite mapM_np_zeros by lia).
  rewrite Hn. simpl. unfold for_data_generator.
  erewrite M_bind_Ok.
  2: { unfold data_generator_start. rewrite Honly.
       destruct Hmode as [->| ->]; reflexivity. }
  cbv beta iota. rewrite Hn. simpl.
  unfold mbind, M_bind, mret, M_ret, data_generator_finish.
  destruct Hmode as [->| ->]; reflexivity.
Qed.

(** ** Validation errors *)

Lemma all_float_int_false value k v :
  value !! k = Some v → isinstance_float_int v = false → all_float_int value = false.
Proof.
  intros Hk Hv. apply not_true_is_false. intros Hall.
  rewrite all_float_int_spec in Hall. specialize (Hall k v Hk). congruence.
Qed.

(** A mapping with one value that is neither float nor int (a string,
    [None]) is rejected by both setters before anything else is done, and
    a construction given it as [generate_values] fails. *)
Theorem setters_reject_non_numeric (value : dict) k v :
  value !! k = Some v →
  isinstance_float_int v = false →
  (∀ w, set_common_hypothesis value w
        = (Raise (ValueError (CommonHypothesisNotFloat value)), w)) ∧
  (∀ poi0 nominal w,
     set_generate_values poi0 nominal value w
     = (Raise (ValueError (GenerateValuesNotFloat value)), w)) ∧
  (∀ args w, arg_generate_values args = Some value →
     ∃ e w', init args w = (Raise e, w')).
Proof.
  intros Hk Hv. pose proof (all_float_int_false _ _ _ Hk Hv) as Hall.
  assert (Hset : ∀ poi0 nominal w,
    set_generate_values poi0 nominal value w
    = (Raise (ValueError (GenerateValuesNotFloat value)), w)).
  { intros. unfold set_generate_values. by rewrite Hall. }
  split; [|split; [done|]].
  - intros w. unfold set_common_hypothesis. by rewrite Hall.
  - intros args w Hargs.
    destruct (init args w) as [[r|e] w'] eqn:Hinit; [|eauto].
    apply init_generate_values in Hinit as (w1 & w2 & Hgv).
    rewrite Hargs in Hgv. simpl in Hgv. by rewrite Hset in Hgv.
Qed.

(** The failures of [poi_expectation] resolution after the checks: an
    expectation table without the poi's component raises [KeyError] for
    that component; a failing division is passed on.  In both cases the
    model has been asked once for its expectation values, at the generate
    values without [poi_expectation] overlaid by the nominal values (a
    nominal value wins over a generate value of the same name). *)
Theorem poi_expectation_failures (poi0 : string) (nominal value : dict) (E : pyval)
    w expectation_values s1 :
  all_float_int value = true →
  value !! "poi_expectation" = Some E →
  value !! poi0 = None →
  endswith poi0 "_rate_multiplier" = true →
  get_expectation_values (nominal ∪ delete "poi_expectation" value) (ext w)
    = (Ok expectation_values, s1) →
  let component := str_replace poi0 "_rate_multiplier" "" in
  let w1 := World s1 (log w ++ [EvExpectationValues
                                  (nominal ∪ delete "poi_expectation" value)]) in
  (expectation_values !! component = None →
     set_generate_values poi0 nominal value w = (Raise (KeyError component), w1)) ∧
  (∀ N e, expectation_values !! component = Some N → truediv E N = Raise e →
     set_generate_values poi0 nominal value w = (Raise e, w1)).
Proof.
  intros Hnum HE Hpoi Hsuffix Hev component w1.
  unfold set_generate_values, _update_poi.
  rewrite Hnum, HE, Hpoi, Hsuffix. simpl.
  destruct (decide (is_Some (@None pyval))) as [[? [=]]|_].
  unfold component. split.
  - intros HN. unfold mbind, M_bind, call. by rewrite Hev, HN.
  - intros N e HN Hdiv. unfold mbind, M_bind, call. rewrite Hev, HN.
    unfold mbind, M_bind, liftR. by rewrite Hdiv.
Qed.

(** A string hypothesis other than [free], [null], [true] and the empty
    string, and a mapping hypothesis with a value that is neither float nor
    int, make hypothesis resolution fail. *)
Theorem invalid_hypotheses_rejected (poi0 : string) (hyps : list hypothesis)
    (common gv : dict) (cci : bool) (h : hypothesis) :
  h ∈ hyps →
  match h with
  | HypStr s => s ∉ ["free"; "null"; "true"; ""]
  | HypDict d => ∃ k v, d !! k = Some v ∧ isinstance_float_int v = false
  end →
  ∃ e, _get_hypotheses poi0 hyps common gv cci = Raise e.
Proof.
  intros Hin Hbad.
  destruct (_get_hypotheses poi0 hyps common gv cci) as [hvs|e] eqn:Hok; [|eauto].
  apply _get_hypotheses_Ok in Hok.
  apply list_elem_of_lookup in Hin as [i Hi].
  destruct (Forall2_lookup_l _ _ _ _ _ Hok Hi) as (y & _ & Hres).
  exfalso. unfold resolve_hypothesis in Hres. destruct h as [s|d].
  - assert (Hnull : hyp_eq "null" (HypStr s) = false).
    { apply not_true_iff_false. rewrite hyp_eq_true. intros [= ->]. set_solver. }
    assert (Htrue : hyp_eq "true" (HypStr s) = false).
    { apply not_true_iff_false. rewrite hyp_eq_true. intros [= ->]. set_solver. }
    assert (Hfree : hyp_eq "free" (HypStr s) = false).
    { apply not_true_iff_false. rewrite hyp_eq_true. intros [= ->]. set_solver. }
    rewrite Hnull, Htrue, Hfree in Hres. simpl in Hres.
    destruct s; [set_solver|done].
  - simpl in Hres. destruct Hbad as (k & v & Hk & Hv).
    rewrite (all_float_int_false (d ∪ common) k v) in Hres; [done| |done].
    by apply lookup_union_Some_l.
Qed.

(** A fit record holds the maximised log-likelihood under [ll] and the
    model's fitted values under every key other than [ll], [dl], [ul]. *)
Theorem fit_record_contents r (hv : dict) w fit_result w' :
  fit_hypothesis r hv w = (Ok fit_result, w') →
  ∃ fitted max_llh s1,
    fit hv (ext w) = (Ok (fitted, max_llh), s1) ∧
    fit_result !! "ll" = Some max_llh ∧
    (∀ k, k ∉ ["ll"; "dl"; "ul"] → fit_result !! k = fitted !! k) ∧
    (∀ k, is_Some (hv !! k) → k ∈ fittable (ext w)).
Proof.
  intros Hfit.
  destruct (decide (dom hv ∖ list_to_set (fittable (ext w)) = (∅ : gset string)))
    as [Hsub|Hsub]; rewrite not_fittable_spec in Hsub.
  2: { by rewrite fit_hypothesis_not_fittable in Hfit. }
  rewrite fit_hypothesis_fittable in Hfit by done.
  apply M_bind_Ok_inv in Hfit as ([fitted max_llh] & w1 & Hcall & Hfit).
  apply M_bind_Ok_inv in Hfit as ([dl ul] & w2 & _ & [= <- <-]).
  unfold call in Hcall. destruct (fit hv (ext w)) as [x s1].
  injection Hcall as -> _.
  exists fitted, max_llh, s1. split; [done|]. split; [|split; [|done]].
  - rewrite !lookup_insert_ne by done. apply lookup_insert_eq.
  - intros k Hk. rewrite !lookup_insert_ne; [done|set_solver..].
Qed.

(** ** The generator in the modes that do not read *)

Lemma for_data_no_toydata {A} r (body : nat → option Data → A → M A) n :
  _toydata_mode r = "no_toydata" →
  ∀ i td acc w,
    for_data r body i n td acc w
    = (acc' ← for_range (λ i a, body i None a) i n acc; mret (td, acc')) w.
Proof.
  intros Hmode. induction n as [|n IH]; intros i td acc w; [done|].
  simpl. erewrite M_bind_Ok.
  2: { unfold data_generator_next. rewrite Hmode. reflexivity. }
  cbv beta iota. unfold mbind, M_bind.
  destruct (body i None acc w) as [[acc1|e] w1]; [|done].
  by rewrite IH.
Qed.

Lemma for_data_generate {A} r (body : nat → option Data → A → M A) n :
  _toydata_mode r = "generate" →
  ∀ i td acc w,
    for_data r body i n td acc w
    = (acc' ← for_range
                (λ i a, data ← call (EvGenerateData (generate_values r))
                                 (generate_data (generate_values r));
                        body i (Some data) a) i n acc;
       mret (td, acc')) w.
Proof.
  intros Hmode. induction n as [|n IH]; intros i td acc w; [reflexivity|].
  simpl. unfold data_generator_next. rewrite Hmode. simpl.
  unfold mbind, M_bind, mret, M_ret.
  destruct (call _ _ w) as [[data|e] w1]; [|reflexivity]. simpl.
  destruct (body i (Some data) acc w1) as [[acc1|e] w2]; [|reflexivity].
  rewrite IH. reflexivity.
Qed.

(** In [no_toydata] mode a loop over the generator is the plain loop of
    [n_mc] iterations, each handed [None]; the generator calls no
    collaborator. *)
Theorem no_toydata_loop {A} r (body : nat → option Data → A → M A) acc w :
  _toydata_mode r = "no_toydata" →
  only_toydata r = false →
  for_data_generator r body acc w
  = for_range (λ i a, body i None a) O (Z.to_nat (_n_mc r)) acc w.
Proof.
  intros Hmode Honly. unfold for_data_generator.
  erewrite M_bind_Ok.
  2: { unfold data_generator_start. rewrite Hmode, Honly. reflexivity. }
  cbv beta iota. unfold mbind at 1, M_bind at 1.
  rewrite for_data_no_toydata by done. unfold mbind at 1, M_bind at 1.
  destruct (for_range _ _ _ _ _) as [[acc1|e] w1]; [|done].
  unfold data_generator_finish. by rewrite Hmode.
Qed.

(** In [generate] mode a loop over the generator is the plain loop of
    [n_mc] iterations, each of which first asks the model for one dataset
    generated at the stored generate values; nothing is stored. *)
Theorem generate_loop {A} r (body : nat → option Data → A → M A) acc w :
  _toydata_mode r = "generate" →
  only_toydata r = false →
  for_data_generator r body acc w
  = for_range
      (λ i a, data ← call (EvGenerateData (generate_values r))
                       (generate_data (generate_values r));
              body i (Some data) a)
      O (Z.to_nat (_n_mc r)) acc w.
Proof.
  intros Hmode Honly. unfold for_data_generator.
  erewrite M_bind_Ok.
  2: { unfold data_generator_start. rewrite Hmode, Honly. reflexivity. }
  cbv beta iota. unfold mbind at 1, M_bind at 1.
  rewrite for_data_generate by done. unfold mbind at 1, M_bind at 1.
  destruct (for_range _ _ _ _ _) as [[acc1|e] w1]; [|done].
  unfold data_generator_finish. by rewrite Hmode.
Qed.

(** ** What the parts of a run add to the log *)

Ltac log_step :=
  first
    [ apply emits_ret | apply emits_raise | apply emits_liftR | apply emits_read
    | apply emits_bind;
      [|let a := fresh "a" in
        intros a;
        lazymatch type of a with
        | prod _ _ => destruct a
        | _ => idtac
        end] ].

Ltac log_auto :=
  repeat first
    [ log_step | case_match
    | apply emits_call; solve [auto] | apply emits_warn; solve [auto] ].

Lemma emits_impl {A} (P Q : event → Prop) (m : M A) :
  (∀ ev, P ev → Q ev) → emits P m → emits Q m.
Proof.
  intros HPQ Hm w x w' Hrun. destruct (Hm _ _ _ Hrun) as (evs & Hlog & Hevs).
  exists evs. split; [done|]. by eapply Forall_impl.
Qed.

Lemma emits_mapM {A B} P (f : A → M B) l :
  (∀ x, emits P (f x)) → emits P (mapM f l).
Proof.
  intros Hf. induction l as [|x l IH]; [apply emits_ret|].
  rewrite mapM_cons. repeat log_step; auto.
Qed.

Lemma emits_bounds P r (hv : dict) :
  (∀ p best ci, P (EvConfidenceInterval p best ci)) → emits P (bounds r hv).
Proof.
  intros HP. unfold bounds. repeat case_match; try log_step.
  apply emits_call, HP.
Qed.

Lemma emits_fit_hypothesis P r (hv : dict) :
  (∀ kw, P (EvFit kw)) → (∀ p best ci, P (EvConfidenceInterval p best ci)) →
  emits P (fit_hypothesis r hv).
Proof.
  intros Hfit Hci. unfold fit_hypothesis.
  log_step; [log_step|]. case_match; [log_step|].
  log_step; [by apply emits_call|].
  log_step; [by apply emits_bounds|]. log_step.
Qed.

Lemma emits_iteration P r i data results :
  P (EvSetData data) → (∀ kw, P (EvFit kw)) →
  (∀ p best ci, P (EvConfidenceInterval p best ci)) →
  emits P (iteration r i data results).
Proof.
  intros Hset Hfit Hci. unfold iteration.
  log_step; [by apply emits_call|].
  log_step; [|log_step].
  apply emits_mapM. intros hv. by apply emits_fit_hypothesis.
Qed.

Lemma emits_data_generator_start P r :
  (∀ f, P (EvReadToydata f)) → (∀ n m, P (EvWarnStoredToydataLarger n m)) →
  emits P (data_generator_start r).
Proof.
  intros Hread Hwarn. unfold data_generator_start. log_auto.
Qed.

Lemma emits_data_generator_next P r i td :
  (∀ kw, P (EvGenerateData kw)) → emits P (data_generator_next r i td).
Proof.
  intros Hgen. unfold data_generator_next. log_auto.
Qed.

Lemma emits_data_generator_finish P r td names :
  (∀ f t n, P (EvStoreData f t n)) → emits P (data_generator_finish r td names).
Proof.
  intros Hstore. unfold data_generator_finish. case_match; [|log_step].
  by apply emits_call.
Qed.

Lemma emits_for_data {A} P r (body : nat → option Data → A → M A) n :
  (∀ kw, P (EvGenerateData kw)) →
  (∀ i data acc, emits P (body i data acc)) →
  ∀ i td acc, emits P (for_data r body i n td acc).
Proof.
  intros Hgen Hbody. induction n as [|n IH]; intros i td acc; [apply emits_ret|].
  simpl. log_step; [by apply emits_data_generator_next|].
  log_step; auto.
Qed.

Lemma emits_all_data P r n :
  (∀ kw, P (EvGenerateData kw)) → (∀ f t n, P (EvStoreData f t n)) →
  ∀ i td names, emits P (all_data r i n td names).
Proof.
  intros Hgen Hstore. induction n as [|n IH]; intros i td names.
  - by apply emits_data_generator_finish.
  - simpl. log_step; [by apply emits_data_generator_next|].
    log_step; [log_step|]. case_match; [auto|log_step].
Qed.

(** Nothing but [write_output] writes the output file. *)
Lemma emits_simulate_and_fit r :
  emits (λ ev, is_write_output ev = false) (simulate_and_fit r).
Proof.
  unfold simulate_and_fit, for_data_generator.
  log_step; [log_step|].
  log_step; [by apply emits_data_generator_start|].
  log_step.
  - apply emits_for_data; [done|]. intros. by apply emits_iteration.
  - log_step; [by apply emits_data_generator_finish|log_step].
Qed.

Lemma emits_simulate r : emits (λ ev, is_write_output ev = false) (simulate r).
Proof.
  unfold simulate. log_step; [by apply emits_data_generator_start|].
  by apply emits_all_data.
Qed.

(** [run] writes the output file at most once, as its very last action and
    only after [simulate_and_fit] has returned its tables: a run that only
    generates toy data, or whose simulate-and-fit fails, writes nothing. *)
Theorem run_writes_output_last r w x w' :
  run r w = (x, w') →
  ∃ evs, log w' = log w ++ evs ∧
    ((Forall (λ ev, is_write_output ev = false) evs ∧
      (only_toydata r = true ∨ ∃ e, x = Raise e)) ∨
     (∃ evs0 results w1,
        evs = evs0 ++ [EvWriteOutput (_output_file r)] ∧
        Forall (λ ev, is_write_output ev = false) evs0 ∧
        only_toydata r = false ∧
        simulate_and_fit r w = (Ok results, w1) ∧ log w1 = log w ++ evs0)).
Proof.
  unfold run. destruct (only_toydata r) eqn:Honly.
  - intros Hsim. destruct (emits_simulate r _ _ _ Hsim) as (evs & Hlog & Hevs).
    exists evs. split; [done|]. left. eauto.
  - intros [(results & w1 & Hfit & Hwrite)|(e & Hfit & ->)]%M_bind_inv.
    + destruct (emits_simulate_and_fit r _ _ _ Hfit) as (evs0 & Hlog & Hevs).
      unfold write_output in Hwrite.
      apply M_bind_inv in Hwrite
        as [(names & w2 & [= _ <-] & Hwrite)|(e & [= _ <-] & ->)].
      2: { exists evs0. split; [done|]. left. eauto. }
      apply M_bind_inv in Hwrite as [(date & w2 & [= _ <-] & Hcall)|(? & [=] & _)].
      unfold call in Hcall. destruct (numpy_to_toyfile _ _ _ _ _) as [y s].
      injection Hcall as _ <-. simpl.
      exists (evs0 ++ [EvWriteOutput (_output_file r)]).
      split; [by rewrite Hlog, (assoc_L (++))|]. right.
      exists evs0, results, w1. done.
    + destruct (emits_simulate_and_fit r _ _ _ Hfit) as (evs & Hlog & Hevs).
      exists evs. split; [done|]. left. eauto.
Qed.

(** ** The log of a successful run *)

Lemma omap_None_Forall {A B} (f : A → option B) (l : list A) :
  Forall (λ x, f x = None) l → omap f l = [].
Proof. induction 1 as [|x l Hx _ IH]; simpl; [done|]. by rewrite Hx. Qed.

Lemma call_log {A} ev (op : St → result A * St) w x w' :
  call ev op w = (x, w') → log w' = log w ++ [ev].
Proof. unfold call. destruct (op (ext w)). by intros [= _ <-]. Qed.

Lemma fit_hypothesis_log r (hv : dict) w fit_result w' :
  fit_hypothesis r hv w = (Ok fit_result, w') →
  ∃ evs, log w' = log w ++ EvFit hv :: evs ∧
         Forall (λ ev, fit_event ev = true ∧ is_fit ev = false) evs.
Proof.
  intros Hfit. unfold fit_hypothesis in Hfit.
  apply M_bind_Ok_inv in Hfit as (names & w1 & [= <- <-] & Hfit).
  destruct (negb _); [done|].
  apply M_bind_Ok_inv in Hfit as ([fitted max_llh] & w2 & Hcall & Hfit).
  apply M_bind_Ok_inv in Hfit as ([dl ul] & w3 & Hbounds & [= <- <-]).
  apply call_log in Hcall. unfold bounds in Hbounds.
  destruct (_ && _).
  - destruct (_hypotheses_values r) as [|best ?]; [done|].
    apply call_log in Hbounds. rewrite Hbounds, Hcall, <- (assoc_L (++)).
    eexists. split; [done|]. by repeat constructor.
  - injection Hbounds as _ _ <-. rewrite Hcall. exists []. by split.
Qed.

Lemma fits_log r (hvs : list dict) w fit_results w' :
  mapM (fit_hypothesis r) hvs w = (Ok fit_results, w') →
  ∃ evs, log w' = log w ++ evs ∧ fit_payloads evs = hvs ∧
         Forall (λ ev, fit_event ev = true) evs.
Proof.
  revert w fit_results. induction hvs as [|hv hvs IH]; intros w frs.
  - intros Hnil. change ((Ok [], w) = (Ok frs, w')) in Hnil.
    injection Hnil as _ <-. exists []. by rewrite app_nil_r.
  - rewrite mapM_cons. intros Hfits.
    apply M_bind_Ok_inv in Hfits as (fr & w1 & Hfit & Hfits).
    apply M_bind_Ok_inv in Hfits as (frs' & w2 & Hrest & [= _ <-]).
    apply fit_hypothesis_log in Hfit as (evs1 & Hlog1 & Hevs1).
    apply IH in Hrest as (evs2 & Hlog2 & Hpay2 & Hevs2).
    exists (EvFit hv :: evs1 ++ evs2). split; [|split].
    + rewrite Hlog2, Hlog1, <- (assoc_L (++)). done.
    + unfold fit_payloads in *. simpl. rewrite omap_app, Hpay2.
      rewrite omap_None_Forall; [done|].
      eapply Forall_impl; [done|]. intros [] [_ ?]; done.
    + constructor; [done|]. apply Forall_app. split; [|done].
      eapply Forall_impl; [done|]. by intros ev [? _].
Qed.

Lemma iteration_log r i data results w results' w' :
  iteration r i data results w = (Ok results', w') →
  ∃ evs, log w' = log w ++ EvSetData data :: evs ∧
         fit_payloads evs = _hypotheses_values r ∧
         Forall (λ ev, fit_event ev = true) evs.
Proof.
  unfold iteration. intros Hiter.
  apply M_bind_Ok_inv in Hiter as ([] & w1 & Hset & Hiter).
  apply M_bind_Ok_inv in Hiter as (frs & w2 & Hfits & Hassign).
  apply liftR_Ok_inv in Hassign as [_ ->].
  apply call_log in Hset.
  apply fits_log in Hfits as (evs & Hlog & Hpay & Hevs).
  exists evs. split; [|done]. by rewrite Hlog, Hset, <- (assoc_L (++)).
Qed.

Lemma data_generator_next_log r i (td : list Data) w data td' w' :
  data_generator_next r i td w = (Ok (data, td'), w') →
  ∃ evs, log w' = log w ++ evs ∧
    Forall (λ ev, ∃ kw, ev = EvGenerateData kw) evs ∧
    (_toydata_mode r = "generate_and_write" → ∃ d, data = Some d ∧ td' = td ++ [d]).
Proof.
  unfold data_generator_next.
  destruct (String.eqb_spec (_toydata_mode r) "generate_and_write") as [Hgw|Hgw].
  - rewrite Hgw. simpl. intros Hnext.
    apply M_bind_Ok_inv in Hnext as (d & w1 & Hcall & [= <- <- <-]).
    apply call_log in Hcall. exists [EvGenerateData (generate_values r)].
    split; [done|]. split; [repeat constructor; eauto|]. eauto.
  - rewrite orb_false_r. destruct (_ =? "generate")%string.
    + intros Hnext. apply M_bind_Ok_inv in Hnext as (d & w1 & Hcall & [= <- <- <-]).
      apply call_log in Hcall. exists [EvGenerateData (generate_values r)].
      split; [done|]. split; [repeat constructor; eauto|done].
    + intros Hnext. exists []. rewrite app_nil_r.
      assert (w' = w) as ->.
      { unfold mret, M_ret, raise in Hnext. repeat case_match; by simplify_eq. }
      done.
Qed.

Lemma for_data_log r n :
  ∀ i (td : list Data) acc w td' acc' w',
    for_data r (iteration r) i n td acc w = (Ok (td', acc'), w') →
    ∃ evs, log w' = log w ++ evs ∧
      fit_payloads evs = concat (replicate n (_hypotheses_values r)) ∧
      length (set_data_payloads evs) = n ∧
      Forall (λ ev, is_store ev = false) evs ∧
      (_toydata_mode r = "generate_and_write" →
       ∃ new, td' = td ++ new ∧ set_data_payloads evs = Some <$> new).
Proof.
  induction n as [|n IH]; intros i td acc w td' acc' w' Hloop.
  - injection Hloop as <- <- <-. exists []. rewrite app_nil_r.
    repeat split; try done. intros _. exists []. by rewrite app_nil_r.
  - simpl in Hloop.
    apply M_bind_Ok_inv in Hloop as ([data td1] & w1 & Hnext & Hloop).
    apply M_bind_Ok_inv in Hloop as (acc1 & w2 & Hiter & Hloop).
    apply data_generator_next_log in Hnext as (evs1 & Hlog1 & Hevs1 & Hgw1).
    apply iteration_log in Hiter as (evs2 & Hlog2 & Hpay2 & Hevs2).
    apply IH in Hloop as (evs3 & Hlog3 & Hpay3 & Hset3 & Hstore3 & Hgw3).
    assert (Hnil1 : fit_payloads evs1 = [] ∧ set_data_payloads evs1 = []).
    { split; apply omap_None_Forall; (eapply Forall_impl; [done|]);
        by intros ev [kw ->]. }
    assert (Hnil2 : set_data_payloads evs2 = []).
    { apply omap_None_Forall. eapply Forall_impl; [done|]. by intros []. }
    destruct Hnil1 as [Hfit1 Hset1].
    exists (evs1 ++ EvSetData data :: evs2 ++ evs3). split; [|split; [|split; [|split]]].
    + rewrite Hlog3, Hlog2, Hlog1, <- !(assoc_L (++)). done.
    + unfold fit_payloads in *. rewrite omap_app. simpl. rewrite omap_app.
      by rewrite Hfit1, Hpay2, Hpay3.
    + unfold set_data_payloads in *. rewrite omap_app. simpl. rewrite omap_app.
      rewrite Hset1, Hnil2. simpl. by rewrite Hset3.
    + apply Forall_app. split.
      { eapply Forall_impl; [done|]. by intros ev [kw ->]. }
      constructor; [done|]. apply Forall_app. split; [|done].
      eapply Forall_impl; [done|]. by intros [].
    + intros Hgw. destruct (Hgw1 Hgw) as (d & -> & ->).
      destruct (Hgw3 Hgw) as (new & -> & Hnew).
      exists (d :: new). split; [by rewrite <- (assoc_L (++))|].
      unfold set_data_payloads in *. rewrite omap_app. simpl. rewrite omap_app.
      by rewrite Hset1, Hnil2, Hnew.
Qed.

Lemma simulate_and_fit_Ok_inv r w results w' :
  simulate_and_fit r w = (Ok results, w') →
  ∃ results0 td names w1 td' w2,
    data_generator_start r w = (Ok (td, names), w1) ∧
    for_data r (iteration r) O (Z.to_nat (_n_mc r)) td results0 w1
      = (Ok (td', results), w2) ∧
    data_generator_finish r td' names w2 = (Ok tt, w').
Proof.
  unfold simulate_and_fit, for_data_generator. intros Hrun.
  apply M_bind_Ok_inv in Hrun as (results0 & w0 & Hzeros & Hrun).
  apply liftR_Ok_inv in Hzeros as [_ ->].
  apply M_bind_Ok_inv in Hrun as ([td names] & w1 & Hstart & Hrun).
  apply M_bind_Ok_inv in Hrun as ([td' results1] & w2 & Hloop & Hrun).
  apply M_bind_Ok_inv in Hrun as ([] & w3 & Hfinish & [= <- <-]).
  by exists results0, td, names, w1, td', w2.
Qed.

(** In a run of [simulate_and_fit] that returns, every repetition assigns
    one dataset to the model and then fits every hypothesis once, in list
    order: the fits of the whole run are the hypothesis list repeated
    [n_mc] times. *)
Theorem fits_of_a_run r w results w' :
  simulate_and_fit r w = (Ok results, w') →
  ∃ evs, log w' = log w ++ evs ∧
    fit_payloads evs
      = concat (replicate (Z.to_nat (_n_mc r)) (_hypotheses_values r)) ∧
    length (set_data_payloads evs) = Z.to_nat (_n_mc r).
Proof.
  intros Hrun.
  apply simulate_and_fit_Ok_inv in Hrun
    as (results0 & td & names & w1 & td' & w2 & Hstart & Hloop & Hfinish).
  pose proof (emits_data_generator_start
                (λ ev, is_fit ev = false ∧ is_set_data ev = false) r) as Hs.
  destruct (Hs ltac:(done) ltac:(done) _ _ _ Hstart) as (evs1 & Hlog1 & Hevs1).
  apply for_data_log in Hloop as (evs2 & Hlog2 & Hpay2 & Hset2 & _ & _).
  pose proof (emits_data_generator_finish
                (λ ev, is_fit ev = false ∧ is_set_data ev = false) r td' names) as Hf.
  destruct (Hf ltac:(done) _ _ _ Hfinish) as (evs3 & Hlog3 & Hevs3).
  assert (Hquiet : ∀ evs,
    Forall (λ ev, is_fit ev = false ∧ is_set_data ev = false) evs →
    fit_payloads evs = [] ∧ set_data_payloads evs = []).
  { intros evs Hevs. split; apply omap_None_Forall;
      (eapply Forall_impl; [done|]); by intros [] [? ?]. }
  destruct (Hquiet _ Hevs1) as [Hfit1 Hset1].
  destruct (Hquiet _ Hevs3) as [Hfit3 Hset3].
  exists (evs1 ++ evs2 ++ evs3). split; [|split].
  - by rewrite Hlog3, Hlog2, Hlog1, <- !(assoc_L (++)).
  - unfold fit_payloads in *. rewrite !omap_app, Hpay2, Hfit1, Hfit3.
    by rewrite app_nil_r.
  - unfold set_data_payloads in *. rewrite !omap_app, !length_app, Hset2, Hset1, Hset3.
    simpl. lia.
Qed.

(** In [generate_and_write] mode a run of [simulate_and_fit] that returns
    has stored the toy data once, as its last action, and the stored
    collection is exactly the [n_mc] datasets the model was fitted to, in
    the order of the repetitions. *)
Theorem stored_toydata_is_fitted_toydata r w results w' :
  _toydata_mode r = "generate_and_write" →
  simulate_and_fit r w = (Ok results, w') →
  ∃ evs (toydata : list Data),
    log w' = log w ++ evs ++ [EvStoreData (_toydata_file r) toydata None] ∧
    length toydata = Z.to_nat (_n_mc r) ∧
    set_data_payloads evs = Some <$> toydata ∧
    Forall (λ ev, is_store ev = false) evs.
Proof.
  intros Hmode Hrun.
  apply simulate_and_fit_Ok_inv in Hrun
    as (results0 & td & names & w1 & td' & w2 & Hstart & Hloop & Hfinish).
  assert (td = [] ∧ names = None ∧ w1 = w) as (-> & -> & ->).
  { unfold data_generator_start in Hstart. rewrite Hmode in Hstart. simpl in Hstart.
    destruct (only_toydata r); simpl in Hstart; by injection Hstart as <- <- <-. }
  apply for_data_log in Hloop as (evs & Hlog & _ & Hlen & Hstore & Hgw).
  destruct (Hgw Hmode) as (new & -> & Hnew).
  unfold data_generator_finish in Hfinish. rewrite Hmode in Hfinish. simpl in Hfinish.
  apply call_log in Hfinish. simpl in Hfinish.
  exists evs, new. split; [by rewrite Hfinish, Hlog, (assoc_L (++))|].
  split; [|done]. rewrite Hnew, length_fmap in Hlen. done.
Qed.

(** ** [simulate] *)

(** [simulate] consumes the generator with [all]: when the first generated
    dataset is falsy it stops there, and the toy data of
    [generate_and_write] mode is never stored. *)
Theorem simulate_stops_at_falsy_data r w data s1 :
  _toydata_mode r = "generate_and_write" →
  0 < _n_mc r →
  generate_data (generate_values r) (ext w) = (Ok data, s1) →
  data_truthy data = Ok false →
  simulate r w = (Ok tt, World s1 (log w ++ [EvGenerateData (generate_values r)])).
Proof.
  intros Hmode Hn Hgen Hfalsy. unfold simulate.
  erewrite M_bind_Ok.
  2: { unfold data_generator_start. rewrite Hmode. simpl.
       rewrite andb_false_r. reflexivity. }
  cbv beta iota. destruct (Z.to_nat (_n_mc r)) as [|n] eqn:Hnat; [lia|].
  simpl. erewrite M_bind_Ok.
  2: { unfold data_generator_next. rewrite Hmode. simpl.
       erewrite M_bind_Ok; [reflexivity|]. unfold call. by rewrite Hgen. }
  cbv beta iota. erewrite M_bind_Ok; last by (unfold liftR; rewrite Hfalsy).
  reflexivity.
Qed.

Lemma for_range_skip {A} n i (acc : A) w :
  for_range (λ _ a, mret a) i n acc w = (Ok acc, w).
Proof. revert i. induction n as [|n IH]; intros i; [done|]. simpl. apply IH. Qed.

Lemma all_data_no_toydata r n i (td : list Data) names w :
  _toydata_mode r = "no_toydata" → all_data r i n td names w = (Ok tt, w).
Proof.
  intros Hmode. destruct n as [|n]; simpl.
  - unfold data_generator_finish. by rewrite Hmode.
  - unfold data_generator_next. rewrite Hmode. reflexivity.
Qed.

Lemma all_data_truthy r n :
  (∀ data, data_truthy data = Ok true) →
  _toydata_mode r ≠ "no_toydata" →
  ∀ i (td : list Data) names w,
    all_data r i n td names w
    = ('(td', acc) ← for_data r (λ _ _ (a : unit), mret a) i n td tt;
       data_generator_finish r td' names;; mret acc) w.
Proof.
  intros Htruthy Hmode. induction n as [|n IH]; intros i td names w; simpl.
  - unfold mbind, M_bind, mret, M_ret.
    by destruct (data_generator_finish r td names w) as [[[]|e] w1].
  - unfold mbind, M_bind.
    destruct (data_generator_next r i td w) as [[[data td1]|e] w1] eqn:Hnext;
      [|reflexivity].
    assert (∃ d, data = Some d) as [d ->].
    { unfold data_generator_next in Hnext.
      destruct (_ || _).
      - apply M_bind_Ok_inv in Hnext as (d & w2 & _ & Hnext).
        destruct (_ =? _)%string; injection Hnext as <- _ _; eauto.
      - destruct (_ =? "read")%string.
        + destruct (td !! i); [|done]. injection Hnext as <- _ _. eauto.
        + destruct (String.eqb_spec (_toydata_mode r) "no_toydata"); done. }
    unfold liftR. rewrite Htruthy. cbv beta iota.
    rewrite IH. reflexivity.
Qed.

(** When every dataset is truthy, [simulate] runs the generator to its
    end: it is the loop over the generator with an empty body. *)
Theorem simulate_drains_generator r w :
  (∀ data, data_truthy data = Ok true) →
  simulate r w = for_data_generator r (λ _ _ (a : unit), mret a) tt w.
Proof.
  intros Htruthy. unfold simulate, for_data_generator.
  unfold mbind at 1 2, M_bind at 1 2.
  destruct (data_generator_start r w) as [[[td names]|e] w1]; [|done].
  destruct (String.eqb_spec (_toydata_mode r) "no_toydata") as [Hmode|Hmode].
  - rewrite all_data_no_toydata by done.
    unfold mbind at 1, M_bind at 1. rewrite for_data_no_toydata by done.
    unfold mbind at 1, M_bind at 1. rewrite for_range_skip.
    unfold data_generator_finish. rewrite Hmode. reflexivity.
  - by rewrite all_data_truthy.
Qed.

(** ** The names of the stored tables *)

Lemma rename_symbolic_spec (hyps : list hypothesis) :
  ∀ i (names : list string),
    (i + length hyps ≤ length names)%nat →
    ∃ names',
      rename_symbolic i hyps names = Ok names' ∧
      length names' = length names ∧
      ∀ j, names' !! j
           = match (if decide (i ≤ j)%nat then hyps !! (j - i)%nat else None) with
             | Some (HypStr s) =>
                 if bool_decide (s ∈ ["free"; "null"; "true"]) then Some s
                 else names !! j
             | _ => names !! j
             end.
Proof.
  induction hyps as [|ea hyps IH]; intros i names Hlen.
  - exists names. split; [done|]. split; [done|]. intros j. by case_decide.
  - simpl in Hlen.
    set (names1 := match ea with
                   | HypStr s =>
                       if bool_decide (s ∈ ["free"; "null"; "true"])
                       then <[i := s]> names else names
                   | HypDict _ => names
                   end).
    assert (Hstep : rename_symbolic i (ea :: hyps) names
                    = rename_symbolic (S i) hyps names1).
    { simpl. unfold names1. destruct ea as [s|d]; [|done].
      destruct (bool_decide _); [|done]. by rewrite decide_True by lia. }
    assert (Hlen1 : length names1 = length names).
    { unfold names1. destruct ea as [s|d]; [|done].
      destruct (bool_decide _); [|done]. by rewrite length_insert. }
    destruct (IH (S i) names1) as (names' & Hrun & Hlen' & Hlookup); [lia|].
    exists names'. split; [congruence|]. split; [congruence|].
    intros j. rewrite Hlookup.
    destruct (decide (j = i)) as [->|Hne].
    + rewrite decide_False by lia. rewrite decide_True by lia.
      rewrite Nat.sub_diag. simpl. unfold names1.
      destruct ea as [s|d]; [|done]. destruct (bool_decide _); [|done].
      apply list_lookup_insert_eq. lia.
    + assert (Hj : names1 !! j = names !! j).
      { unfold names1. destruct ea as [s|d]; [|done].
        destruct (bool_decide _); [|done]. by apply list_lookup_insert_ne. }
      rewrite Hj. destruct (decide (i ≤ j)%nat) as [Hle|Hgt].
      * rewrite decide_True by lia.
        replace (j - i)%nat with (S (j - S i)) by lia. done.
      * by rewrite decide_False by lia.
Qed.

Lemma rename_symbolic_IndexError (hyps : list hypothesis) :
  ∀ i (names : list string) k s,
    hyps !! k = Some (HypStr s) →
    s ∈ ["free"; "null"; "true"] →
    (length names ≤ i + k)%nat →
    rename_symbolic i hyps names = Raise IndexError.
Proof.
  induction hyps as [|ea hyps IH]; intros i names k s Hk Hs Hlen; [done|].
  destruct k as [|k]; simpl in *.
  - injection Hk as ->. rewrite bool_decide_true by done.
    by rewrite decide_False by lia.
  - destruct ea as [t|d].
    + destruct (bool_decide _).
      * destruct (decide _); [|done]. simpl.
        eapply IH; [done..|]. rewrite length_insert. lia.
      * simpl. eapply IH; [done..|]. lia.
    + simpl. eapply IH; [done..|]. lia.
Qed.

(** The tables are stored under the name of their hypothesis when it is
    [free], [null] or [true], and under their decimal index otherwise; a
    symbolic hypothesis at an index without table raises [IndexError]. *)
Theorem output_names_spec r :
  ((length (hypotheses r) ≤ length (_hypotheses_values r))%nat →
   ∃ names,
     output_names r = Ok names ∧
     length names = length (_hypotheses_values r) ∧
     ∀ j, (j < length (_hypotheses_values r))%nat →
       names !! j
       = Some match hypotheses r !! j with
              | Some (HypStr s) =>
                  if bool_decide (s ∈ ["free"; "null"; "true"]) then s else pretty j
              | _ => pretty j
              end) ∧
  (∀ k s, hypotheses r !! k = Some (HypStr s) →
          s ∈ ["free"; "null"; "true"] →
          (length (_hypotheses_values r) ≤ k)%nat →
          output_names r = Raise IndexError).
Proof.
  unfold output_names. split.
  - intros Hlen.
    destruct (rename_symbolic_spec (hypotheses r) 0
                (pretty <$> seq 0 (length (_hypotheses_values r))))
      as (names & Hrun & Hlen' & Hlookup).
    { rewrite length_fmap, length_seq. simpl. lia. }
    rewrite length_fmap, length_seq in Hlen'.
    exists names. split; [done|]. split; [done|].
    intros j Hj. rewrite Hlookup. rewrite decide_True by lia. rewrite Nat.sub_0_r.
    rewrite list_lookup_fmap, lookup_seq_lt by done. simpl.
    destruct (hypotheses r !! j) as [[s|d]|]; [|done..].
    by destruct (bool_decide _).
  - intros k s Hk Hs Hlen. eapply rename_symbolic_IndexError; [done..|].
    rewrite length_fmap, length_seq. simpl. lia.
Qed.

End RunnerProperties.

(** * Properties of the submitter's argument handling *)

Section SubmitterProperties.
Context `{SR : SubmitRuntime}.

Implicit Types (runner_args out : args).

Lemma sresult_bind_inv {A B} (x : sresult A) (k : A → sresult B) b :
  x ≫= k = SOk b → ∃ a, x = SOk a ∧ k a = SOk b.
Proof. destruct x as [a|e]; [by exists a | discriminate]. Qed.

(** [update_n_batch] on integers: a batch count of zero raises
    [ZeroDivisionError], a batch count that does not divide [n_mc] raises
    [ValueError], and otherwise [n_mc] becomes the quotient, so that the
    batches together run exactly the requested number of repetitions. *)
Theorem update_n_batch_splits runner_args (n b : Z) :
  runner_args !! "n_mc" = Some (AVal (PyInt n)) →
  runner_args !! "n_batch" = Some (AVal (PyInt b)) →
  (b = 0 → update_n_batch runner_args = SRaise SZeroDivisionError) ∧
  (b ≠ 0 → n mod b ≠ 0 →
     update_n_batch runner_args = SRaise (SValueError NotDivisibleByNBatch)) ∧
  (b ≠ 0 → n mod b = 0 →
     ∃ q, update_n_batch runner_args
          = SOk (false, <["n_mc" := AVal (PyInt q)]> runner_args) ∧
          q * b = n).
Proof.
  intros Hn Hb. unfold update_n_batch. rewrite Hn, Hb.
  unfold py_mod, py_floordiv, py_ne_zero. simpl.
  split; [|split].
  - intros ->. reflexivity.
  - intros Hb0 Hrem. destruct (Z.eqb_spec b 0); [done|]. simpl.
    destruct (Z.eqb_spec (n mod b) 0); done.
  - intros Hb0 Hrem. destruct (Z.eqb_spec b 0); [done|]. simpl.
    rewrite Hrem. simpl. exists (n / b). split; [done|].
    pose proof (Z.div_mod n b Hb0). lia.
Qed.

(** ** [update_runner_args] *)

Lemma all_is_float_int_spec (d : args) :
  all_is_float_int d = true ↔ ∀ k v, d !! k = Some v → is_float_int v = true.
Proof.
  unfold all_is_float_int. rewrite forallb_forall. split.
  - intros Hall k v Hkv. apply Hall, list_elem_of_In, list_elem_of_fmap.
    exists (k, v). split; [done|]. by apply elem_of_map_to_list.
  - intros Hall v Hin.
    apply list_elem_of_In, list_elem_of_fmap in Hin as ([k v'] & -> & Hin).
    apply elem_of_map_to_list in Hin. eauto.
Qed.

Lemma setitems_inv target items target' :
  setitems target items = SOk target' →
  (items = ∅ ∧ target' = target) ∨
  (∃ d, target = ADict d ∧ target' = ADict (items ∪ d)).
Proof.
  unfold setitems. destruct (decide _) as [Hsize|Hsize].
  - intros [= <-]. left. split; [|done]. by apply map_size_empty_iff.
  - destruct target; intros [=]; subst. right. eauto.
Qed.

Lemma getdict_inv runner_args key d :
  getdict runner_args key = SOk d → runner_args !! key = Some (ADict d).
Proof.
  unfold getdict, getitem. destruct (runner_args !! key) as [[]|]; simpl; congruence.
Qed.

(** What a successful [update_runner_args] has done. *)
Lemma update_runner_args_inv runner_args fittable not_fittable out :
  update_runner_args runner_args fittable not_fittable = SOk out →
  ∃ gv0 nv0 gv nv,
    runner_args !! "generate_values" = Some gv0 ∧
    runner_args !! "nominal_values" = Some nv0 ∧
    setitems (none_to_empty gv0)
      (filter (λ kv, fst kv ∈ fittable)
         (<["nominal_values" := none_to_empty nv0]>
            (<["generate_values" := none_to_empty gv0]> runner_args)))
      = SOk (ADict gv) ∧
    setitems (none_to_empty nv0)
      (filter (λ kv, (fst kv ∉ fittable) ∧ (fst kv ∈ not_fittable))
         (<["nominal_values" := none_to_empty nv0]>
            (<["generate_values" := none_to_empty gv0]> runner_args)))
      = SOk (ADict nv) ∧
    out = filter (λ kv, (fst kv ∉ fittable) ∧ (fst kv ∉ not_fittable))
            (<["nominal_values" := ADict nv]>
               (<["generate_values" := ADict gv]>
                  (<["nominal_values" := none_to_empty nv0]>
                     (<["generate_values" := none_to_empty gv0]> runner_args)))) ∧
    ("generate_values" ∉ fittable) ∧ ("generate_values" ∉ not_fittable) ∧
    ("nominal_values" ∉ fittable) ∧ ("nominal_values" ∉ not_fittable) ∧
    dom gv ⊆ (list_to_set fittable : gset string) ∧
    all_is_float_int gv = true ∧ all_is_float_int nv = true.
Proof.
  unfold update_runner_args. intros Hrun.
  apply sresult_bind_inv in Hrun as (gv0 & Hgv0 & Hrun).
  apply sresult_bind_inv in Hrun as (nv0 & Hnv0 & Hrun).
  apply sresult_bind_inv in Hrun as (gv1 & Hgv1 & Hrun).
  apply sresult_bind_inv in Hrun as (nv1 & Hnv1 & Hrun).
  apply sresult_bind_inv in Hrun as (gv & Hgv & Hrun).
  destruct (bool_decide (dom gv ⊆ _)) eqn:Hdom; [|done].
  apply bool_decide_eq_true in Hdom. simpl in Hrun.
  destruct (all_is_float_int gv) eqn:Hgvnum; [|done]. simpl in Hrun.
  apply sresult_bind_inv in Hrun as (nv & Hnv & Hrun).
  destruct (all_is_float_int nv) eqn:Hnvnum; [|done]. simpl in Hrun.
  injection Hrun as <-.
  apply getdict_inv, map_lookup_filter_Some in Hgv as [Hgv [Hg1 Hg2]].
  apply getdict_inv, map_lookup_filter_Some in Hnv as [Hnv [Hn1 Hn2]].
  simpl in *.
  rewrite lookup_insert_ne, lookup_insert_eq in Hgv by done. injection Hgv as ->.
  rewrite lookup_insert_eq in Hnv. injection Hnv as ->.
  unfold getitem in Hgv0, Hnv0.
  destruct (runner_args !! "generate_values") as [gv0'|] eqn:Hgv0'; [|done].
  injection Hgv0 as ->.
  rewrite lookup_insert_ne in Hnv0 by done.
  destruct (runner_args !! "nominal_values") as [nv0'|] eqn:Hnv0'; [|done].
  injection Hnv0 as ->.
  exists gv0, nv0, gv, nv. repeat split; done.
Qed.

(** After a successful [update_runner_args]: [generate_values] and
    [nominal_values] are dicts of numbers, [generate_values] has fittable
    keys only, every top-level argument named like a model parameter has
    been moved into one of them (a fittable one into [generate_values], a
    non-fittable one into [nominal_values]) and removed from the top
    level, and the other arguments are untouched. *)
Theorem update_runner_args_moves runner_args fittable not_fittable out :
  update_runner_args runner_args fittable not_fittable = SOk out →
  ∃ gv nv,
    out !! "generate_values" = Some (ADict gv) ∧
    out !! "nominal_values" = Some (ADict nv) ∧
    (∀ k, is_Some (gv !! k) → k ∈ fittable) ∧
    (∀ k v, gv !! k = Some v → is_float_int v = true) ∧
    (∀ k v, nv !! k = Some v → is_float_int v = true) ∧
    (∀ k, k ∈ fittable ∨ k ∈ not_fittable → out !! k = None) ∧
    (∀ k, k ∉ fittable → k ∉ not_fittable →
          k ≠ "generate_values" → k ≠ "nominal_values" →
          out !! k = runner_args !! k) ∧
    (∀ k v, k ∈ fittable → runner_args !! k = Some v → gv !! k = Some v) ∧
    (∀ k v, k ∉ fittable → k ∈ not_fittable → runner_args !! k = Some v →
            nv !! k = Some v).
Proof.
  intros Hrun.
  apply update_runner_args_inv in Hrun
    as (gv0 & nv0 & gv & nv & Hgv0 & Hnv0 & Hgv & Hnv & -> &
        Hg1 & Hg2 & Hn1 & Hn2 & Hdom & Hgvnum & Hnvnum).
  exists gv, nv.
  split. { apply map_lookup_filter_Some_2; [|done].
           by rewrite lookup_insert_ne, lookup_insert_eq. }
  split. { apply map_lookup_filter_Some_2; [|done]. by rewrite lookup_insert_eq. }
  split. { intros k Hk. apply elem_of_dom in Hk. apply Hdom in Hk.
           by apply elem_of_list_to_set in Hk. }
  split. { by apply all_is_float_int_spec. }
  split. { by apply all_is_float_int_spec. }
  split. { intros k Hk. apply map_lookup_filter_None_2. right.
           intros x _ [H1 H2]. simpl in *. by destruct Hk. }
  split.
  { intros k Hk1 Hk2 Hk3 Hk4.
    rewrite map_lookup_filter. rewrite !lookup_insert_ne by done.
    destruct (runner_args !! k) as [x|]; [simpl|done].
    by rewrite option_guard_True. }
  split.
  - intros k v Hk Hkv.
    assert (k ≠ "generate_values") by (by intros ->).
    assert (k ≠ "nominal_values") by (by intros ->).
    apply setitems_inv in Hgv as [[Hempty _]|(d & _ & [= ->])].
    + exfalso. eapply (map_filter_empty_not_lookup _ _ k v); [done|done|].
      by rewrite !lookup_insert_ne.
    + apply lookup_union_Some_l, map_lookup_filter_Some_2; [|done].
      by rewrite !lookup_insert_ne.
  - intros k v Hk1 Hk2 Hkv.
    assert (k ≠ "generate_values") by (by intros ->).
    assert (k ≠ "nominal_values") by (by intros ->).
    apply setitems_inv in Hnv as [[Hempty _]|(d & _ & [= ->])].
    + exfalso. eapply (map_filter_empty_not_lookup _ _ k v); [done|done|].
      by rewrite !lookup_insert_ne.
    + apply lookup_union_Some_l, map_lookup_filter_Some_2; [|done].
      by rewrite !lookup_insert_ne.
Qed.

Lemma filter_none (P : string * argval → Prop) `{!∀ x, Decision (P x)} (m : args) :
  (∀ k x, m !! k = Some x → ¬ P (k, x)) → filter P m = ∅.
Proof.
  intros Hm. apply map_eq. intros k. rewrite lookup_empty.
  apply map_lookup_filter_None_2. destruct (m !! k) eqn:Hk; eauto.
  right. intros x [= <-]. eauto.
Qed.

Lemma filter_all (P : string * argval → Prop) `{!∀ x, Decision (P x)} (m : args) :
  (∀ k x, m !! k = Some x → P (k, x)) → filter P m = m.
Proof.
  intros Hm. apply map_eq. intros k. rewrite map_lookup_filter.
  destruct (m !! k) as [x|] eqn:Hk; [simpl|done].
  rewrite option_guard_True; eauto.
Qed.

(** [update_runner_args] is idempotent: applied to its own result it
    succeeds and changes nothing. *)
Theorem update_runner_args_idempotent runner_args fittable not_fittable out :
  update_runner_args runner_args fittable not_fittable = SOk out →
  update_runner_args out fittable not_fittable = SOk out.
Proof.
  intros Hrun.
  apply update_runner_args_inv in Hrun
    as (gv0 & nv0 & gv & nv & Hgv0 & Hnv0 & Hgv & Hnv & Hout &
        Hg1 & Hg2 & Hn1 & Hn2 & Hdom & Hgvnum & Hnvnum).
  assert (Hkeys : ∀ k x, out !! k = Some x → (k ∉ fittable) ∧ (k ∉ not_fittable)).
  { intros k x Hk. rewrite Hout in Hk.
    by apply map_lookup_filter_Some in Hk as [_ ?]. }
  assert (Hout_gv : out !! "generate_values" = Some (ADict gv)).
  { rewrite Hout. apply map_lookup_filter_Some_2; [|done].
    by rewrite lookup_insert_ne, lookup_insert_eq. }
  assert (Hout_nv : out !! "nominal_values" = Some (ADict nv)).
  { rewrite Hout. apply map_lookup_filter_Some_2; [|done]. by rewrite lookup_insert_eq. }
  clear Hout. unfold update_runner_args, getdict, getitem.
  rewrite Hout_gv. cbn [mbind sresult_bind none_to_empty].
  rewrite (insert_id out "generate_values") by done.
  rewrite Hout_nv. cbn [mbind sresult_bind none_to_empty].
  rewrite (insert_id out "nominal_values") by done.
  rewrite (filter_none (λ kv, fst kv ∈ fittable)).
  2: { intros k x Hk Hin. by destruct (Hkeys k x Hk). }
  rewrite (filter_none (λ kv, (fst kv ∉ fittable) ∧ (fst kv ∈ not_fittable))).
  2: { intros k x Hk [_ Hin]. by destruct (Hkeys k x Hk). }
  unfold setitems. rewrite map_size_empty. rewrite !decide_True by done.
  cbn [mbind sresult_bind].
  rewrite (insert_id out "generate_values") by done.
  rewrite (insert_id out "nominal_values") by done.
  rewrite (filter_all (λ kv, (fst kv ∉ fittable) ∧ (fst kv ∉ not_fittable))).
  2: { intros k x Hk. by apply (Hkeys k x). }
  rewrite Hout_gv. cbn [mbind sresult_bind].
  rewrite bool_decide_true by done. rewrite Hgvnum. cbn [negb].
  rewrite Hout_nv. cbn [mbind sresult_bind]. rewrite Hnvnum. done.
Qed.

(** ** [check_redunant_arguments] *)

(** When every argument is either an argument the runner supports or a
    model parameter, the result of [update_runner_args] passes
    [check_redunant_arguments]; an argument that is neither (as
    [output_filename] is for this runner, whose parameter is [output_file])
    makes the check fail. *)
Theorem moved_parameters_pass_the_check runner_args fittable not_fittable
    (allowed_special_args : list string) out :
  update_runner_args runner_args fittable not_fittable = SOk out →
  let allowed := runner_init_parameters ++ ["n_batch"] ++ allowed_special_args in
  ((∀ k, is_Some (runner_args !! k) →
         k ∈ allowed ∨ k ∈ fittable ∨ k ∈ not_fittable) →
   check_redunant_arguments out allowed_special_args = SOk tt) ∧
  (∀ k, is_Some (out !! k) → k ∉ allowed →
        check_redunant_arguments out allowed_special_args
        = SRaise (SValueError ArgumentsNotSupported)).
Proof.
  intros Hrun allowed. split.
  - intros Hargs. unfold check_redunant_arguments. fold allowed.
    rewrite bool_decide_true; [done|].
    intros k Hk. apply elem_of_dom in Hk as [x Hk]. apply elem_of_list_to_set.
    apply update_runner_args_inv in Hrun
      as (gv0 & nv0 & gv & nv & Hgv0 & Hnv0 & _ & _ & -> & _).
    apply map_lookup_filter_Some in Hk as [Hk [Hk1 Hk2]]. simpl in *.
    assert (Hin : is_Some (runner_args !! k)).
    { destruct (decide (k = "nominal_values")) as [->|?]; [by eexists|].
      destruct (decide (k = "generate_values")) as [->|?]; [by eexists|].
      rewrite !lookup_insert_ne in Hk by done. by eexists. }
    destruct (Hargs k Hin) as [?|[?|?]]; done.
  - intros k Hk Hnot. unfold check_redunant_arguments. fold allowed.
    rewrite bool_decide_false; [done|].
    intros Hsub. apply Hnot. apply elem_of_dom in Hk. apply Hsub in Hk.
    by apply elem_of_list_to_set in Hk.
Qed.

(** ** Arguments as strings *)

(** [None] is written as ["None"] and read back as [None] under every
    annotation; a string argument is written as itself and read back as
    itself, except the string ["None"], which is read back as [None]. *)
Theorem str_argument_round_trip (annotation : Annotation) (s : string) :
  can_assign_to_typing TStr annotation = true →
  arg_to_str (AVal PyNone) annotation = SOk (AVal (PyStr "None")) ∧
  arg_to_str (AVal (PyStr s)) annotation = SOk (AVal (PyStr s)) ∧
  str_to_arg s annotation
  = SOk (if String.eqb s "None" then AVal PyNone else AVal (PyStr s)).
Proof.
  intros Hstr. unfold arg_to_str, str_to_arg. rewrite Hstr.
  split; [done|]. split; [done|]. by destruct (String.eqb s "None").
Qed.

(** Under an annotation that only [bool] can be assigned to, a boolean is
    written as ["True"] or ["False"] and read back as itself; any other
    string but ["None"] is rejected when read. *)
Theorem bool_argument_round_trip (annotation : Annotation) :
  can_assign_to_typing TStr annotation = false →
  can_assign_to_typing TInt annotation = false →
  can_assign_to_typing TFloat annotation = false →
  can_assign_to_typing TBool annotation = true →
  (∀ b : bool, ∃ s,
     arg_to_str (AVal (PyBool b)) annotation = SOk (AVal (PyStr s)) ∧
     str_to_arg s annotation = SOk (AVal (PyBool b))) ∧
  (∀ s, s ∉ ["None"; "True"; "False"] →
        str_to_arg s annotation = SRaise (SValueError (UnknownBoolValue s))).
Proof.
  intros Hstr Hint Hfloat Hbool. split.
  - intros b. unfold arg_to_str, str_to_arg. rewrite Hstr, Hint, Hfloat, Hbool.
    destruct b; eexists; split; reflexivity.
  - intros s Hs. unfold str_to_arg. rewrite Hstr, Hint, Hfloat, Hbool.
    destruct (String.eqb_spec s "None") as [->|_]; [set_solver|].
    destruct (String.eqb_spec s "True") as [->|_]; [set_solver|].
    destruct (String.eqb_spec s "False") as [->|_]; [set_solver|]. done.
Qed.

(** ** File names and the limit threshold *)

Lemma os_path_join_inv outputfolder value path :
  os_path_join outputfolder value = SOk path →
  ∃ s, value = AVal (PyStr s) ∧ path = AVal (PyStr (path_join outputfolder s)).
Proof.
  destruct value as [[]| |]; simpl; try discriminate.
  intros Hpath. injection Hpath as <-. eauto.
Qed.

Lemma is_SOk_inv {A} (x : sresult A) : is_SOk x = true → ∃ a, x = SOk a.
Proof. destruct x; [eauto|done]. Qed.

Lemma is_none_spec (value : argval) : is_none value = true ↔ value = AVal PyNone.
Proof. destruct value as [[]| |]; simpl; split; congruence. Qed.

Lemma update_file_name_inv outputfolder f runner_args out :
  update_file_name outputfolder f runner_args = SOk out →
  (out = runner_args ∧
   (runner_args !! f = None ∨ runner_args !! f = Some (AVal PyNone))) ∨
  (∃ value path, runner_args !! f = Some value ∧ value ≠ AVal PyNone ∧
                 out = <[f := AVal (PyStr path)]> runner_args ∧
                 (runner_args !! "n_batch" = None →
                  ∃ s, value = AVal (PyStr s) ∧ path = path_join outputfolder s)).
Proof.
  unfold update_file_name.
  destruct (runner_args !! f) as [value|] eqn:Hf; [|intros [= <-]; left; eauto].
  destruct (is_none value) eqn:Hnone.
  { intros [= <-]. left. split; [done|]. right. f_equal. by apply is_none_spec. }
  assert (value ≠ AVal PyNone) by (by intros ->).
  destruct (runner_args !! "n_batch") as [n_batch|].
  - intros Hrun. apply sresult_bind_inv in Hrun as (name & _ & Hrun).
    apply sresult_bind_inv in Hrun as (path & Hpath & [= <-]).
    apply os_path_join_inv in Hpath as (s & _ & ->).
    right. exists value, (path_join outputfolder s).
    split; [done|]. split; [done|]. split; done.
  - intros Hrun. apply sresult_bind_inv in Hrun as (path & Hpath & [= <-]).
    apply os_path_join_inv in Hpath as (s & -> & ->).
    right. exists (AVal (PyStr s)), (path_join outputfolder s).
    split; [done|]. split; [done|]. split; eauto.
Qed.

(** One step of [update_output_toydata] changes no key but [f], keeps the
    set of keys and the presence of [n_batch]. *)
Lemma update_file_name_frame outputfolder f runner_args out :
  f ≠ "n_batch" →
  update_file_name outputfolder f runner_args = SOk out →
  dom out = dom runner_args ∧ (∀ k, k ≠ f → out !! k = runner_args !! k).
Proof.
  intros Hf Hrun.
  apply update_file_name_inv in Hrun
    as [[Hout _]|(value & path & Hvalue & _ & Hout & _)]; subst out; [done|].
  split.
  - by apply dom_insert_lookup_L.
  - intros k Hk. by rewrite lookup_insert_ne.
Qed.

Lemma update_output_toydata_dom runner_args outputfolder out :
  update_output_toydata runner_args outputfolder = SOk out →
  dom out = dom runner_args.
Proof.
  unfold update_output_toydata. intros Hrun.
  apply sresult_bind_inv in Hrun as (mid & Hout & Htoy).
  pose proof (update_file_name_frame _ "output_filename" _ _ ltac:(done) Hout)
    as [Hdom1 _].
  pose proof (update_file_name_frame _ "toydata_filename" _ _ ltac:(done) Htoy)
    as [Hdom2 _].
  congruence.
Qed.

(** A successful [update_output_toydata] keeps the set of arguments and
    every argument other than [output_filename] and [toydata_filename];
    a file name that is [None] stays [None]; and when there is no
    [n_batch], any other file name is a string and is replaced by its
    join with the output folder. *)
Theorem update_output_toydata_keeps runner_args outputfolder out :
  update_output_toydata runner_args outputfolder = SOk out →
  dom out = dom runner_args ∧
  (∀ k, k ≠ "output_filename" → k ≠ "toydata_filename" →
        out !! k = runner_args !! k) ∧
  (∀ f, f ∈ ["output_filename"; "toydata_filename"] →
        runner_args !! f = Some (AVal PyNone) → out !! f = Some (AVal PyNone)) ∧
  (∀ f value, f ∈ ["output_filename"; "toydata_filename"] →
        runner_args !! f = Some value → value ≠ AVal PyNone →
        runner_args !! "n_batch" = None →
        ∃ s, value = AVal (PyStr s) ∧
             out !! f = Some (AVal (PyStr (path_join outputfolder s)))).
Proof.
  unfold update_output_toydata. intros Hrun.
  apply sresult_bind_inv in Hrun as (mid & Hout & Htoy).
  pose proof (update_file_name_frame _ "output_filename" _ _ ltac:(done) Hout)
    as [Hdom1 Hframe1].
  pose proof (update_file_name_frame _ "toydata_filename" _ _ ltac:(done) Htoy)
    as [Hdom2 Hframe2].
  split; [congruence|].
  split. { intros k Hk1 Hk2. by rewrite Hframe2, Hframe1. }
  split.
  - intros f Hf Hnone.
    apply elem_of_cons in Hf as [->|Hf]; [|apply list_elem_of_singleton in Hf as ->].
    + rewrite Hframe2 by done.
      apply update_file_name_inv in Hout
        as [[-> _]|(value & path & Hvalue & Hne & _)]; [done|congruence].
    + rewrite <- Hframe1 in Hnone by done.
      apply update_file_name_inv in Htoy
        as [[-> _]|(value & path & Hvalue & Hne & _)]; [done|congruence].
  - intros f value Hf Hvalue Hne Hbatch.
    apply elem_of_cons in Hf as [->|Hf]; [|apply list_elem_of_singleton in Hf as ->].
    + rewrite Hframe2 by done.
      apply update_file_name_inv in Hout
        as [[-> [Hno|Hno]]|(value' & path & Hvalue' & _ & -> & Hpath)];
        [congruence..|].
      destruct (Hpath Hbatch) as (s & -> & ->).
      exists s. rewrite lookup_insert_eq. split; congruence.
    + rewrite <- Hframe1 in Hvalue, Hbatch by done.
      apply update_file_name_inv in Htoy
        as [[-> [Hno|Hno]]|(value' & path & Hvalue' & _ & -> & Hpath)];
        [congruence..|].
      destruct (Hpath Hbatch) as (s & -> & ->).
      exists s. rewrite lookup_insert_eq. split; congruence.
Qed.

(** Without [n_batch], a file name that is neither [None] nor a string
    makes [update_output_toydata] raise [TypeError]. *)
Theorem file_name_must_be_str runner_args outputfolder f value :
  runner_args !! "n_batch" = None →
  f ∈ ["output_filename"; "toydata_filename"] →
  runner_args !! f = Some value →
  value ≠ AVal PyNone → (∀ s, value ≠ AVal (PyStr s)) →
  update_output_toydata runner_args outputfolder = SRaise STypeError.
Proof.
  intros Hbatch Hf Hvalue Hne Hstr.
  assert (Hjoin : os_path_join outputfolder value = SRaise STypeError).
  { destruct value as [[]| |]; try done. by destruct (Hstr s). }
  assert (Hnone : is_none value = false).
  { destruct (is_none value) eqn:E; [|done]. by apply is_none_spec in E. }
  assert (Hstep : ∀ a, a !! "n_batch" = None → a !! f = Some value →
                       update_file_name outputfolder f a = SRaise STypeError).
  { intros a Ha1 Ha2. unfold update_file_name. by rewrite Ha2, Hnone, Ha1, Hjoin. }
  unfold update_output_toydata.
  apply elem_of_cons in Hf as [->|Hf]; [|apply list_elem_of_singleton in Hf as ->].
  - by rewrite Hstep.
  - destruct (update_file_name outputfolder "output_filename" runner_args)
      as [mid|e] eqn:Hout.
    + simpl.
      pose proof (update_file_name_frame _ "output_filename" _ _ ltac:(done) Hout)
        as [_ Hframe].
      apply Hstep; by rewrite Hframe.
    + simpl. revert Hout. unfold update_file_name.
      destruct (runner_args !! "output_filename") as [v|]; [|done].
      destruct (is_none v); [done|]. rewrite Hbatch.
      destruct v as [[]| |]; simpl; congruence.
Qed.

(** [Runner.__init__] has no parameter called [output_filename] or
    [toydata_filename]: arguments that carry one of the two file names
    [update_output_toydata] handles are rejected by
    [check_redunant_arguments], unless the name is specially allowed. *)
Theorem file_name_arguments_rejected runner_args outputfolder out
    allowed_special_args f :
  update_output_toydata runner_args outputfolder = SOk out →
  f ∈ ["output_filename"; "toydata_filename"] →
  is_Some (runner_args !! f) →
  f ∉ allowed_special_args →
  check_redunant_arguments out allowed_special_args
  = SRaise (SValueError ArgumentsNotSupported).
Proof.
  intros Hrun Hf Hsome Hallowed.
  apply update_output_toydata_dom in Hrun.
  unfold check_redunant_arguments. rewrite bool_decide_eq_false_2; [done|].
  intros Hsub. apply elem_of_dom in Hsome. rewrite <- Hrun in Hsome.
  apply Hsub in Hsome. apply elem_of_list_to_set in Hsome.
  rewrite !elem_of_app in Hsome. destruct Hsome as [Hin|[Hin|Hin]]; [| |done].
  - apply elem_of_cons in Hf as [->|Hf]; [|apply list_elem_of_singleton in Hf as ->];
      revert Hin; apply (bool_decide_unpack _); by vm_compute.
  - apply elem_of_cons in Hf as [->|Hf]; [|apply list_elem_of_singleton in Hf as ->];
      by apply list_elem_of_singleton in Hin.
Qed.

(** What a successful assignment to an entry of
    [statistical_model_args] has done. *)
Lemma set_statistical_model_arg_inv key value runner_args out :
  set_statistical_model_arg key value runner_args = SOk out →
  ∃ d, runner_args !! "statistical_model_args" = Some (ADict d) ∧
       out = <["statistical_model_args" := ADict (<[key := value]> d)]> runner_args.
Proof.
  unfold set_statistical_model_arg, getitem.
  destruct (runner_args !! "statistical_model_args") as [[| d |]|]; simpl; try done.
  intros [= <-]. eauto.
Qed.

(** [update_statistical_model_args] succeeds exactly when
    [statistical_model_args] is present and either is a dict or [None], or
    nothing has to be stored in it. *)
Theorem update_statistical_model_args_succeeds runner_args template_path :
  (∃ out, update_statistical_model_args runner_args template_path = SOk out) ↔
  ∃ statistical_model_args,
    runner_args !! "statistical_model_args" = Some statistical_model_args ∧
    ((∃ d, statistical_model_args = ADict d) ∨
     statistical_model_args = AVal PyNone ∨
     (template_path = None ∧ runner_args !! "limit_threshold" = None)).
Proof.
  unfold update_statistical_model_args, set_statistical_model_arg, getitem. split.
  - intros [out Hrun].
    destruct (runner_args !! "statistical_model_args") as [sma|] eqn:Hsma; [|done].
    exists sma. split; [done|]. simpl in Hrun.
    destruct (is_none sma) eqn:Hnone.
    { apply is_none_spec in Hnone. eauto. }
    destruct sma as [v|d|l]; [|eauto|]; right; right.
    + destruct template_path as [path|]; [by rewrite Hsma in Hrun|].
      simpl in Hrun. split; [done|].
      destruct (runner_args !! "limit_threshold"); [|done].
      by rewrite lookup_delete_ne, Hsma in Hrun.
    + destruct template_path as [path|]; [by rewrite Hsma in Hrun|].
      simpl in Hrun. split; [done|].
      destruct (runner_args !! "limit_threshold"); [|done].
      by rewrite lookup_delete_ne, Hsma in Hrun.
  - intros (sma & Hsma & Hcase). rewrite Hsma. simpl.
    destruct Hcase as [[d ->]|[->|[-> Hlimit]]]; simpl.
    + destruct template_path as [path|]; simpl.
      * rewrite Hsma. simpl. rewrite lookup_insert_ne by done.
        destruct (runner_args !! "limit_threshold"); [|eauto].
        rewrite lookup_delete_ne, lookup_insert_eq by done. simpl. eauto.
      * destruct (runner_args !! "limit_threshold"); [|eauto].
        rewrite lookup_delete_ne, Hsma by done. simpl. eauto.
    + destruct template_path as [path|]; simpl.
      * rewrite lookup_insert_eq. simpl. rewrite lookup_insert_ne by done.
        rewrite lookup_insert_ne by done.
        destruct (runner_args !! "limit_threshold"); [|eauto].
        rewrite lookup_delete_ne, lookup_insert_eq by done. simpl. eauto.
      * rewrite lookup_insert_ne by done.
        destruct (runner_args !! "limit_threshold"); [|eauto].
        rewrite lookup_delete_ne, lookup_insert_eq by done. simpl. eauto.
    + destruct (is_none sma); simpl.
      * rewrite lookup_insert_ne, Hlimit by done. eauto.
      * rewrite Hlimit. eauto.
Qed.

(** The two steps of a successful [update_statistical_model_args] after
    the replacement of [None]. *)
Lemma update_statistical_model_args_inv runner_args template_path out :
  update_statistical_model_args runner_args template_path = SOk out →
  ∃ statistical_model_args mid,
    runner_args !! "statistical_model_args" = Some statistical_model_args ∧
    match template_path with
    | Some path =>
        ∃ d, none_to_empty statistical_model_args = ADict d ∧
             mid = <["statistical_model_args" :=
                       ADict (<["template_path" := AVal (PyStr path)]> d)]> runner_args
    | None =>
        mid = <["statistical_model_args" := none_to_empty statistical_model_args]>
                runner_args
    end ∧
    match runner_args !! "limit_threshold" with
    | Some limit_threshold =>
        ∃ d, mid !! "statistical_model_args" = Some (ADict d) ∧
             out = <["statistical_model_args" :=
                       ADict (<["limit_threshold" := limit_threshold]> d)]>
                     (delete "limit_threshold" mid)
    | None => out = mid
    end.
Proof.
  unfold update_statistical_model_args. intros Hrun.
  apply sresult_bind_inv in Hrun as (sma & Hsma & Hrun).
  unfold getitem in Hsma.
  destruct (runner_args !! "statistical_model_args") as [sma'|] eqn:Hsma'; [|done].
  injection Hsma as ->.
  apply sresult_bind_inv in Hrun as (mid & Hmid & Hrun).
  exists sma, mid. split; [done|].
  assert (Hstart : (if is_none sma
                    then <["statistical_model_args" := ADict ∅]> runner_args
                    else runner_args)
                   = <["statistical_model_args" := none_to_empty sma]> runner_args).
  { destruct (is_none sma) eqn:Hnone.
    - apply is_none_spec in Hnone as ->. done.
    - rewrite insert_id; [done|]. rewrite Hsma'. f_equal.
      destruct sma as [[]| |]; done. }
  rewrite Hstart in Hmid.
  assert (Hlimit : mid !! "limit_threshold" = runner_args !! "limit_threshold").
  { destruct template_path as [path|].
    - apply set_statistical_model_arg_inv in Hmid as (d & _ & ->).
      by rewrite !lookup_insert_ne.
    - injection Hmid as <-. by rewrite lookup_insert_ne. }
  rewrite Hlimit in Hrun. split.
  - destruct template_path as [path|].
    + apply set_statistical_model_arg_inv in Hmid as (d & Hd & ->).
      rewrite lookup_insert_eq in Hd. injection Hd as Hd.
      exists d. split; [done|]. by rewrite insert_insert_eq.
    + by injection Hmid as <-.
  - destruct (runner_args !! "limit_threshold") as [limit_threshold|].
    + apply set_statistical_model_arg_inv in Hrun as (d & Hd & ->).
      rewrite lookup_delete_ne in Hd by done. eauto.
    + by injection Hrun as <-.
Qed.

(** After a successful [update_statistical_model_args] there is no
    top-level [limit_threshold] any more and the other top-level
    arguments are untouched; a template path that was given and a
    [limit_threshold] that was there are entries of
    [statistical_model_args], whose other entries are kept. *)
Theorem update_statistical_model_args_moves runner_args template_path out :
  update_statistical_model_args runner_args template_path = SOk out →
  out !! "limit_threshold" = None ∧
  (∀ k, k ≠ "limit_threshold" → k ≠ "statistical_model_args" →
        out !! k = runner_args !! k) ∧
  (∀ path, template_path = Some path →
     ∃ d, out !! "statistical_model_args" = Some (ADict d) ∧
          d !! "template_path" = Some (AVal (PyStr path))) ∧
  (∀ limit_threshold, runner_args !! "limit_threshold" = Some limit_threshold →
     ∃ d, out !! "statistical_model_args" = Some (ADict d) ∧
          d !! "limit_threshold" = Some limit_threshold) ∧
  (∀ d0, runner_args !! "statistical_model_args" = Some (ADict d0) →
     ∃ d, out !! "statistical_model_args" = Some (ADict d) ∧
          ∀ k, k ≠ "template_path" → k ≠ "limit_threshold" → d !! k = d0 !! k).
Proof.
  intros Hrun.
  apply update_statistical_model_args_inv in Hrun
    as (sma & mid & Hsma & Hmid & Hout).
  destruct (runner_args !! "limit_threshold") as [limit_threshold|] eqn:Hlimit.
  - destruct Hout as (d1 & Hd1 & ->).
    destruct template_path as [path|].
    + destruct Hmid as (d & Hd & ->).
      rewrite lookup_insert_eq in Hd1. injection Hd1 as <-.
      split. { by rewrite lookup_insert_ne, lookup_delete_eq. }
      split. { intros k Hk1 Hk2.
               by rewrite lookup_insert_ne, lookup_delete_ne, lookup_insert_ne. }
      split. { intros ? [= <-]. eexists. rewrite lookup_insert_eq. split; [done|].
               by rewrite lookup_insert_ne, lookup_insert_eq. }
      split. { intros ? [= <-]. eexists. rewrite lookup_insert_eq. split; [done|].
               by rewrite lookup_insert_eq. }
      intros d0 Hd0. rewrite Hsma in Hd0. injection Hd0 as ->.
      simpl in Hd. injection Hd as <-.
      eexists. rewrite lookup_insert_eq. split; [done|].
      intros k Hk1 Hk2. by rewrite !lookup_insert_ne.
    + subst mid. rewrite lookup_insert_eq in Hd1.
      split. { by rewrite lookup_insert_ne, lookup_delete_eq. }
      split. { intros k Hk1 Hk2.
               by rewrite lookup_insert_ne, lookup_delete_ne, lookup_insert_ne. }
      split. { done. }
      split. { intros ? [= <-]. eexists. rewrite lookup_insert_eq. split; [done|].
               by rewrite lookup_insert_eq. }
      intros d0 Hd0. rewrite Hsma in Hd0. injection Hd0 as ->.
      simpl in Hd1. injection Hd1 as <-.
      eexists. rewrite lookup_insert_eq. split; [done|].
      intros k Hk1 Hk2. by rewrite !lookup_insert_ne.
  - subst out. destruct template_path as [path|].
    + destruct Hmid as (d & Hd & ->).
      split. { by rewrite lookup_insert_ne. }
      split. { intros k Hk1 Hk2. by rewrite lookup_insert_ne. }
      split. { intros ? [= <-]. eexists. rewrite lookup_insert_eq. split; [done|].
               by rewrite lookup_insert_eq. }
      split. { done. }
      intros d0 Hd0. rewrite Hsma in Hd0. injection Hd0 as ->.
      simpl in Hd. injection Hd as <-.
      eexists. rewrite lookup_insert_eq. split; [done|].
      intros k Hk1 Hk2. by rewrite !lookup_insert_ne.
    + subst mid.
      split. { by rewrite lookup_insert_ne. }
      split. { intros k Hk1 Hk2. by rewrite lookup_insert_ne. }
      split. { done. }
      split. { done. }
      intros d0 Hd0. rewrite Hsma in Hd0. injection Hd0 as ->.
      eexists. rewrite lookup_insert_eq. split; [done|]. done.
Qed.

(** [update_limit_threshold] followed by [update_statistical_model_args]:
    a top-level [limit_threshold] has to be a string, and ends up, joined
    to the output folder, as the [limit_threshold] entry of
    [statistical_model_args]. *)
Theorem limit_threshold_moves runner_args outputfolder template_path
    limit_threshold mid out :
  runner_args !! "limit_threshold" = Some limit_threshold →
  update_limit_threshold runner_args outputfolder = SOk mid →
  update_statistical_model_args mid template_path = SOk out →
  ∃ s d, limit_threshold = AVal (PyStr s) ∧
         out !! "limit_threshold" = None ∧
         out !! "statistical_model_args" = Some (ADict d) ∧
         d !! "limit_threshold" = Some (AVal (PyStr (path_join outputfolder s))).
Proof.
  intros Hlimit Hfirst Hsecond. unfold update_limit_threshold in Hfirst.
  rewrite Hlimit in Hfirst.
  apply sresult_bind_inv in Hfirst as (path & Hpath & [= <-]).
  apply os_path_join_inv in Hpath as (s & -> & ->).
  apply update_statistical_model_args_inv in Hsecond
    as (sma & mid & Hsma & Hmid & Hout).
  rewrite lookup_insert_eq in Hout. destruct Hout as (d & Hd & ->).
  exists s. eexists. split; [done|].
  split. { by rewrite lookup_insert_ne, lookup_delete_eq. }
  rewrite lookup_insert_eq. split; [done|]. by rewrite lookup_insert_eq.
Qed.


End SubmitterProperties.

(** * The runner on concrete inputs *)

Import Example.

Lemma init_args_with mode only cci :
  init (args_with [HypStr "free"; HypStr "null"] mode only cci None) w0
  = (Ok (runner_with mode only cci ∅), w_built).
Proof. reflexivity. Qed.

(** C1, the columns: with the Gaussian model, whose parameter list is
    [sigma, mu] and whose only fittable parameter is [mu], the tables have
    the columns [mu, sigma, ll, dl, ul]: [sigma] is a column although it is
    not fittable. *)
Lemma columns_include_fixed_parameters :
  ∃ r w1 results w',
    init (args_with [HypStr "free"; HypStr "null"] "no_toydata" false false None) w0
      = (Ok r, w1) ∧
    simulate_and_fit r w1 = (Ok results, w') ∧
    results ≠ [] ∧
    Forall (λ t, dtype_names t ≠ sorted (fittable (ext w1)) ++ ["ll"; "dl"; "ul"])
           results.
Proof.
  exists (runner_with "no_toydata" false false ∅), w_built.
  eexists. eexists. split; [reflexivity|].
  split; [vm_compute; reflexivity|]. split; [done|].
  repeat constructor; by vm_compute.
Qed.

Lemma simulate_and_fit_tables_witness :
  ∃ results w',
    simulate_and_fit (runner_with "read" false false ∅) w_built = (Ok results, w') ∧
    length results = 2%nat ∧
    ∀ j t, results !! j = Some t →
      dtype_names t = ["mu"; "sigma"; "ll"; "dl"; "ul"] ∧
      Z.of_nat (length (rows t)) = 3.
Proof.
  eexists. eexists. split; [vm_compute; reflexivity|].
  match goal with
  | |- context [?res !! _ = Some _] =>
      destruct (simulate_and_fit_tables
                  (args_with [HypStr "free"; HypStr "null"] "read" false false None)
                  w0 (runner_with "read" false false ∅) w_built w_built res _
                  (init_args_with "read" false false) eq_refl)
        as (_ & _ & Hlen & records & _ & _ & Htables)
  end.
  split; [exact Hlen|].
  intros j t Ht. destruct (Htables j t Ht) as (Hdt & Hrows & _). split; assumption.
Defined.

Lemma hypothesis_resolution_witness :
  _get_hypotheses "mu" [HypStr "free"; HypStr "null"] ∅ ∅ false
    = Ok [∅; {[ "mu" := PyFloatV float_zero ]}] ∧
  _get_hypotheses "mu" [HypStr "null"; HypStr "free"] ∅ ∅ false
    = Raise (ValueError FreeNotFirst) ∧
  _get_hypotheses "mu"
    [HypStr "free"; HypStr "null"; HypStr "true"; HypDict {[ "mu" := PyInt 3 ]}]
    {[ "sigma" := PyInt 1 ]} {[ "mu" := qf 2 ]} true
    = Ok [{[ "sigma" := PyInt 1 ]};
          <["mu" := PyFloatV float_zero]> {[ "sigma" := PyInt 1 ]};
          <["mu" := qf 2]> {[ "sigma" := PyInt 1 ]};
          {[ "mu" := PyInt 3 ]} ∪ {[ "sigma" := PyInt 1 ]}].
Proof.
  destruct (hypothesis_resolution "mu" ∅ ∅ false) as (_ & _ & _ & Hfree & _ & Hnull).
  split; [exact Hfree|]. split; [exact Hnull|].
  destruct (hypothesis_resolution "mu" {[ "sigma" := PyInt 1 ]} {[ "mu" := qf 2 ]} true)
    as (Hsucceeds & Hresolved & _).
  destruct (Hsucceeds [HypStr "free"; HypStr "null"; HypStr "true";
                       HypDict {[ "mu" := PyInt 3 ]}]) as [hvs Hok].
  - discriminate.
  - reflexivity.
  - reflexivity.
  - reflexivity.
  - intros h Hh.
    apply elem_of_cons in Hh as [->|Hh]; [by left|].
    apply elem_of_cons in Hh as [->|Hh]; [by right; left|].
    apply elem_of_cons in Hh as [->|Hh].
    { right; right. split; [done|]. by exists (qf 2). }
    apply list_elem_of_singleton in Hh as ->. reflexivity.
  - destruct (Hresolved _ _ Hok) as [Hlen Hlookup].
    destruct (Hlookup 0%nat _ eq_refl) as (H0 & _ & _).
    destruct (Hlookup 1%nat _ eq_refl) as (_ & H1 & _).
    destruct (Hlookup 2%nat _ eq_refl) as (_ & _ & H2).
    pose proof (Hlookup 3%nat _ eq_refl) as H3. cbv beta iota in H3.
    destruct (H2 eq_refl) as (v & Hv & H2').
    apply lookup_singleton_Some in Hv as [_ <-].
    specialize (H0 eq_refl). specialize (H1 eq_refl).
    destruct hvs as [|a [|b [|c [|d [|e hvs]]]]]; try discriminate Hlen.
    rewrite Hok. simpl in H0, H1, H2', H3.
    apply (inj Some) in H0, H1, H2', H3. by subst.
Defined.

Lemma poi_expectation_resolution_witness :
  all_float_int ({[ "poi_expectation" := qf 6 ]} : dict) = true ∧
  ∃ resolved w',
    set_generate_values "signal_rate_multiplier" ∅
      {[ "poi_expectation" := qf 6 ]} w0 = (Ok resolved, w') ∧
    resolved !! "signal_rate_multiplier" = Some (qf (3 # 2)) ∧
    resolved !! "poi_expectation" = None.
Proof.
  assert (Hnum : all_float_int ({[ "poi_expectation" := qf 6 ]} : dict) = true)
    by reflexivity.
  split; [exact Hnum|].
  destruct (poi_expectation_resolution "signal_rate_multiplier" ∅
              {[ "poi_expectation" := qf 6 ]} (qf 6) w0 Hnum)
    as (Hresolve & _ & _); [reflexivity|].
  destruct (Hresolve {[ "signal" := qf 4 ]} s0 (qf 4) (qf (3 # 2)))
    as (resolved & w' & Hset & Hpoi & Hkey & _); [reflexivity..|].
  exists resolved, w'. repeat split; assumption.
Defined.

Lemma bounds_of_hypothesis_witness :
  bounds (runner_with "no_toydata" false true ∅) ∅ w_built
    = (Ok (PyInt (- 2), PyInt 2),
       World s0 (log w_built ++ [EvConfidenceInterval "mu" ∅ ∅])) ∧
  bounds (runner_with "no_toydata" false true ∅)
         {[ "mu" := qf 0 ]} w_built
    = (Ok (PyFloatV float_nan, PyFloatV float_nan), w_built).
Proof.
  destruct (bounds_of_hypothesis (runner_with "no_toydata" false true ∅) ∅ w_built)
    as (Hci & _ & _).
  destruct (bounds_of_hypothesis (runner_with "no_toydata" false true ∅)
              {[ "mu" := qf 0 ]} w_built) as (_ & Hnan & _).
  split.
  - rewrite (Hci eq_refl eq_refl ∅ eq_refl). reflexivity.
  - apply Hnan. right. eexists. reflexivity.
Defined.

(** C5, construction: with [only_toydata=True] and mode [read] the runner
    is constructed; the combination is not checked by [__init__]. *)
Lemma only_toydata_read_is_constructed :
  ∃ r w',
    init (args_with [HypStr "free"; HypStr "null"] "read" true false None) w0
      = (Ok r, w') ∧
    only_toydata r = true ∧ _toydata_mode r = "read".
Proof.
  exists (runner_with "read" true false ∅), w_built.
  split; [apply init_args_with|]. split; reflexivity.
Qed.

Lemma only_toydata_rejected_by_generator_witness :
  ∃ r,
    init (args_with [HypStr "free"; HypStr "null"] "read" true false None) w0
      = (Ok r, w_built) ∧
    run r w_built = (Raise (ValueError (OnlyToydataMode "read")), w_built).
Proof.
  destruct only_toydata_rejected_by_generator as [Hinit Hgenerator].
  destruct (Hinit (args_with [HypStr "free"; HypStr "null"] "no_toydata" false false None)
              "read" true w0) as [Hbuilt _].
  destruct (Hbuilt _ _ (init_args_with "no_toydata" false false))
    as (r & Hr & Honly & Hmode).
  exists r. split; [exact Hr|].
  destruct (Hgenerator r w_built Honly) as ((m & Hm & _ & _ & Hrun & _) & _).
  - rewrite Hmode. discriminate.
  - rewrite Hrun. rewrite Hmode in Hm. destruct Hm as [->| ->]; [|reflexivity].
    change (init (args_with [HypStr "free"; HypStr "null"] "read" true false None) w0
            = (Ok r, w_built)) in Hr.
    rewrite init_args_with in Hr. injection Hr as <-.
    apply (f_equal fst) in Hrun. vm_compute in Hrun. discriminate Hrun.
Defined.

Lemma read_mode_stored_toydata_witness :
  data_generator_start (runner_with "read" false false ∅) w_built
    = (Ok ([7; 8; 9; 10; 11], Some tt),
       World s0 (log w_built ++ [EvReadToydata "stored.h5"]
                   ++ [EvWarnStoredToydataLarger 5 3])) ∧
  data_generator_next (runner_with "read" false false ∅) 2 [7; 8; 9; 10; 11] w_built
    = (Ok (Some 9, [7; 8; 9; 10; 11]), w_built).
Proof.
  destruct (read_mode_stored_toydata (runner_with "read" false false ∅) w_built
              [7; 8; 9; 10; 11] tt s0 eq_refl eq_refl eq_refl) as (_ & Hmore).
  destruct Hmore as (Hstart & Hnext & _); [reflexivity|].
  split; [exact Hstart|].
  destruct (Hnext 2%nat w_built) as (data & Hdata & Hyield); [simpl; lia|].
  injection Hdata as <-. exact Hyield.
Defined.

Lemma construction_rejects_hypotheses_witness :
  init (args_with [] "generate_and_write" false false None) w0
    = (Raise (ValueError HypothesesEmpty), w_built) ∧
  init (args_with [HypStr "null"] "generate_and_write" false true None) w0
    = (Raise (ValueError FreeNeededForConfidenceInterval), w_built).
Proof.
  split.
  - destruct (construction_rejects_hypotheses
                (args_with [] "generate_and_write" false false None) w0)
      as (_ & Herr); [by left|].
    exact (Herr s0 eq_refl eq_refl eq_refl eq_refl).
  - destruct (construction_rejects_hypotheses
                (args_with [HypStr "null"] "generate_and_write" false true None) w0)
      as (_ & Herr); [right; split; reflexivity|].
    exact (Herr s0 eq_refl eq_refl eq_refl eq_refl).
Defined.

Lemma hypothesis_must_be_fittable_witness :
  fit_hypothesis (runner_with "no_toydata" false false ∅)
    {[ "sigma" := PyInt 2 ]} w_built
    = (Raise (ValueError (HypothesisNotFittable {[ "sigma" := PyInt 2 ]} ["mu"])),
       w_built) ∧
  ∃ fit_result,
    fit_hypothesis (runner_with "no_toydata" false false ∅)
      {[ "mu" := qf 0 ]} w_built
      = (Ok fit_result,
         World s0 (log w_built ++ [EvFit {[ "mu" := qf 0 ]}])).
Proof.
  split.
  - destruct (hypothesis_must_be_fittable (runner_with "no_toydata" false false ∅)
                {[ "sigma" := PyInt 2 ]} w_built) as (Hfail & _).
    apply Hfail. intros Hsub.
    specialize (Hsub "sigma" ltac:(eexists; reflexivity)).
    vm_compute in Hsub. by apply list_elem_of_singleton in Hsub.
  - destruct (hypothesis_must_be_fittable (runner_with "no_toydata" false false ∅)
                {[ "mu" := qf 0 ]} w_built) as (_ & Hfit & _).
    eexists. rewrite Hfit; [vm_compute; reflexivity|].
    intros k [v Hk]. apply lookup_singleton_Some in Hk as [<- _].
    apply list_elem_of_singleton. reflexivity.
Defined.

Lemma generate_values_identity_witness :
  set_generate_values "mu" ∅ {[ "mu" := PyInt 0; "sigma" := PyInt 2 ]} w0
    = (Ok {[ "mu" := PyInt 0; "sigma" := PyInt 2 ]}, w0).
Proof.
  destruct (generate_values_identity "mu" ∅ {[ "mu" := PyInt 0; "sigma" := PyInt 2 ]})
    as (Hset & _).
  - apply all_float_int_spec. reflexivity.
  - reflexivity.
  - apply Hset.
Defined.

Lemma booleans_pass_validation_witness :
  all_float_int ({[ "mu" := PyBool true ]} : dict) = true ∧
  set_generate_values "mu" ∅ {[ "mu" := PyBool true ]} w0
    = (Ok {[ "mu" := PyBool true ]}, w0) ∧
  ∃ r w',
    init (args_with [HypStr "free"; HypStr "true"] "no_toydata" false false
            (Some {[ "mu" := PyBool true ]})) w0 = (Ok r, w') ∧
    _hypotheses_values r = [∅; {[ "mu" := PyBool true ]}].
Proof.
  destruct (booleans_pass_validation {[ "mu" := PyBool true ]}) as (Hall & _ & Hset & _).
  - intros k v Hkv. apply lookup_singleton_Some in Hkv as [_ <-]. eauto.
  - split; [exact Hall|]. split; [rewrite Hset; reflexivity|].
    eexists. eexists. split; [vm_compute; reflexivity|]. reflexivity.
Defined.

(** * The further properties on concrete inputs *)

Import Example2.

Lemma init_events_witness :
  log w_built
  = log w0 ++ [EvBuildModel "alea.examples.gaussian_model.GaussianModel" ∅ tt].
Proof.
  destruct (init_events (args_with [HypStr "free"; HypStr "null"] "read" false false None)
              w0 _ _ (init_args_with "read" false false)) as [Hlog|Hlog].
  - exact Hlog.
  - apply (f_equal length) in Hlog. discriminate Hlog.
Defined.

Lemma unknown_toydata_mode_witness :
  simulate (runner_with "write" false false ∅) w_built
  = (Raise (ValueError (UnknownToydataMode "write")), w_built).
Proof.
  destruct (unknown_toydata_mode (runner_with "write" false false ∅) w_built)
    as (_ & Hsim & _).
  - apply (bool_decide_unpack _). by vm_compute.
  - exact Hsim.
Defined.

Lemma negative_n_mc_rejected_witness :
  simulate_and_fit (runner_mc "no_toydata" (- 1)) w_built
  = (Raise (ValueError NegativeDimensions), w_built).
Proof.
  apply (negative_n_mc_rejected (runner_mc "no_toydata" (- 1)) w_built).
  - reflexivity.
  - discriminate.
Defined.

Lemma zero_n_mc_empty_tables_witness :
  simulate_and_fit (runner_mc "no_toydata" 0) w_built
  = (Ok (replicate 2 {| dtype_names := ["mu"; "sigma"; "ll"; "dl"; "ul"];
                        rows := [] |}), w_built).
Proof.
  apply (zero_n_mc_empty_tables (runner_mc "no_toydata" 0) w_built).
  - reflexivity.
  - reflexivity.
  - right. reflexivity.
Defined.

Lemma setters_reject_non_numeric_witness :
  set_common_hypothesis {[ "mu" := PyStr "zero" ]} w0
  = (Raise (ValueError (CommonHypothesisNotFloat {[ "mu" := PyStr "zero" ]})), w0).
Proof.
  destruct (setters_reject_non_numeric {[ "mu" := PyStr "zero" ]} "mu" (PyStr "zero"))
    as (Hcommon & _).
  - by vm_compute.
  - reflexivity.
  - apply Hcommon.
Defined.

Lemma poi_expectation_failures_witness :
  set_generate_values "background_rate_multiplier" ∅
    {[ "poi_expectation" := qf 6 ]} w0
  = (Raise (KeyError "background"),
     World s0 (log w0 ++ [EvExpectationValues
                            (∅ ∪ delete "poi_expectation"
                               {[ "poi_expectation" := qf 6 ]})])).
Proof.
  assert (Hnum : all_float_int ({[ "poi_expectation" := qf 6 ]} : dict) = true)
    by (by vm_compute).
  destruct (poi_expectation_failures "background_rate_multiplier" ∅
              {[ "poi_expectation" := qf 6 ]} (qf 6) w0
              {[ "signal" := qf 4 ]} s0 Hnum) as (Hkey & _).
  - by vm_compute.
  - by vm_compute.
  - by vm_compute.
  - reflexivity.
  - apply Hkey. by vm_compute.
Defined.

Lemma invalid_hypotheses_rejected_witness :
  ∃ e, _get_hypotheses "mu" [HypStr "free"; HypStr "zero"] ∅ ∅ false = Raise e.
Proof.
  apply (invalid_hypotheses_rejected "mu" [HypStr "free"; HypStr "zero"] ∅ ∅ false
           (HypStr "zero")).
  - apply list_elem_of_further, list_elem_of_here.
  - apply (bool_decide_unpack _). by vm_compute.
Defined.

Lemma fit_record_contents_witness :
  ∃ fit_result w',
    fit_hypothesis (runner_with "no_toydata" false false ∅) {[ "mu" := qf 0 ]} w_built
      = (Ok fit_result, w') ∧
    fit_result !! "ll" = Some (PyInt (- 1)) ∧
    fit_result !! "sigma" = Some (PyInt 1).
Proof.
  destruct (returns_Ok (fit_hypothesis (runner_with "no_toydata" false false ∅)
                          {[ "mu" := qf 0 ]} w_built))
    as (fit_result & w' & Hrun); [by vm_compute|].
  exists fit_result, w'. split; [exact Hrun|].
  destruct (fit_record_contents _ _ _ _ _ Hrun)
    as (fitted & max_llh & s1 & Hfit & Hll & Hother & _).
  injection Hfit as <- <- _.
  split; [exact Hll|]. rewrite Hother; [by vm_compute|].
  apply (bool_decide_unpack _). by vm_compute.
Defined.

Lemma no_toydata_loop_witness :
  for_data_generator (runner_mc "no_toydata" 2)
    (iteration (runner_mc "no_toydata" 2)) [] w_built
  = for_range (λ i a, iteration (runner_mc "no_toydata" 2) i None a) 0 2 [] w_built.
Proof.
  apply (no_toydata_loop (runner_mc "no_toydata" 2)
           (iteration (runner_mc "no_toydata" 2)) [] w_built); reflexivity.
Defined.

Lemma generate_loop_witness :
  for_data_generator (runner_mc "generate" 2)
    (iteration (runner_mc "generate" 2)) [] w_built
  = for_range
      (λ i a, data ← call (EvGenerateData ∅) (generate_data ∅);
              iteration (runner_mc "generate" 2) i (Some data) a)
      0 2 [] w_built.
Proof.
  apply (generate_loop (runner_mc "generate" 2)
           (iteration (runner_mc "generate" 2)) [] w_built); reflexivity.
Defined.

Lemma run_writes_output_last_witness :
  ∃ x w' evs,
    run (runner_mc "no_toydata" 1) w_built = (x, w') ∧
    log w' = log w_built ++ evs ∧
    last evs = Some (EvWriteOutput "test_output_file.h5").
Proof.
  destruct (returns_Ok (run (runner_mc "no_toydata" 1) w_built))
    as ([] & w' & Hrun); [by vm_compute|].
  exists (Ok tt), w'.
  destruct (run_writes_output_last _ _ _ _ Hrun)
    as (evs & Hlog & [[Hnone [Honly|[e He]]]|(evs0 & results & w1 & -> & _)]).
  - discriminate Honly.
  - discriminate He.
  - eexists. split; [exact Hrun|]. split; [exact Hlog|].
    by rewrite last_snoc.
Defined.

Lemma fits_of_a_run_witness :
  ∃ results w' evs,
    simulate_and_fit (runner_mc "no_toydata" 2) w_built = (Ok results, w') ∧
    log w' = log w_built ++ evs ∧
    fit_payloads evs = [∅; {[ "mu" := qf 0 ]}; ∅; {[ "mu" := qf 0 ]}].
Proof.
  destruct (returns_Ok (simulate_and_fit (runner_mc "no_toydata" 2) w_built))
    as (results & w' & Hrun); [by vm_compute|].
  destruct (fits_of_a_run _ _ _ _ Hrun) as (evs & Hlog & Hfits & _).
  exists results, w', evs. split; [exact Hrun|]. split; [exact Hlog|exact Hfits].
Defined.

Lemma stored_toydata_is_fitted_toydata_witness :
  ∃ results w' evs (toydata : list Z),
    simulate_and_fit (runner_mc "generate_and_write" 2) w_built = (Ok results, w') ∧
    log w' = log w_built ++ evs ++ [EvStoreData "stored.h5" toydata None] ∧
    length toydata = 2%nat ∧
    set_data_payloads evs = Some <$> toydata.
Proof.
  destruct (returns_Ok (simulate_and_fit (runner_mc "generate_and_write" 2) w_built))
    as (results & w' & Hrun); [by vm_compute|].
  destruct (stored_toydata_is_fitted_toydata
              (runner_mc "generate_and_write" 2) _ _ _ eq_refl Hrun)
    as (evs & toydata & Hlog & Hlen & Hset & _).
  exists results, w', evs, toydata. repeat split; assumption.
Defined.

Lemma simulate_stops_at_falsy_data_witness :
  @simulate _ falsy_model (runner_mc "generate_and_write" 3)
    (@World _ falsy_model s0 [])
  = (Ok tt, @World _ falsy_model
              {| st_data := None; st_draws := 0 + 1;
                 st_files := {[ "stored.h5" := [7; 8; 9; 10; 11] ]};
                 st_outputs := [] |}
              ([] ++ [@EvGenerateData _ falsy_model ∅])).
Proof.
  apply (@simulate_stops_at_falsy_data _ falsy_model
           (runner_mc "generate_and_write" 3) (@World _ falsy_model s0 []) 10);
    reflexivity.
Defined.

Lemma simulate_drains_generator_witness :
  simulate (runner_mc "generate_and_write" 2) w_built
  = for_data_generator (runner_mc "generate_and_write" 2)
      (λ _ _ (a : unit), mret a) tt w_built.
Proof.
  apply (simulate_drains_generator (runner_mc "generate_and_write" 2) w_built).
  intros data. reflexivity.
Defined.

Lemma output_names_spec_witness :
  output_names (runner_with "no_toydata" false false ∅) = Ok ["free"; "null"].
Proof.
  destruct (output_names_spec (runner_with "no_toydata" false false ∅))
    as (Hnames & _).
  destruct Hnames as (names & Hrun & Hlen & Hlookup); [simpl; lia|].
  rewrite Hrun. f_equal.
  pose proof (Hlookup 0%nat ltac:(simpl; lia)) as H0.
  pose proof (Hlookup 1%nat ltac:(simpl; lia)) as H1.
  destruct names as [|a [|b [|c names]]]; try discriminate Hlen.
  by simplify_eq/=.
Defined.

Lemma update_n_batch_splits_witness :
  update_n_batch grid_args
  = SOk (false, <["n_mc" := AVal (PyInt 2)]> grid_args).
Proof.
  destruct (update_n_batch_splits grid_args 10 5) as (_ & _ & Hsplit);
    [by vm_compute..|].
  destruct Hsplit as (q & Hrun & Hq); [lia|reflexivity|].
  rewrite Hrun. repeat f_equal. lia.
Defined.

Lemma update_runner_args_moves_witness :
  update_runner_args grid_args ["mu"; "poi_expectation"] ["sigma"]
    = SOk grid_args_updated ∧
  grid_args_updated !! "mu" = None ∧
  grid_args_updated !! "n_mc" = Some (AVal (PyInt 10)).
Proof.
  assert (Hrun : update_runner_args grid_args ["mu"; "poi_expectation"] ["sigma"]
                 = SOk grid_args_updated) by (vm_compute; reflexivity).
  split; [exact Hrun|].
  destruct (update_runner_args_moves _ _ _ _ Hrun)
    as (gv & nv & _ & _ & _ & _ & _ & Hmoved & Hkept & _).
  split.
  - exact (Hmoved "mu" (or_introl (list_elem_of_here _ _))).
  - rewrite (Hkept "n_mc"); [by vm_compute|..].
    + apply (bool_decide_unpack _). by vm_compute.
    + apply (bool_decide_unpack _). by vm_compute.
    + discriminate.
    + discriminate.
Defined.

Lemma update_runner_args_idempotent_witness :
  update_runner_args grid_args_updated ["mu"; "poi_expectation"] ["sigma"]
  = SOk grid_args_updated.
Proof.
  apply (update_runner_args_idempotent grid_args).
  vm_compute; reflexivity.
Defined.

Lemma moved_parameters_pass_the_check_witness :
  check_redunant_arguments grid_args_updated [] = SOk tt ∧
  check_redunant_arguments grid_args [] = SRaise (SValueError ArgumentsNotSupported).
Proof.
  assert (Hrun : update_runner_args grid_args ["mu"; "poi_expectation"] ["sigma"]
                 = SOk grid_args_updated) by (vm_compute; reflexivity).
  destruct (moved_parameters_pass_the_check _ _ _ [] _ Hrun) as (Hpass & _).
  split; [|vm_compute; reflexivity].
  apply Hpass. intros k [x Hk].
  assert (Hall : map_Forall
            (λ k (_ : argval),
               k ∈ runner_init_parameters ++ ["n_batch"] ++ [] ∨
               k ∈ ["mu"; "poi_expectation"] ∨ k ∈ ["sigma"]) grid_args).
  { apply (bool_decide_unpack _). by vm_compute. }
  exact (Hall k x Hk).
Defined.

Lemma str_argument_round_trip_witness :
  arg_to_str (SR:=plain_runtime) (AVal (PyStr "None")) TStr = SOk (AVal (PyStr "None")) ∧
  str_to_arg (SR:=plain_runtime) "None" TStr = SOk (AVal PyNone) ∧
  str_to_arg (SR:=plain_runtime) "read" TStr = SOk (AVal (PyStr "read")).
Proof.
  destruct (str_argument_round_trip (SR:=plain_runtime) TStr "None" eq_refl)
    as (_ & Hwrite & Hread).
  destruct (str_argument_round_trip (SR:=plain_runtime) TStr "read" eq_refl)
    as (_ & _ & Hread').
  split; [exact Hwrite|]. split; [exact Hread|exact Hread'].
Defined.

Lemma bool_argument_round_trip_witness :
  arg_to_str (SR:=plain_runtime) (AVal (PyBool true)) TBool = SOk (AVal (PyStr "True")) ∧
  str_to_arg (SR:=plain_runtime) "True" TBool = SOk (AVal (PyBool true)) ∧
  str_to_arg (SR:=plain_runtime) "yes" TBool = SRaise (SValueError (UnknownBoolValue "yes")).
Proof.
  destruct (bool_argument_round_trip (SR:=plain_runtime) TBool eq_refl eq_refl eq_refl eq_refl)
    as (Hround & Hbad).
  destruct (Hround true) as (s & Hwrite & Hread).
  assert (s = "True") as ->.
  { vm_compute in Hwrite. by injection Hwrite as <-. }
  split; [exact Hwrite|]. split; [exact Hread|].
  apply Hbad. apply (bool_decide_unpack _). by vm_compute.
Defined.

Lemma update_output_toydata_keeps_witness :
  ∃ out, update_output_toydata threshold_args "results" = SOk out ∧
         out !! "output_filename" = Some (AVal (PyStr "results/out.h5")) ∧
         out !! "toydata_filename" = Some (AVal PyNone).
Proof.
  destruct (is_SOk_inv (update_output_toydata threshold_args "results"))
    as [out Hrun]; [by vm_compute|].
  exists out. split; [exact Hrun|].
  destruct (update_output_toydata_keeps _ _ _ Hrun) as (_ & _ & Hnone & Hstr).
  split.
  - destruct (Hstr "output_filename" (AVal (PyStr "out.h5"))) as (s & Hs & Hout).
    + apply list_elem_of_here.
    + reflexivity.
    + discriminate.
    + reflexivity.
    + injection Hs as <-. exact Hout.
  - apply Hnone; [apply list_elem_of_further, list_elem_of_here|reflexivity].
Defined.

Lemma file_name_must_be_str_witness :
  update_output_toydata {[ "toydata_filename" := AVal (PyInt 3) ]} "results"
  = SRaise STypeError.
Proof.
  apply (file_name_must_be_str _ "results" "toydata_filename" (AVal (PyInt 3))).
  - reflexivity.
  - apply list_elem_of_further, list_elem_of_here.
  - reflexivity.
  - discriminate.
  - discriminate.
Defined.

Lemma file_name_arguments_rejected_witness :
  ∃ out, update_output_toydata threshold_args "results" = SOk out ∧
         check_redunant_arguments out ["limit_threshold"]
         = SRaise (SValueError ArgumentsNotSupported).
Proof.
  destruct (is_SOk_inv (update_output_toydata threshold_args "results"))
    as [out Hrun]; [by vm_compute|].
  exists out. split; [exact Hrun|].
  apply (file_name_arguments_rejected _ _ _ _ "output_filename" Hrun).
  - apply list_elem_of_here.
  - by eexists.
  - apply (bool_decide_unpack _). by vm_compute.
Defined.

Lemma update_statistical_model_args_moves_witness :
  ∃ out d, update_statistical_model_args threshold_args (Some "templates") = SOk out ∧
           out !! "limit_threshold" = None ∧
           out !! "statistical_model_args" = Some (ADict d) ∧
           d !! "template_path" = Some (AVal (PyStr "templates")).
Proof.
  destruct (is_SOk_inv (update_statistical_model_args threshold_args (Some "templates")))
    as [out Hrun]; [by vm_compute|].
  destruct (update_statistical_model_args_moves _ _ _ Hrun)
    as (Hgone & _ & Htemplate & _).
  destruct (Htemplate "templates" eq_refl) as (d & Hd & Hpath).
  exists out, d. split; [exact Hrun|]. split; [exact Hgone|]. split; assumption.
Defined.

Lemma limit_threshold_moves_witness :
  ∃ mid out d,
    update_limit_threshold threshold_args "results" = SOk mid ∧
    update_statistical_model_args mid None = SOk out ∧
    out !! "statistical_model_args" = Some (ADict d) ∧
    d !! "limit_threshold" = Some (AVal (PyStr "results/thresholds.json")).
Proof.
  destruct (is_SOk_inv (update_limit_threshold threshold_args "results"
                         ≫= λ mid, update_statistical_model_args mid None))
    as [out Hrun]; [by vm_compute|].
  apply sresult_bind_inv in Hrun as (mid & Hfirst & Hsecond).
  destruct (limit_threshold_moves threshold_args "results" None
              (AVal (PyStr "thresholds.json")) mid out eq_refl Hfirst Hsecond)
    as (s & d & Hs & _ & Hd & Hlimit).
  injection Hs as <-.
  exists mid, out, d. split; [exact Hfirst|]. split; [exact Hsecond|].
  split; assumption.
Defined.
